(** * techworld: the account, notes and reactions application

    A shallow embedding of [my-project/app.py] (the Flask request
    handlers) and [my-project/manage_admin.py] (the administration CLI).

    The SQLite database is a record of three tables, each a list of rows
    in rowid order.  A connection carries the committed database and the
    working copy of its open transaction.  A request handler is a function
    from the committed database, the session cookie and the request to a
    response, the new committed database and the new session. *)

From Stdlib Require Import List ZArith NArith Bool String Ascii Lia.
From Stdlib Require Import Permutation Sorted.
Import ListNotations.

Set Implicit Arguments.
Open Scope Z_scope.

(** ** Python strings *)

Module Py.

(** A Python [str] is a sequence of code points. *)
Definition str := list N.

(** A literal of the source. *)
Definition lit (s : string) : str := map N_of_ascii (list_ascii_of_string s).

Definition str_eqb (a b : str) : bool :=
  if list_eq_dec N.eq_dec a b then true else false.

(** Truth value of a string: [if s] holds for the non-empty ones. *)
Definition truthy (s : str) : bool :=
  match s with [] => false | _ :: _ => true end.

(** Truth value of [os.environ.get(..)] and [request.form.get(..)]:
    [None] and the empty string are false. *)
Definition truthy_opt (s : option str) : bool :=
  match s with Some s => truthy s | None => false end.

(** [str.isspace] on one code point. *)
Definition isspace (c : N) : bool :=
  ((9 <=? c) && (c <=? 13) || (28 <=? c) && (c <=? 32)
   || (c =? 133) || (c =? 160) || (c =? 5760)
   || (8192 <=? c) && (c <=? 8202)
   || (c =? 8232) || (c =? 8233) || (c =? 8239) || (c =? 8287)
   || (c =? 12288))%N.

Fixpoint lstrip (s : str) : str :=
  match s with
  | c :: s' => if isspace c then lstrip s' else s
  | [] => []
  end.

Definition rstrip (s : str) : str := rev (lstrip (rev s)).

(** [s.strip()] *)
Definition strip (s : str) : str := rstrip (lstrip s).

(** [len(s)] *)
Definition len (s : str) : Z := Z.of_nat (List.length s).

(** Order of two strings by code point, the order of SQLite's BINARY
    collation on their UTF-8 encodings. *)
Fixpoint str_leb (a b : str) : bool :=
  match a, b with
  | [], _ => true
  | _ :: _, [] => false
  | x :: a', y :: b' =>
      if (x <? y)%N then true
      else if (y <? x)%N then false
      else str_leb a' b'
  end.

Definition str_ltb (a b : str) : bool := str_leb a b && negb (str_eqb a b).

End Py.
Export Py.

(** ** The database *)

(** [users]: id, username, email, password, created_at, is_admin. *)
Record user := mkUser {
  u_id : Z;
  username : str;
  email : str;
  password : str;
  is_admin : Z;
  u_created_at : Z
}.

(** [notes]: id, user_id, parent_note_id, content, created_at. *)
Record note := mkNote {
  n_id : Z;
  n_user_id : Z;
  parent_note_id : option Z;
  content : str;
  n_created_at : Z
}.

(** [reactions]: id, note_id, user_id, emoji, created_at. *)
Record reaction := mkReaction {
  r_id : Z;
  r_note_id : Z;
  r_user_id : Z;
  emoji : str;
  r_created_at : Z
}.

(** The three tables and, for each, the largest rowid ever handed out
    (the [sqlite_sequence] entry kept for an AUTOINCREMENT key).  A
    [created_at] is the reading of the clock (CURRENT_TIMESTAMP) at the
    insert, which the statement receives as [now]. *)
Record database := mkDatabase {
  users : list user;
  notes : list note;
  reactions : list reaction;
  seq_users : Z;
  seq_notes : Z;
  seq_reactions : Z
}.

Definition empty_database : database := mkDatabase [] [] [] 0 0 0.

(** ** SQL statements

    Every statement the two programs execute, as a function on the
    tables.  [get_db_connection] and [get_conn] never issue
    [PRAGMA foreign_keys = ON], so the FOREIGN KEY clauses of the schema
    are not enforced: only NOT NULL, PRIMARY KEY and UNIQUE can make a
    statement fail, and such a statement returns [None]
    ([sqlite3.IntegrityError]). *)

Module Sql.

(** The order in which a query's rows come back is the engine's business
    wherever ORDER BY does not decide it.  [order_by key desc rows] is
    [ORDER BY key] ([DESC] when [desc]); an engine owes a rearrangement
    of the rows that is sorted on the key, and nothing else. *)
Class Engine := {
  order_by : forall A : Type, (A -> Z) -> bool -> list A -> list A;
  order_by_perm : forall (A : Type) (key : A -> Z) (desc : bool) (l : list A),
      Permutation (order_by key desc l) l;
  order_by_sorted : forall (A : Type) (key : A -> Z) (desc : bool) (l : list A),
      StronglySorted
        (fun x y => if desc then key y <= key x else key x <= key y)
        (order_by key desc l)
}.

(** [cur.fetchone()] *)
Definition fetchone {A : Type} (rows : list A) : option A := hd_error rows.

(** An AUTOINCREMENT key: one more than the largest rowid the table has
    ever held. *)
Definition next_rowid (seq : Z) (ids : list Z) : Z :=
  fold_right Z.max seq ids + 1.

(** [SELECT .. FROM users WHERE id = ?] *)
Definition select_user_by_id (id : Z) (d : database) : list user :=
  filter (fun u => u_id u =? id) (users d).

(** [SELECT .. FROM users WHERE username = ?] *)
Definition select_user_by_username (name : str) (d : database) : list user :=
  filter (fun u => str_eqb (username u) name) (users d).

(** [SELECT id FROM users WHERE username = ? OR email = ?] *)
Definition select_user_by_username_or_email (name mail : str) (d : database)
  : list user :=
  filter (fun u => str_eqb (username u) name || str_eqb (email u) mail)
         (users d).

(** [SELECT id FROM users WHERE username = ? AND id != ?] *)
Definition select_other_user_by_username (name : str) (id : Z) (d : database)
  : list user :=
  filter (fun u => str_eqb (username u) name && negb (u_id u =? id)) (users d).

(** [INSERT INTO users (username, email, password, is_admin) VALUES ..];
    [register] leaves [is_admin] to its DEFAULT 0. *)
Definition insert_user (name mail hashed : str) (role now : Z) (d : database)
  : option database :=
  if existsb (fun u => str_eqb (username u) name || str_eqb (email u) mail)
             (users d)
  then None
  else
    let id := next_rowid (seq_users d) (map u_id (users d)) in
    Some (mkDatabase (users d ++ [mkUser id name mail hashed role now])
                     (notes d) (reactions d)
                     id (seq_notes d) (seq_reactions d)).

Definition with_users (us : list user) (d : database) : database :=
  mkDatabase us (notes d) (reactions d)
             (seq_users d) (seq_notes d) (seq_reactions d).

(** [SET is_admin = ?] on one row. *)
Definition set_is_admin (role : Z) (u : user) : user :=
  mkUser (u_id u) (username u) (email u) (password u) role (u_created_at u).

(** [UPDATE users SET is_admin = ? WHERE id = ?] *)
Definition update_is_admin_by_id (role id : Z) (d : database) : database :=
  with_users
    (map (fun u => if u_id u =? id then set_is_admin role u else u) (users d))
    d.

(** [UPDATE users SET is_admin = ? WHERE username = ?], with
    [cur.rowcount]. *)
Definition update_is_admin_by_username (role : Z) (name : str) (d : database)
  : database * Z :=
  (with_users
     (map (fun u => if str_eqb (username u) name then set_is_admin role u
                    else u) (users d)) d,
   Z.of_nat (List.length (select_user_by_username name d))).

(** [UPDATE users SET password = ?, is_admin = 1 WHERE id = ?] *)
Definition update_password_and_admin_by_id (hashed : str) (id : Z)
  (d : database) : database :=
  with_users
    (map (fun u => if u_id u =? id
                   then mkUser (u_id u) (username u) (email u) hashed
                               1 (u_created_at u)
                   else u) (users d)) d.

(** [UPDATE users SET username = ? (, password = ?) WHERE id = ?]; the
    UNIQUE username rejects a name another row holds. *)
Definition update_profile_by_id (name : str) (hashed : option str) (id : Z)
  (d : database) : option database :=
  if existsb (fun u => u_id u =? id) (users d)
     && existsb (fun u => str_eqb (username u) name && negb (u_id u =? id))
                (users d)
  then None
  else
    Some (with_users
            (map (fun u => if u_id u =? id
                           then mkUser (u_id u) name (email u)
                                       (match hashed with
                                        | Some h => h
                                        | None => password u
                                        end)
                                       (is_admin u) (u_created_at u)
                           else u) (users d)) d).

(** [DELETE FROM users WHERE id = ?] *)
Definition delete_user_by_id (id : Z) (d : database) : database :=
  with_users (filter (fun u => negb (u_id u =? id)) (users d)) d.

(** [DELETE FROM users WHERE username = ?], with [cur.rowcount]. *)
Definition delete_user_by_username (name : str) (d : database)
  : database * Z :=
  (with_users (filter (fun u => negb (str_eqb (username u) name)) (users d)) d,
   Z.of_nat (List.length (select_user_by_username name d))).

(** [SELECT id FROM notes WHERE id = ?] *)
Definition select_note_by_id (id : Z) (d : database) : list note :=
  filter (fun n => n_id n =? id) (notes d).

(** [INSERT INTO notes (user_id, parent_note_id, content) VALUES ..];
    [create_note] leaves [parent_note_id] NULL. *)
Definition insert_note (uid : Z) (parent : option Z) (text : str) (now : Z)
  (d : database) : database :=
  let id := next_rowid (seq_notes d) (map n_id (notes d)) in
  mkDatabase (users d) (notes d ++ [mkNote id uid parent text now])
             (reactions d)
             (seq_users d) id (seq_reactions d).

Definition same_reaction (nid uid : Z) (e : str) (r : reaction) : bool :=
  (r_note_id r =? nid) && (r_user_id r =? uid) && str_eqb (emoji r) e.

(** [SELECT id FROM reactions WHERE note_id = ? AND user_id = ? AND emoji = ?] *)
Definition select_reaction (nid uid : Z) (e : str) (d : database)
  : list reaction :=
  filter (same_reaction nid uid e) (reactions d).

Definition with_reactions (rs : list reaction) (seq : Z) (d : database)
  : database :=
  mkDatabase (users d) (notes d) rs (seq_users d) (seq_notes d) seq.

(** [DELETE FROM reactions WHERE note_id = ? AND user_id = ? AND emoji = ?] *)
Definition delete_reaction (nid uid : Z) (e : str) (d : database) : database :=
  with_reactions (filter (fun r => negb (same_reaction nid uid e r))
                         (reactions d))
                 (seq_reactions d) d.

(** [INSERT INTO reactions (note_id, user_id, emoji) VALUES (?, ?, ?)];
    UNIQUE(note_id, user_id, emoji) rejects a second copy. *)
Definition insert_reaction (nid uid : Z) (e : str) (now : Z) (d : database)
  : option database :=
  if existsb (same_reaction nid uid e) (reactions d)
  then None
  else
    let id := next_rowid (seq_reactions d) (map r_id (reactions d)) in
    Some (with_reactions (reactions d ++ [mkReaction id nid uid e now]) id d).

(** [GROUP BY emoji] with [COUNT( * )]: one row per emoji, the groups in
    the order of their first row. *)
Fixpoint bump (e : str) (groups : list (str * Z)) : list (str * Z) :=
  match groups with
  | [] => [(e, 1)]
  | (e', c) :: rest =>
      if str_eqb e' e then (e', c + 1) :: rest else (e', c) :: bump e rest
  end.

Definition group_by_emoji (rows : list reaction) : list (str * Z) :=
  fold_left (fun groups r => bump (emoji r) groups) rows [].

(** [SELECT emoji, COUNT( * ) as count FROM reactions WHERE note_id = ?
     GROUP BY emoji ORDER BY count DESC] *)
Definition select_reaction_counts `{Engine} (nid : Z) (d : database)
  : list (str * Z) :=
  order_by snd true
           (group_by_emoji (filter (fun r => r_note_id r =? nid) (reactions d))).

(** [SELECT DISTINCT emoji FROM reactions WHERE note_id = ? AND user_id = ?] *)
Definition select_user_emoji (nid uid : Z) (d : database) : list str :=
  map fst (group_by_emoji
             (filter (fun r => (r_note_id r =? nid) && (r_user_id r =? uid))
                     (reactions d))).

(** The notes joined with their authors:
    [FROM notes n JOIN users u ON n.user_id = u.id]. *)
Definition notes_join_users (d : database) : list (note * user) :=
  flat_map (fun n => map (fun u => (n, u))
                         (filter (fun u => u_id u =? n_user_id n) (users d)))
           (notes d).

(** [.. WHERE n.parent_note_id IS NULL ORDER BY n.created_at DESC] *)
Definition select_top_level `{Engine} (d : database) : list (note * user) :=
  order_by (fun r => n_created_at (fst r)) true
           (filter (fun r => match parent_note_id (fst r) with
                             | None => true
                             | Some _ => false
                             end) (notes_join_users d)).

(** [.. WHERE n.parent_note_id = ? ORDER BY n.created_at ASC] *)
Definition select_replies `{Engine} (nid : Z) (d : database)
  : list (note * user) :=
  order_by (fun r => n_created_at (fst r)) false
           (filter (fun r => match parent_note_id (fst r) with
                             | None => false
                             | Some p => p =? nid
                             end) (notes_join_users d)).

(** [SELECT id, username, email, is_admin, created_at FROM users
     ORDER BY id DESC] *)
Definition select_users_by_id_desc `{Engine} (d : database) : list user :=
  order_by u_id true (users d).

(** A connection: the committed database and the working copy that the
    statements of the open transaction have produced. *)
Record connection := mkConnection { disk : database; txn : database }.

Definition get_db_connection (d : database) : connection :=
  mkConnection d d.

Definition execute (stmt : database -> database) (c : connection)
  : connection :=
  mkConnection (disk c) (stmt (txn c)).

Definition commit (c : connection) : connection :=
  mkConnection (txn c) (txn c).

(** [conn.close()]: what was not committed is gone. *)
Definition close (c : connection) : database := disk c.

(** A Python [int] is bound to a [?] as a signed 64-bit integer;
    [sqlite3] raises [OverflowError] ("Python int too large to convert
    to SQLite INTEGER") for any other, before the statement runs. *)
Definition fits_sqlite_integer (z : Z) : bool :=
  (- 2 ^ 63 <=? z) && (z <? 2 ^ 63).

End Sql.
Import Sql.

(** ** Forms and their validators (Flask-WTF) *)

Module Forms.

Inductive http_method := GET | POST.

Inductive validation_error :=
| required                      (* DataRequired() *)
| bad_length (min max : Z)      (* Length(min=.., max=..), -1 for no bound *)
| message (text : string)       (* a validator's message= of the source *)
| csrf_failed.                  (* the hidden csrf_token field *)

(** DataRequired: the data is true and, for a string, not blank. *)
Definition data_required (s : str) : bool := truthy s && truthy (strip s).

(** Length(min, max) *)
Definition length_ok (min max : Z) (s : str) : bool :=
  (min <=? len s) && ((max =? -1) || (len s <=? max)).

(** A field's validators run in order; a failed DataRequired stops the
    chain, any other failure is recorded and the chain goes on. *)
Definition check (ok : bool) (e : validation_error) : list validation_error :=
  if ok then [] else [e].

Definition required_then (s : str) (more : list validation_error)
  : list validation_error :=
  if data_required s then more else [required].

Definition field (name : string) (errs : list validation_error)
  : list (string * validation_error) :=
  map (fun e => (name, e)) errs.

Definition csrf_field (csrf_ok : bool) : list (string * validation_error) :=
  field "csrf_token" (check csrf_ok csrf_failed).

Definition in_range (lo hi c : N) : bool := ((lo <=? c) && (c <=? hi))%N.

Definition is_letter (c : N) : bool := in_range 97 122 c || in_range 65 90 c.

Definition is_alnum (c : N) : bool := is_letter c || in_range 48 57 c.

(** [[a-zA-Z0-9._%+-]] *)
Definition is_local_char (c : N) : bool :=
  is_alnum c || (c =? 46)%N || (c =? 95)%N || (c =? 37)%N || (c =? 43)%N
  || (c =? 45)%N.

(** [[a-zA-Z0-9.-]] *)
Definition is_domain_char (c : N) : bool :=
  is_alnum c || (c =? 46)%N || (c =? 45)%N.

Fixpoint take_while (p : N -> bool) (s : str) : str :=
  match s with
  | c :: s' => if p c then c :: take_while p s' else []
  | [] => []
  end.

Fixpoint drop_while (p : N -> bool) (s : str) : str :=
  match s with
  | c :: s' => if p c then drop_while p s' else s
  | [] => []
  end.

(** [re.match(r'^[a-zA-Z0-9._%+-]+@[a-zA-Z0-9.-]+\.[a-zA-Z]{2,}$', s)]:
    the local part runs to the one [@], the top-level domain is what
    follows the last dot, and [$] also matches before a final newline. *)
Definition email_regexp (s : str) : bool :=
  let s := match rev s with
           | 10%N :: r => rev r
           | _ => s
           end in
  let local := take_while (fun c => negb (c =? 64)%N) s in
  match drop_while (fun c => negb (c =? 64)%N) s with
  | _ :: rest =>
      let r := rev rest in
      let tld := take_while (fun c => negb (c =? 46)%N) r in
      match drop_while (fun c => negb (c =? 46)%N) r with
      | _ :: domain =>
          truthy local && forallb is_local_char local
          && truthy domain && forallb is_domain_char domain
          && (2 <=? len tld) && forallb is_letter tld
      | [] => false
      end
  | [] => false
  end.

Record RegisterForm := mkRegisterForm {
  reg_username : str;
  reg_email : str;
  reg_password : str;
  reg_confirm_password : str;
  reg_terms : bool
}.

Definition RegisterForm_errors (csrf_ok : bool) (f : RegisterForm)
  : list (string * validation_error) :=
  field "username"
        (required_then (reg_username f)
           (check (length_ok 3 (-1) (reg_username f)) (bad_length 3 (-1))))
  ++ field "email"
        (required_then (reg_email f)
           (check (email_regexp (reg_email f))
                  (message "Enter a valid email address.")))
  ++ field "password"
        (required_then (reg_password f)
           (check (length_ok 6 (-1) (reg_password f)) (bad_length 6 (-1))))
  ++ field "confirm_password"
        (required_then (reg_confirm_password f)
           (check (str_eqb (reg_confirm_password f) (reg_password f))
                  (message "Passwords must match")))
  ++ field "terms" (check (reg_terms f) required)
  ++ csrf_field csrf_ok.

Record LoginForm := mkLoginForm {
  login_username : str;
  login_password : str;
  remember_me : bool
}.

Definition LoginForm_errors (csrf_ok : bool) (f : LoginForm)
  : list (string * validation_error) :=
  field "username" (required_then (login_username f) [])
  ++ field "password" (required_then (login_password f) [])
  ++ csrf_field csrf_ok.

(** AdminActionForm has no field of its own. *)
Definition AdminActionForm_errors (csrf_ok : bool)
  : list (string * validation_error) :=
  csrf_field csrf_ok.

(** PostNoteForm and ReplyForm: one [content] field, 1 to 500 characters. *)
Definition content_errors (csrf_ok : bool) (text : str)
  : list (string * validation_error) :=
  field "content"
        (required_then text (check (length_ok 1 500 text) (bad_length 1 500)))
  ++ csrf_field csrf_ok.

Definition PostNoteForm_errors := content_errors.
Definition ReplyForm_errors := content_errors.

(** ReactForm: one [emoji] field, 1 to 10 characters. *)
Definition ReactForm_errors (csrf_ok : bool) (e : str)
  : list (string * validation_error) :=
  field "emoji"
        (required_then e (check (length_ok 1 10 e) (bad_length 1 10)))
  ++ csrf_field csrf_ok.

Record ProfileForm := mkProfileForm {
  prof_username : str;
  prof_new_password : str;
  prof_confirm_password : str
}.

Definition ProfileForm_errors (csrf_ok : bool) (f : ProfileForm)
  : list (string * validation_error) :=
  field "username"
        (required_then (prof_username f)
           (check (length_ok 3 (-1) (prof_username f)) (bad_length 3 (-1))))
  ++ field "confirm_password"
        (check (str_eqb (prof_confirm_password f) (prof_new_password f))
               (message "Passwords must match"))
  ++ csrf_field csrf_ok.

(** [form.validate_on_submit()] *)
Definition validate_on_submit (m : http_method)
  (errors : list (string * validation_error)) : bool :=
  match m, errors with
  | POST, [] => true
  | _, _ => false
  end.

(** [form.errors] after [validate_on_submit]: empty when nothing was
    submitted. *)
Definition form_errors (m : http_method)
  (errors : list (string * validation_error))
  : list (string * validation_error) :=
  match m with
  | POST => errors
  | GET => []
  end.

End Forms.
Import Forms.

(** ** The web application ([app.py]) *)

(** The session cookie. *)
Record session := mkSession {
  sess_user_id : option Z;
  sess_username : option str;
  sess_email : option str;
  sess_permanent : bool
}.

Definition empty_session : session := mkSession None None None false.

(** The environment variables read by the application. *)
Record config := mkConfig {
  ADMIN_USER : option str;
  ADMIN_PASS : option str
}.

Inductive endpoint :=
| ep_home | ep_login | ep_profile | ep_logout | ep_admin | ep_notes_list.

Inductive flashed :=
| Flash (text : string)
| FlashWelcome (name : str)                  (* f'Welcome back, {..}!' *)
| FlashField (name : string) (e : validation_error).  (* f"{field}: {e}" *)

(** One entry of [notes_data]. *)
Record notes_entry := mkNotesEntry {
  ne_note : note * user;
  ne_replies : list (note * user);
  ne_reactions : list (str * Z);
  ne_user_reactions : list str;
  ne_reply_reactions : list (Z * list (str * Z));
  ne_reply_user_reactions : list (Z * list str)
}.

Inductive body :=
| redirect (target : endpoint)
| render_register (form : RegisterForm)
| render_login (form : LoginForm)
| render_profile (name mail : str) (form : ProfileForm)
| render_admin (rows : list user) (is_superadmin : bool)
| render_notes (notes_data : list notes_entry)
| internal_server_error.     (* an exception no handler catches *)

Record response := mkResponse { resp_body : body; flashes : list flashed }.

Definition result : Type := response * database * session.

Definition flash_errors (errors : list (string * validation_error))
  : list flashed :=
  map (fun fe => FlashField (fst fe) (snd fe)) errors.

(** [cur_row['is_admin'] == 2 and
     (not admin_env_username or cur_row['username'] == admin_env_username)] *)
Definition is_superadmin (admin_env_username : option str) (cur_row : user)
  : bool :=
  (is_admin cur_row =? 2)
  && (negb (truthy_opt admin_env_username)
      || match admin_env_username with
         | Some name => str_eqb (username cur_row) name
         | None => false
         end).

(** [SELECT .. FROM users WHERE id = ?] with [session.get('user_id')]:
    no row when the session has no user. *)
Definition fetch_user (id : option Z) (d : database) : option user :=
  match id with
  | Some id => fetchone (select_user_by_id id d)
  | None => None
  end.

Section App.

Context {engine : Engine}.

(** The hashing collaborator (werkzeug.security):
    [generate_password_hash password] with the salt it draws, and
    [check_password_hash pwhash password]. *)
Variable generate_password_hash : str -> str -> str.
Variable check_password_hash : str -> str -> bool.

Definition register (d : database) (s : session) (m : http_method)
  (csrf_ok : bool) (form : RegisterForm) (salt : str) (now : Z) : result :=
  let errors := RegisterForm_errors csrf_ok form in
  if validate_on_submit m errors then
    let name := strip (reg_username form) in
    let mail := strip (reg_email form) in
    let conn := get_db_connection d in
    match fetchone (select_user_by_username_or_email name mail (txn conn)) with
    | Some _ =>
        (mkResponse (render_register form)
                    [Flash "Username or email already registered."],
         close conn, s)
    | None =>
        let hashed := generate_password_hash (reg_password form) salt in
        match insert_user name mail hashed 0 now (txn conn) with
        | Some t =>
            let conn := commit (mkConnection (disk conn) t) in
            (mkResponse (redirect ep_home)
                        [Flash "Registration successful. You can now sign in."],
             close conn, s)
        | None => (mkResponse internal_server_error [], close conn, s)
        end
    end
  else
    (mkResponse (render_register form) (flash_errors (form_errors m errors)),
     d, s).

Definition login (d : database) (s : session) (m : http_method)
  (csrf_ok : bool) (form : LoginForm) : result :=
  if validate_on_submit m (LoginForm_errors csrf_ok form) then
    let name := strip (login_username form) in
    let conn := get_db_connection d in
    let user := fetchone (select_user_by_username name (txn conn)) in
    let d := close conn in
    let invalid :=
      (mkResponse (render_login form) [Flash "Invalid username or password."],
       d, s) in
    match user with
    | Some u =>
        if check_password_hash (password u) (login_password form) then
          (mkResponse (redirect ep_profile) [FlashWelcome (username u)],
           d,
           mkSession (Some (u_id u)) (Some (username u)) (Some (email u))
                     (if remember_me form then true else sess_permanent s))
        else invalid
    | None => invalid
    end
  else (mkResponse (render_login form) [], d, s).

Definition profile (d : database) (s : session) (m : http_method)
  (csrf_ok : bool) (form : ProfileForm) (salt : str) : result :=
  match sess_user_id s with
  | None =>
      (mkResponse (redirect ep_login)
                  [Flash "Please log in to view your profile."], d, s)
  | Some user_id =>
      let conn := get_db_connection d in
      match fetchone (select_user_by_id user_id (txn conn)) with
      | None =>
          (mkResponse (redirect ep_logout) [Flash "User not found."],
           close conn, s)
      | Some user =>
          if validate_on_submit m (ProfileForm_errors csrf_ok form) then
            let new_username := strip (prof_username form) in
            let new_password := prof_new_password form in
            let page := render_profile (username user) (email user) form in
            match fetchone (select_other_user_by_username
                              new_username user_id (txn conn)) with
            | Some _ =>
                (mkResponse page [Flash "Username is already taken."],
                 close conn, s)
            | None =>
                if truthy new_password && (len new_password <? 6) then
                  (mkResponse page
                     [Flash "New password must be at least 6 characters."],
                   close conn, s)
                else
                  let hashed :=
                    if truthy new_password
                    then Some (generate_password_hash new_password salt)
                    else None in
                  match update_profile_by_id new_username hashed user_id
                                             (txn conn) with
                  | Some t =>
                      let conn := commit (mkConnection (disk conn) t) in
                      (mkResponse (redirect ep_profile)
                                  [Flash "Profile updated successfully."],
                       close conn,
                       mkSession (sess_user_id s) (Some new_username)
                                 (sess_email s) (sess_permanent s))
                  | None =>
                      (mkResponse internal_server_error [], close conn, s)
                  end
            end
          else
            (mkResponse
               (render_profile (username user) (email user)
                  (mkProfileForm (username user) (prof_new_password form)
                                 (prof_confirm_password form)))
               [],
             close conn, s)
      end
  end.

Definition logout (d : database) (s : session) : result :=
  (mkResponse (redirect ep_home) [Flash "You have been logged out."],
   d, empty_session).

(** The decorator of the three admin routes. *)
Definition admin_required (view_func : database -> session -> result)
  (d : database) (s : session) : result :=
  let login_first :=
    (mkResponse (redirect ep_login)
                [Flash "Please login as admin to access that page."], d, s) in
  match sess_user_id s with
  | None => login_first
  | Some user_id =>
      if user_id =? 0 then login_first
      else
        let conn := get_db_connection d in
        let row := fetchone (select_user_by_id user_id (txn conn)) in
        let d := close conn in
        if match row with
           | Some r => (is_admin r =? 1) || (is_admin r =? 2)
           | None => false
           end
        then view_func d s
        else
          (mkResponse (redirect ep_home)
             [Flash "You do not have permission to access that page."], d, s)
  end.

Definition admin (cfg : config) (d : database) (s : session) : result :=
  admin_required
    (fun d s =>
       let conn := get_db_connection d in
       let rows := select_users_by_id_desc (txn conn) in
       let current_user_id := sess_user_id s in
       let admin_env_username := ADMIN_USER cfg in
       let is_superadmin :=
         match current_user_id with
         | Some id =>
             if id =? 0 then false
             else
               match fetchone (select_user_by_id id (txn conn)) with
               | Some cur_row => is_superadmin admin_env_username cur_row
               | None => false
               end
         | None => false
         end in
       (mkResponse (render_admin rows is_superadmin) [], close conn, s))
    d s.

(** [request.form.get('user_id')] is [None] when the field is missing or
    empty, and otherwise the id that its text denotes under the INTEGER
    affinity of [users.id]; a text that denotes no integer matches no
    row, like an id that no row carries. *)
Definition admin_promote (cfg : config) (d : database) (s : session)
  (csrf_ok : bool) (user_id : option Z) (action : option str) : result :=
  admin_required
    (fun d s =>
       if validate_on_submit POST (AdminActionForm_errors csrf_ok) then
         let current_user_id := sess_user_id s in
         let admin_env_username := ADMIN_USER cfg in
         let conn := get_db_connection d in
         let cur_row := fetch_user current_user_id (txn conn) in
         if negb match cur_row with
                 | Some cur_row => is_superadmin admin_env_username cur_row
                 | None => false
                 end
         then
           (mkResponse (redirect ep_admin)
                       [Flash "Only the superadmin can perform that action."],
            close conn, s)
         else
           match user_id, action with
           | Some user_id, Some action =>
               if str_eqb action (lit "promote")
                  || str_eqb action (lit "demote")
               then
                 let target := fetchone (select_user_by_id user_id (txn conn)) in
                 if match target with
                    | Some target => is_admin target =? 2
                    | None => false
                    end
                 then
                   (mkResponse (redirect ep_admin)
                               [Flash "Cannot modify the superadmin account."],
                    close conn, s)
                 else
                   let is_admin_val :=
                     if str_eqb action (lit "promote") then 1 else 0 in
                   let conn :=
                     execute (update_is_admin_by_id is_admin_val user_id) conn in
                   let conn := commit conn in
                   (mkResponse (redirect ep_admin) [Flash "User updated."],
                    close conn, s)
               else (mkResponse (redirect ep_admin) [], close conn, s)
           | _, _ => (mkResponse (redirect ep_admin) [], close conn, s)
           end
       else (mkResponse (redirect ep_admin) [], d, s))
    d s.

Definition admin_delete (cfg : config) (d : database) (s : session)
  (csrf_ok : bool) (user_id : option Z) : result :=
  admin_required
    (fun d s =>
       if validate_on_submit POST (AdminActionForm_errors csrf_ok) then
         let current_user_id := sess_user_id s in
         let admin_env_username := ADMIN_USER cfg in
         let conn := get_db_connection d in
         let cur_row := fetch_user current_user_id (txn conn) in
         if negb match cur_row with
                 | Some cur_row => is_superadmin admin_env_username cur_row
                 | None => false
                 end
         then
           (mkResponse (redirect ep_admin)
                       [Flash "Only the superadmin can perform that action."],
            close conn, s)
         else
           match user_id with
           | Some user_id =>
               let target := fetchone (select_user_by_id user_id (txn conn)) in
               if match target with
                  | Some target => is_admin target =? 2
                  | None => false
                  end
               then
                 (mkResponse (redirect ep_admin)
                             [Flash "Cannot delete the superadmin account."],
                  close conn, s)
               else
                 let conn := execute (delete_user_by_id user_id) conn in
                 let conn := commit conn in
                 (mkResponse (redirect ep_admin) [Flash "User deleted."],
                  close conn, s)
           | None => (mkResponse (redirect ep_admin) [], close conn, s)
           end
       else (mkResponse (redirect ep_admin) [], d, s))
    d s.

(** The reaction counts of a note, as [notes_list] queries them for each
    note and each reply. *)
Definition aggregate (note_id : Z) (d : database) : list (str * Z) :=
  select_reaction_counts note_id d.

(** The emoji the user has put on a note. *)
Definition reacted_by (note_id user_id : Z) (d : database) : list str :=
  select_user_emoji note_id user_id d.

Definition notes_list (d : database) (s : session) : result :=
  match sess_user_id s with
  | None => (mkResponse (redirect ep_login) [], d, s)
  | Some user_id =>
      let conn := get_db_connection d in
      let notes := select_top_level (txn conn) in
      let notes_data :=
        map (fun note =>
               let note_id := n_id (fst note) in
               let replies := select_replies note_id (txn conn) in
               mkNotesEntry
                 note replies
                 (aggregate note_id (txn conn))
                 (reacted_by note_id user_id (txn conn))
                 (map (fun reply =>
                         (n_id (fst reply),
                          aggregate (n_id (fst reply)) (txn conn)))
                      replies)
                 (map (fun reply =>
                         (n_id (fst reply),
                          reacted_by (n_id (fst reply)) user_id (txn conn)))
                      replies))
            notes in
      (mkResponse (render_notes notes_data) [], close conn, s)
  end.

Definition create_note (d : database) (s : session) (csrf_ok : bool)
  (text : str) (now : Z) : result :=
  match sess_user_id s with
  | None => (mkResponse (redirect ep_login) [], d, s)
  | Some user_id =>
      let errors := PostNoteForm_errors csrf_ok text in
      if validate_on_submit POST errors then
        let conn := get_db_connection d in
        let conn := execute (insert_note user_id None text now) conn in
        let conn := commit conn in
        (mkResponse (redirect ep_notes_list) [Flash "Note posted!"],
         close conn, s)
      else
        (mkResponse (redirect ep_notes_list) (flash_errors errors), d, s)
  end.

(** [note_id] is what the route's [<int:note_id>] converter hands over:
    any run of digits, however long.  The first statement binds it, and
    nothing catches the [OverflowError] of a value beyond 64 bits: the
    request ends in an internal server error, with nothing written. *)
Definition create_reply (d : database) (s : session) (note_id : Z)
  (csrf_ok : bool) (text : str) (now : Z) : result :=
  match sess_user_id s with
  | None => (mkResponse (redirect ep_login) [], d, s)
  | Some user_id =>
      let errors := ReplyForm_errors csrf_ok text in
      if validate_on_submit POST errors then
        let conn := get_db_connection d in
        if negb (fits_sqlite_integer note_id) then
          (mkResponse internal_server_error [], disk conn, s)
        else
        match fetchone (select_note_by_id note_id (txn conn)) with
        | Some _ =>
            let conn :=
              execute (insert_note user_id (Some note_id) text now) conn in
            let conn := commit conn in
            (mkResponse (redirect ep_notes_list) [Flash "Reply posted!"],
             close conn, s)
        | None =>
            (mkResponse (redirect ep_notes_list) [Flash "Note not found."],
             close conn, s)
        end
      else
        (mkResponse (redirect ep_notes_list) (flash_errors errors), d, s)
  end.

(** [emoji_field] is [request.form.get('emoji', '')] before [.strip()];
    [note_id] is bound by the first statement, as in [create_reply]. *)
Definition react_to_note (d : database) (s : session) (note_id : Z)
  (emoji_field : str) (now : Z) : result :=
  match sess_user_id s with
  | None => (mkResponse (redirect ep_login) [], d, s)
  | Some user_id =>
      let emoji := strip emoji_field in
      if negb (truthy emoji) then
        (mkResponse (redirect ep_notes_list) [Flash "Invalid emoji."], d, s)
      else
        let conn := get_db_connection d in
        if negb (fits_sqlite_integer note_id) then
          (mkResponse internal_server_error [], disk conn, s)
        else
        match fetchone (select_note_by_id note_id (txn conn)) with
        | None =>
            (mkResponse (redirect ep_notes_list) [Flash "Note not found."],
             close conn, s)
        | Some _ =>
            match fetchone (select_reaction note_id user_id emoji (txn conn))
            with
            | Some _ =>
                let conn :=
                  execute (delete_reaction note_id user_id emoji) conn in
                let conn := commit conn in
                (mkResponse (redirect ep_notes_list)
                            [Flash "Reaction removed."],
                 close conn, s)
            | None =>
                match insert_reaction note_id user_id emoji now (txn conn) with
                | Some t =>
                    let conn := commit (mkConnection (disk conn) t) in
                    (mkResponse (redirect ep_notes_list)
                                [Flash "Reaction added!"],
                     close conn, s)
                | None =>
                    let conn := commit conn in
                    (mkResponse (redirect ep_notes_list)
                                [Flash "You already reacted with that emoji."],
                     close conn, s)
                end
            end
        end
  end.

(** The end of [init_db]: the account that ADMIN_USER and ADMIN_PASS
    name is created, as superadmin, unless the username exists.  The
    tables themselves are there from the start in this model. *)
Definition init_db (cfg : config) (d : database) (salt : str) (now : Z)
  : option database :=
  match ADMIN_USER cfg, ADMIN_PASS cfg with
  | Some admin_user, Some admin_pass =>
      if truthy admin_user && truthy admin_pass then
        let conn2 := get_db_connection d in
        match fetchone (select_user_by_username admin_user (txn conn2)) with
        | None =>
            let hashed := generate_password_hash admin_pass salt in
            match insert_user admin_user (admin_user ++ lit "@local") hashed
                              2 now (txn conn2) with
            | Some t => Some (close (commit (mkConnection (disk conn2) t)))
            | None => None
            end
        | Some _ => Some (close conn2)
        end
      else Some d
  | _, _ => Some d
  end.

End App.

(** A request to one of the routes, with everything the handler reads
    from outside: the form, the salt the hash draws and the clock. *)
Inductive request :=
| Register (m : http_method) (csrf_ok : bool) (form : RegisterForm)
           (salt : str) (now : Z)
| Login (m : http_method) (csrf_ok : bool) (form : LoginForm)
| Profile (m : http_method) (csrf_ok : bool) (form : ProfileForm) (salt : str)
| Logout
| Admin
| AdminPromote (csrf_ok : bool) (user_id : option Z) (action : option str)
| AdminDelete (csrf_ok : bool) (user_id : option Z)
| NotesList
| CreateNote (csrf_ok : bool) (text : str) (now : Z)
| CreateReply (note_id : Z) (csrf_ok : bool) (text : str) (now : Z)
| React (note_id : Z) (emoji_field : str) (now : Z).

Section Dispatch.

Context {engine : Engine}.
Variable generate_password_hash : str -> str -> str.
Variable check_password_hash : str -> str -> bool.

(** The routing table of the application. *)
Definition handle (cfg : config) (d : database) (s : session) (r : request)
  : result :=
  match r with
  | Register m csrf_ok form salt now =>
      register generate_password_hash d s m csrf_ok form salt now
  | Login m csrf_ok form => login check_password_hash d s m csrf_ok form
  | Profile m csrf_ok form salt =>
      profile generate_password_hash d s m csrf_ok form salt
  | Logout => logout d s
  | Admin => admin cfg d s
  | AdminPromote csrf_ok user_id action =>
      admin_promote cfg d s csrf_ok user_id action
  | AdminDelete csrf_ok user_id => admin_delete cfg d s csrf_ok user_id
  | NotesList => notes_list d s
  | CreateNote csrf_ok text now => create_note d s csrf_ok text now
  | CreateReply note_id csrf_ok text now =>
      create_reply d s note_id csrf_ok text now
  | React note_id emoji_field now => react_to_note d s note_id emoji_field now
  end.

End Dispatch.

(** ** The administration CLI ([manage_admin.py]) *)

Module ManageAdmin.

Inductive command :=
| create (name pass : str) (mail : option str) (salt : str) (now : Z)
| promote_cmd (name : str)
| demote_cmd (name : str)
| list_cmd
| delete_cmd (name : str).

Section Cli.

Context {engine : Engine}.
Variable generate_password_hash : str -> str -> str.

(** Each command returns the committed database and what it printed;
    [None] is an uncaught [sqlite3.IntegrityError]. *)
Definition create_admin (name pass : str) (mail : option str) (salt : str)
  (now : Z) (d : database) : option (database * list str) :=
  let mail := match mail with
              | None => name ++ lit "@local"
              | Some mail => mail
              end in
  let hashed := generate_password_hash pass salt in
  let conn := get_db_connection d in
  match fetchone (select_user_by_username name (txn conn)) with
  | Some row =>
      let conn :=
        execute (update_password_and_admin_by_id hashed (u_id row)) conn in
      Some (close (commit conn),
            [lit "Updated existing user '" ++ name
             ++ lit "' and gave admin rights."])
  | None =>
      match insert_user name mail hashed 1 now (txn conn) with
      | Some t =>
          Some (close (commit (mkConnection (disk conn) t)),
                [lit "Created admin user '" ++ name ++ lit "'."])
      | None => None
      end
  end.

Definition promote (name : str) (d : database) : database * list str :=
  let conn := get_db_connection d in
  let '(t, rowcount) := update_is_admin_by_username 1 name (txn conn) in
  let conn := mkConnection (disk conn) t in
  (close (commit conn),
   [if rowcount =? 0
    then lit "User '" ++ name ++ lit "' not found."
    else lit "Promoted '" ++ name ++ lit "' to admin."]).

Definition demote (name : str) (d : database) : database * list str :=
  let conn := get_db_connection d in
  let '(t, rowcount) := update_is_admin_by_username 0 name (txn conn) in
  let conn := mkConnection (disk conn) t in
  (close (commit conn),
   [if rowcount =? 0
    then lit "User '" ++ name ++ lit "' not found."
    else lit "Demoted '" ++ name ++ lit "'."]).

Definition delete (name : str) (d : database) : database * list str :=
  let conn := get_db_connection d in
  let '(t, rowcount) := delete_user_by_username name (txn conn) in
  let conn := mkConnection (disk conn) t in
  (close (commit conn),
   [if rowcount =? 0
    then lit "User '" ++ name ++ lit "' not found."
    else lit "Deleted user '" ++ name ++ lit "'."]).

(** [list_users] prints the rows in id order; the rows stand for the
    lines. *)
Definition list_users (d : database) : list user :=
  order_by u_id false (users d).

Definition main (c : command) (d : database) : option database :=
  match c with
  | create name pass mail salt now =>
      option_map fst (create_admin name pass mail salt now d)
  | promote_cmd name => Some (fst (promote name d))
  | demote_cmd name => Some (fst (demote name d))
  | list_cmd => Some d
  | delete_cmd name => Some (fst (delete name d))
  end.

End Cli.

End ManageAdmin.

(** ** Two engines

    Both sort by insertion.  [stable] leaves rows of equal key in the
    order they arrive in; [reversing] puts a row behind the rows of equal
    key that arrive after it, which turns every run of ties around. *)

Module Engines.

Fixpoint insert_by {A : Type} (before : A -> A -> bool) (x : A) (l : list A)
  : list A :=
  match l with
  | [] => [x]
  | y :: l' => if before x y then x :: l else y :: insert_by before x l'
  end.

Definition sort_by {A : Type} (before : A -> A -> bool) (l : list A) : list A :=
  fold_right (insert_by before) [] l.

Definition stable_order_by (A : Type) (key : A -> Z) (desc : bool)
  (l : list A) : list A :=
  sort_by (fun x y => if desc then key y <=? key x else key x <=? key y) l.

Definition reversing_order_by (A : Type) (key : A -> Z) (desc : bool)
  (l : list A) : list A :=
  sort_by (fun x y => if desc then key y <? key x else key x <? key y) l.

End Engines.

(** ** The outcomes the specification names, as the responses that carry
    them *)

Module Outcome.

Definition Unauthenticated : response :=
  mkResponse (redirect ep_login)
             [Flash "Please login as admin to access that page."].

(** An account that is no admin at all is turned away by
    [admin_required]. *)
Definition NoPermission : response :=
  mkResponse (redirect ep_home)
             [Flash "You do not have permission to access that page."].

Definition Forbidden : response :=
  mkResponse (redirect ep_admin)
             [Flash "Only the superadmin can perform that action."].

Definition ProtectedAccount_modify : response :=
  mkResponse (redirect ep_admin) [Flash "Cannot modify the superadmin account."].

Definition ProtectedAccount_delete : response :=
  mkResponse (redirect ep_admin) [Flash "Cannot delete the superadmin account."].

Definition UserUpdated : response :=
  mkResponse (redirect ep_admin) [Flash "User updated."].

Definition UserDeleted : response :=
  mkResponse (redirect ep_admin) [Flash "User deleted."].

Definition ParentNotFound : response :=
  mkResponse (redirect ep_notes_list) [Flash "Note not found."].

Definition InvalidCredentials (form : LoginForm) : response :=
  mkResponse (render_login form) [Flash "Invalid username or password."].

Definition Added : response :=
  mkResponse (redirect ep_notes_list) [Flash "Reaction added!"].

Definition Removed : response :=
  mkResponse (redirect ep_notes_list) [Flash "Reaction removed."].

Definition InvalidEmoji : response :=
  mkResponse (redirect ep_notes_list) [Flash "Invalid emoji."].

(** What the client gets when the handler raises and nothing catches
    it. *)
Definition ServerError : response := mkResponse internal_server_error [].

(** The answers of the admin routes to an actor they do not let in. *)
Definition turned_away (r : response) : Prop :=
  r = Unauthenticated \/ r = NoPermission \/ r = Forbidden.

(** The response of a handler's result. *)
Definition response_of (r : result) : response := fst (fst r).

(** The committed database of a handler's result. *)
Definition database_of (r : result) : database := snd (fst r).

End Outcome.
Import Outcome.

(** ** Properties of the stored data *)

(** The user that [author_id] names is in the user table. *)
Definition author_exists (d : database) (n : note) : bool :=
  existsb (fun u => u_id u =? n_user_id n) (users d).

Definition notes_have_authors (d : database) : bool :=
  forallb (author_exists d) (notes d).

(** The user of the session, when it has one, is in the user table. *)
Definition session_user_exists (d : database) (s : session) : bool :=
  match sess_user_id s with
  | Some uid => existsb (fun u => u_id u =? uid) (users d)
  | None => true
  end.

(** The emoji of a reaction has 1 to 10 characters. *)
Definition emoji_length_ok (r : reaction) : bool :=
  (1 <=? len (emoji r)) && (len (emoji r) <=? 10).

(** The user has this reaction on the note. *)
Definition has_reaction (d : database) (nid uid : Z) (e : str) : bool :=
  existsb (same_reaction nid uid e) (reactions d).

(** The count that [aggregate] reports for an emoji, 0 when it has no
    row for it. *)
Definition count_for (e : str) (counts : list (str * Z)) : Z :=
  match find (fun ec => str_eqb (fst ec) e) counts with
  | Some ec => snd ec
  | None => 0
  end.

(** The number of reaction rows of a note with a given emoji. *)
Definition count_rows (nid : Z) (e : str) (d : database) : Z :=
  Z.of_nat (List.length (filter (fun r => (r_note_id r =? nid)
                                          && str_eqb (emoji r) e)
                                (reactions d))).

(** The rowid of the first reaction of a note with a given emoji. *)
Definition first_rowid (nid : Z) (e : str) (d : database) : option Z :=
  option_map r_id (find (fun r => (r_note_id r =? nid) && str_eqb (emoji r) e)
                        (reactions d)).

(** Among rows of equal count, [ok] holds of every row and every later
    one. *)
Fixpoint ties_follow (ok : str -> str -> bool) (counts : list (str * Z))
  : bool :=
  match counts with
  | [] => true
  | (e, c) :: rest =>
      forallb (fun ec => negb (snd ec =? c) || ok e (fst ec)) rest
      && ties_follow ok rest
  end.

(** Ties in the order in which the emoji first came to the note. *)
Definition ties_in_insertion_order (nid : Z) (d : database)
  (counts : list (str * Z)) : bool :=
  ties_follow (fun e1 e2 =>
                 match first_rowid nid e1 d, first_rowid nid e2 d with
                 | Some i, Some j => i <? j
                 | _, _ => false
                 end) counts.

(** Ties in the order of the emoji themselves. *)
Definition ties_in_emoji_order (counts : list (str * Z)) : bool :=
  ties_follow str_ltb counts.

(** Every superadmin row of [d'] was a superadmin row of [d]: no role 2
    has been handed out in between. *)
Definition no_new_superadmin (d d' : database) : Prop :=
  forall u', In u' (users d') -> is_admin u' = 2 ->
             exists u, In u (users d) /\ u_id u = u_id u' /\ is_admin u = 2.

(** [d'] has a row for every user id of [d], and the same notes. *)
Definition keeps_users (d d' : database) : Prop :=
  (forall u, In u (users d) -> exists u', In u' (users d') /\ u_id u' = u_id u)
  /\ notes d' = notes d.

(** ** Sample data *)

Module Sample.

Definition root : user :=
  mkUser 1 (lit "root") (lit "root@local") (lit "hash-of-root") 2 100.
Definition alice : user :=
  mkUser 2 (lit "alice") (lit "alice@example.org") (lit "hash-of-alice") 1 110.
Definition bob : user :=
  mkUser 3 (lit "bob") (lit "bob@example.org") (lit "hash-of-bob") 0 120.
(** A second superadmin row, left from a time when ADMIN_USER was
    [admin]. *)
Definition admin_row : user :=
  mkUser 4 (lit "admin") (lit "admin@local") (lit "hash-of-admin") 2 130.

Definition note1 : note := mkNote 1 3 None (lit "hello") 200.

Definition db : database :=
  mkDatabase [root; alice; bob; admin_row] [note1] [] 4 1 0.

Definition pinned : config := mkConfig (Some (lit "root")) (Some (lit "pw")).
Definition unpinned : config := mkConfig None None.

Definition session_of (u : user) : session :=
  mkSession (Some (u_id u)) (Some (username u)) (Some (email u)) false.

(** Three users have put one emoji each on note 1: a, then b, then c. *)
Definition db_abc : database :=
  mkDatabase [root; alice; bob; admin_row] [note1]
             [mkReaction 1 1 1 (lit "a") 300;
              mkReaction 2 1 2 (lit "b") 301;
              mkReaction 3 1 3 (lit "c") 302] 4 1 3.

(** A hashing collaborator for the examples: the hash of a password is
    the password behind a marker. *)
Definition toy_hash (pw salt : str) : str := lit "hash-of-" ++ pw.
Definition toy_check (pwhash pw : str) : bool := str_eqb pwhash (toy_hash pw []).

End Sample.

(** ** The home page and runs of the application *)

Section Home.

Context {engine : Engine}.

(** [.. WHERE n.parent_note_id IS NULL ORDER BY n.created_at DESC LIMIT 5] *)
Definition select_latest_top_level (d : database) : list (note * user) :=
  firstn 5 (select_top_level d).

(** [home] renders index.html; the rows of [notes_preview] stand for the
    page. *)
Definition home (d : database) : list (note * user) * database :=
  let conn := get_db_connection d in
  let notes_preview := select_latest_top_level (txn conn) in
  (notes_preview, close conn).

Variable generate_password_hash : str -> str -> str.
Variable check_password_hash : str -> str -> bool.

(** The requests of any number of clients, one after the other, each
    with the session cookie it comes with. *)
Fixpoint serve (cfg : config) (d : database) (trace : list (session * request))
  : database :=
  match trace with
  | [] => d
  | (s, r) :: rest =>
      serve cfg
            (database_of
               (handle generate_password_hash check_password_hash cfg d s r))
            rest
  end.

End Home.

(** ** What the schema promises of the tables *)

Fixpoint all_distinct {A : Type} (eqb : A -> A -> bool) (l : list A) : bool :=
  match l with
  | [] => true
  | x :: l' => negb (existsb (eqb x) l') && all_distinct eqb l'
  end.

(** PRIMARY KEY on id, UNIQUE on username, UNIQUE on email. *)
Definition users_unique (d : database) : bool :=
  all_distinct Z.eqb (map u_id (users d))
  && all_distinct str_eqb (map username (users d))
  && all_distinct str_eqb (map email (users d)).

(** UNIQUE(note_id, user_id, emoji). *)
Definition reactions_unique (d : database) : bool :=
  all_distinct (fun r r' => same_reaction (r_note_id r) (r_user_id r) (emoji r) r')
               (reactions d).

(** No user id is beyond the largest one handed out. *)
Definition user_ids_bounded (d : database) : bool :=
  forallb (fun u => u_id u <=? seq_users d) (users d).

(** A row of the user table carries this id. *)
Definition has_user_id (d : database) (id : Z) : bool :=
  existsb (fun u => u_id u =? id) (users d).

(** INTEGER PRIMARY KEY: the id of a stored note is a signed 64-bit
    integer. *)
Definition note_ids_fit (d : database) : bool :=
  forallb (fun n => fits_sqlite_integer (n_id n)) (notes d).

(** The user id of a session is the id of a user row, put there by
    [login]: a signed 64-bit integer as well. *)
Definition session_id_fits (s : session) : bool :=
  match sess_user_id s with
  | Some user_id => fits_sqlite_integer user_id
  | None => true
  end.

(** The requests that get as far as binding a note id beyond 64 bits: a
    reply whose form validates and a reaction whose emoji is not blank,
    in a session with a user. *)
Definition note_id_overflows (s : session) (r : request) : bool :=
  match sess_user_id s, r with
  | Some _, CreateReply note_id csrf_ok text _ =>
      validate_on_submit POST (ReplyForm_errors csrf_ok text)
      && negb (fits_sqlite_integer note_id)
  | Some _, React note_id emoji_field _ =>
      truthy (strip emoji_field) && negb (fits_sqlite_integer note_id)
  | _, _ => false
  end.

(** * Proofs *)

(** ** Strings *)

Lemma str_eqb_eq (a b : str) : str_eqb a b = true <-> a = b.
Proof.
  unfold str_eqb. destruct (list_eq_dec N.eq_dec a b); split; congruence.
Qed.

Lemma str_eqb_refl (a : str) : str_eqb a a = true.
Proof. now apply str_eqb_eq. Qed.

Lemma str_eqb_neq (a b : str) : str_eqb a b = false <-> a <> b.
Proof.
  unfold str_eqb. destruct (list_eq_dec N.eq_dec a b); split; congruence.
Qed.

Lemma str_eqb_sym (a b : str) : str_eqb a b = str_eqb b a.
Proof.
  destruct (str_eqb b a) eqn:E.
  - apply str_eqb_eq in E. subst. apply str_eqb_refl.
  - apply str_eqb_neq in E. apply str_eqb_neq. congruence.
Qed.

Lemma truthy_nonempty (s : str) : truthy s = true <-> s <> [].
Proof. destruct s; simpl; split; congruence. Qed.

(** ** The two engines meet what [Engine] asks *)

Section InsertionSort.

Variable A : Type.
Variable R : A -> A -> Prop.
Variable before : A -> A -> bool.

Hypothesis R_trans : forall x y z, R x y -> R y z -> R x z.
Hypothesis before_true : forall x y, before x y = true -> R x y.
Hypothesis before_false : forall x y, before x y = false -> R y x.

Lemma insert_by_perm (x : A) (l : list A) :
  Permutation (Engines.insert_by before x l) (x :: l).
Proof.
  induction l as [|y l IH]; simpl.
  - apply Permutation_refl.
  - destruct (before x y).
    + apply Permutation_refl.
    + eapply perm_trans; [apply perm_skip, IH | apply perm_swap].
Qed.

Lemma sort_by_perm (l : list A) : Permutation (Engines.sort_by before l) l.
Proof.
  induction l as [|x l IH]; simpl.
  - constructor.
  - eapply perm_trans; [apply insert_by_perm | now apply perm_skip].
Qed.

Lemma insert_by_sorted (x : A) (l : list A) :
  StronglySorted R l -> StronglySorted R (Engines.insert_by before x l).
Proof.
  induction 1 as [|y l Hs IH Hy]; simpl.
  - repeat constructor.
  - destruct (before x y) eqn:E.
    + constructor; [now constructor|].
      constructor; [now apply before_true|].
      rewrite Forall_forall in *. intros z Hz.
      eapply R_trans; [apply before_true, E | now apply Hy].
    + constructor; [exact IH|].
      eapply Permutation_Forall.
      * apply Permutation_sym, insert_by_perm.
      * constructor; [now apply before_false | exact Hy].
Qed.

Lemma sort_by_sorted (l : list A) : StronglySorted R (Engines.sort_by before l).
Proof.
  induction l as [|x l IH]; simpl.
  - constructor.
  - now apply insert_by_sorted.
Qed.

End InsertionSort.

Program Definition stable : Engine :=
  {| order_by := Engines.stable_order_by |}.
Next Obligation. apply sort_by_perm. Qed.
Next Obligation.
  apply sort_by_sorted; destruct desc; intros; lia.
Qed.

Program Definition reversing : Engine :=
  {| order_by := Engines.reversing_order_by |}.
Next Obligation. apply sort_by_perm. Qed.
Next Obligation.
  apply sort_by_sorted; destruct desc; intros; lia.
Qed.

(** ** The admin routes *)

Ltac open_connection :=
  unfold get_db_connection, execute, commit, close; cbn [txn disk].

Section SuperadminCheck.

Variables (d : database) (s : session) (uid : Z) (actor : user).

Hypothesis logged_in : sess_user_id s = Some uid.
Hypothesis uid_nonzero : uid <> 0.
Hypothesis actor_row : fetchone (select_user_by_id uid d) = Some actor.

Lemma admin_required_admits (view_func : database -> session -> result) :
  is_admin actor = 1 \/ is_admin actor = 2 ->
  admin_required view_func d s = view_func d s.
Proof.
  intros Hrole. unfold admin_required. rewrite logged_in.
  apply Z.eqb_neq in uid_nonzero. rewrite uid_nonzero.
  open_connection. rewrite actor_row.
  destruct Hrole as [-> | ->]; reflexivity.
Qed.

Lemma admin_required_turns_away (view_func : database -> session -> result) :
  is_admin actor <> 1 -> is_admin actor <> 2 ->
  admin_required view_func d s = (NoPermission, d, s).
Proof.
  intros H1 H2. unfold admin_required. rewrite logged_in.
  apply Z.eqb_neq in uid_nonzero. rewrite uid_nonzero.
  open_connection. rewrite actor_row.
  apply Z.eqb_neq in H1, H2. rewrite H1, H2. reflexivity.
Qed.

Lemma admin_promote_forbidden (cfg : config) (user_id : option Z)
  (action : option str) :
  is_admin actor = 1 \/ is_admin actor = 2 ->
  is_superadmin (ADMIN_USER cfg) actor = false ->
  admin_promote cfg d s true user_id action = (Forbidden, d, s).
Proof.
  intros Hrole Hcheck. unfold admin_promote.
  rewrite admin_required_admits by exact Hrole.
  cbn [validate_on_submit AdminActionForm_errors csrf_field check field map].
  open_connection. unfold fetch_user. rewrite logged_in, actor_row, Hcheck.
  reflexivity.
Qed.

Lemma admin_delete_forbidden (cfg : config) (user_id : option Z) :
  is_admin actor = 1 \/ is_admin actor = 2 ->
  is_superadmin (ADMIN_USER cfg) actor = false ->
  admin_delete cfg d s true user_id = (Forbidden, d, s).
Proof.
  intros Hrole Hcheck. unfold admin_delete.
  rewrite admin_required_admits by exact Hrole.
  cbn [validate_on_submit AdminActionForm_errors csrf_field check field map].
  open_connection. unfold fetch_user. rewrite logged_in, actor_row, Hcheck.
  reflexivity.
Qed.

(** What [admin_promote] does once the actor is past the superadmin
    check. *)
Lemma admin_promote_admitted (cfg : config) (user_id : option Z)
  (action : option str) :
  is_superadmin (ADMIN_USER cfg) actor = true ->
  admin_promote cfg d s true user_id action =
  match user_id, action with
  | Some user_id, Some action =>
      if str_eqb action (lit "promote") || str_eqb action (lit "demote") then
        if match fetchone (select_user_by_id user_id d) with
           | Some target => is_admin target =? 2
           | None => false
           end
        then (ProtectedAccount_modify, d, s)
        else (UserUpdated,
              update_is_admin_by_id
                (if str_eqb action (lit "promote") then 1 else 0) user_id d,
              s)
      else (mkResponse (redirect ep_admin) [], d, s)
  | _, _ => (mkResponse (redirect ep_admin) [], d, s)
  end.
Proof.
  intros Hcheck. unfold admin_promote.
  rewrite admin_required_admits.
  - cbn [validate_on_submit AdminActionForm_errors csrf_field check field map].
    open_connection. unfold fetch_user. rewrite logged_in, actor_row, Hcheck.
    cbn [negb]. destruct user_id, action; reflexivity.
  - right. unfold is_superadmin in Hcheck.
    apply andb_true_iff in Hcheck. now apply Z.eqb_eq.
Qed.

Lemma admin_delete_admitted (cfg : config) (user_id : option Z) :
  is_superadmin (ADMIN_USER cfg) actor = true ->
  admin_delete cfg d s true user_id =
  match user_id with
  | Some user_id =>
      if match fetchone (select_user_by_id user_id d) with
         | Some target => is_admin target =? 2
         | None => false
         end
      then (ProtectedAccount_delete, d, s)
      else (UserDeleted, delete_user_by_id user_id d, s)
  | None => (mkResponse (redirect ep_admin) [], d, s)
  end.
Proof.
  intros Hcheck. unfold admin_delete.
  rewrite admin_required_admits.
  - cbn [validate_on_submit AdminActionForm_errors csrf_field check field map].
    open_connection. unfold fetch_user. rewrite logged_in, actor_row, Hcheck.
    cbn [negb]. destruct user_id; reflexivity.
  - right. unfold is_superadmin in Hcheck.
    apply andb_true_iff in Hcheck. now apply Z.eqb_eq.
Qed.

End SuperadminCheck.

Lemma is_superadmin_pinned (name : str) (actor : user) :
  truthy name = true ->
  is_superadmin (Some name) actor = true <->
  is_admin actor = 2 /\ username actor = name.
Proof.
  intros Hname. unfold is_superadmin. cbn [truthy_opt].
  rewrite Hname. cbn [negb orb].
  rewrite andb_true_iff, Z.eqb_eq, str_eqb_eq. reflexivity.
Qed.

Lemma is_superadmin_unpinned (env : option str) (actor : user) :
  truthy_opt env = false ->
  is_superadmin env actor = true <-> is_admin actor = 2.
Proof.
  intros Henv. unfold is_superadmin. rewrite Henv. cbn [negb orb].
  rewrite andb_true_r. apply Z.eqb_eq.
Qed.

(** Whatever the handler answers past the superadmin check, it is none of the
    three refusals. *)
Ltac past_the_check :=
  unfold turned_away, response_of;
  repeat match goal with
         | |- context [match ?x with Some _ => _ | None => _ end] =>
             destruct x
         | |- context [if ?b then _ else _] => destruct b
         end;
  cbn; intros [H | [H | H]]; discriminate H.

(** C1. With a superadmin username configured, an actor gets past the
    superadmin check of [admin_promote] and of [admin_delete] exactly when
    its row has role 2 and the configured username.  A role 2 row under another name
    and a role 1 row are both answered with the Forbidden message, and
    nothing is written. *)
Theorem pinned_superadmin_check
  (cfg : config) (name : str) (d : database) (s : session) (uid : Z)
  (actor : user) (user_id : option Z) (action : option str) :
  ADMIN_USER cfg = Some name -> truthy name = true ->
  sess_user_id s = Some uid -> uid <> 0 ->
  fetchone (select_user_by_id uid d) = Some actor ->
  (is_superadmin (ADMIN_USER cfg) actor = true <->
   is_admin actor = 2 /\ username actor = name)
  /\ (~ turned_away (response_of (admin_promote cfg d s true user_id action))
      <-> is_admin actor = 2 /\ username actor = name)
  /\ (~ turned_away (response_of (admin_delete cfg d s true user_id))
      <-> is_admin actor = 2 /\ username actor = name)
  /\ (is_admin actor = 2 /\ username actor <> name \/ is_admin actor = 1 ->
      admin_promote cfg d s true user_id action = (Forbidden, d, s)
      /\ admin_delete cfg d s true user_id = (Forbidden, d, s)).
Proof.
  intros Hcfg Hname Hsess Huid Hrow.
  assert (Hcheck : is_superadmin (ADMIN_USER cfg) actor = true <->
                  is_admin actor = 2 /\ username actor = name)
    by (rewrite Hcfg; now apply is_superadmin_pinned).
  assert (Hcases :
            is_superadmin (ADMIN_USER cfg) actor = true
            \/ (is_superadmin (ADMIN_USER cfg) actor = false
                /\ (is_admin actor = 1 \/ is_admin actor = 2))
            \/ (is_admin actor <> 1 /\ is_admin actor <> 2)).
  { destruct (is_superadmin (ADMIN_USER cfg) actor); [now left | right].
    destruct (Z.eq_dec (is_admin actor) 1); [now left; split; [|left]|].
    destruct (Z.eq_dec (is_admin actor) 2); [now left; split; [|right]|].
    now right. }
  split; [exact Hcheck|].
  destruct Hcases as [Hin | [[Hout Hrole] | [H1 H2]]].
  - (* the superadmin *)
    rewrite (@admin_promote_admitted d s uid actor Hsess Huid Hrow cfg user_id
               action Hin).
    rewrite (@admin_delete_admitted d s uid actor Hsess Huid Hrow cfg user_id Hin).
    apply Hcheck in Hin.
    split; [split; [auto | intros _; past_the_check]|].
    split; [split; [auto | intros _; past_the_check]|].
    intros [[_ Hne] | Hone]; [tauto | lia].
  - (* an admin who is not the superadmin *)
    rewrite (@admin_promote_forbidden d s uid actor Hsess Huid Hrow cfg user_id
               action Hrole Hout).
    rewrite (@admin_delete_forbidden d s uid actor Hsess Huid Hrow cfg user_id
               Hrole Hout).
    assert (Hnot : ~ (is_admin actor = 2 /\ username actor = name))
      by (rewrite <- Hcheck, Hout; discriminate).
    unfold turned_away, response_of. cbn [fst].
    repeat split; try tauto; intros Hn; exfalso; apply Hn; auto.
  - (* no admin at all *)
    unfold admin_promote, admin_delete.
    rewrite !(@admin_required_turns_away d s uid actor Hsess Huid Hrow _ H1 H2).
    unfold turned_away, response_of. cbn [fst].
    repeat split; try lia; try tauto; intros Hn; exfalso; apply Hn; auto.
Qed.

Lemma pinned_superadmin_check_witness :
  (is_superadmin (ADMIN_USER Sample.pinned) Sample.alice = true <->
   is_admin Sample.alice = 2 /\ username Sample.alice = lit "root")
  /\ (~ turned_away
        (response_of
           (admin_promote Sample.pinned Sample.db
              (Sample.session_of Sample.alice) true (Some 3)
              (Some (lit "demote"))))
      <-> is_admin Sample.alice = 2 /\ username Sample.alice = lit "root")
  /\ (~ turned_away
        (response_of
           (admin_delete Sample.pinned Sample.db
              (Sample.session_of Sample.alice) true (Some 3)))
      <-> is_admin Sample.alice = 2 /\ username Sample.alice = lit "root")
  /\ (is_admin Sample.alice = 2 /\ username Sample.alice <> lit "root"
      \/ is_admin Sample.alice = 1 ->
      admin_promote Sample.pinned Sample.db (Sample.session_of Sample.alice)
        true (Some 3) (Some (lit "demote"))
      = (Forbidden, Sample.db, Sample.session_of Sample.alice)
      /\ admin_delete Sample.pinned Sample.db
           (Sample.session_of Sample.alice) true (Some 3)
         = (Forbidden, Sample.db, Sample.session_of Sample.alice)).
Proof.
  apply (@pinned_superadmin_check Sample.pinned (lit "root") Sample.db
           (Sample.session_of Sample.alice) 2 Sample.alice (Some 3)
           (Some (lit "demote"))).
  - reflexivity.
  - reflexivity.
  - reflexivity.
  - lia.
  - reflexivity.
Defined.

(** C10. With no superadmin username configured (ADMIN_USER absent, or
    empty), every row of role 2 gets past the superadmin check of
    [admin_promote] and of [admin_delete], whatever its username, and the
    handler goes on to the target: a target of role 2 is answered with
    ProtectedAccount, any other is updated (role 1 for promote, 0 for
    demote) or deleted.  The same row is shown the admin page as
    superadmin. *)
Theorem any_superadmin_passes_without_pin
  {engine : Engine} (cfg : config) (d : database) (s : session) (uid : Z)
  (actor : user) (user_id : option Z) (action : option str) :
  truthy_opt (ADMIN_USER cfg) = false ->
  sess_user_id s = Some uid -> uid <> 0 ->
  fetchone (select_user_by_id uid d) = Some actor ->
  is_admin actor = 2 ->
  is_superadmin (ADMIN_USER cfg) actor = true
  /\ admin_promote cfg d s true user_id action
     = match user_id, action with
       | Some user_id, Some action =>
           if str_eqb action (lit "promote") || str_eqb action (lit "demote")
           then
             if match fetchone (select_user_by_id user_id d) with
                | Some target => is_admin target =? 2
                | None => false
                end
             then (ProtectedAccount_modify, d, s)
             else (UserUpdated,
                   update_is_admin_by_id
                     (if str_eqb action (lit "promote") then 1 else 0)
                     user_id d,
                   s)
           else (mkResponse (redirect ep_admin) [], d, s)
       | _, _ => (mkResponse (redirect ep_admin) [], d, s)
       end
  /\ admin_delete cfg d s true user_id
     = match user_id with
       | Some user_id =>
           if match fetchone (select_user_by_id user_id d) with
              | Some target => is_admin target =? 2
              | None => false
              end
           then (ProtectedAccount_delete, d, s)
           else (UserDeleted, delete_user_by_id user_id d, s)
       | None => (mkResponse (redirect ep_admin) [], d, s)
       end
  /\ ~ turned_away (response_of (admin_promote cfg d s true user_id action))
  /\ ~ turned_away (response_of (admin_delete cfg d s true user_id))
  /\ admin cfg d s
     = (mkResponse (render_admin (select_users_by_id_desc d) true) [], d, s).
Proof.
  intros Hcfg Hsess Huid Hrow Hrole.
  assert (Hin : is_superadmin (ADMIN_USER cfg) actor = true)
    by now apply is_superadmin_unpinned.
  split; [exact Hin|].
  rewrite (@admin_promote_admitted d s uid actor Hsess Huid Hrow cfg user_id
             action Hin).
  rewrite (@admin_delete_admitted d s uid actor Hsess Huid Hrow cfg user_id Hin).
  split; [reflexivity|]. split; [reflexivity|].
  split; [past_the_check|]. split; [past_the_check|].
  unfold admin.
  rewrite (@admin_required_admits d s uid actor Hsess Huid Hrow)
    by now right.
  open_connection. rewrite Hsess.
  apply Z.eqb_neq in Huid. rewrite Huid, Hrow, Hin. reflexivity.
Qed.

Lemma any_superadmin_passes_without_pin_witness :
  is_superadmin (ADMIN_USER Sample.unpinned) Sample.admin_row = true
  /\ admin_promote Sample.unpinned Sample.db
       (Sample.session_of Sample.admin_row) true (Some 3)
       (Some (lit "promote"))
     = (UserUpdated, update_is_admin_by_id 1 3 Sample.db,
        Sample.session_of Sample.admin_row)
  /\ admin_delete Sample.unpinned Sample.db
       (Sample.session_of Sample.admin_row) true (Some 3)
     = (UserDeleted, delete_user_by_id 3 Sample.db,
        Sample.session_of Sample.admin_row)
  /\ @admin stable Sample.unpinned Sample.db
       (Sample.session_of Sample.admin_row)
     = (mkResponse
          (render_admin (@select_users_by_id_desc stable Sample.db) true) [],
        Sample.db, Sample.session_of Sample.admin_row).
Proof.
  destruct (@any_superadmin_passes_without_pin stable Sample.unpinned
              Sample.db (Sample.session_of Sample.admin_row) 4
              Sample.admin_row (Some 3) (Some (lit "promote"))
              eq_refl eq_refl ltac:(lia) eq_refl eq_refl)
    as (Hin & Hpromote & Hdelete & _ & _ & Hpage).
  split; [exact Hin|]. split; [exact Hpromote|].
  split; [exact Hdelete | exact Hpage].
Defined.

(** Case analysis on everything a handler branches on. *)
Ltac branches :=
  repeat match goal with
         | |- context [match ?x with _ => _ end] => destruct x eqn:?
         end.

(** C2, as stated, fails.  Alice is an admin (role 1) and not the
    superadmin; her attempts on the superadmin row of root are answered
    with Forbidden, not with ProtectedAccount. *)
Lemma protected_account_depends_on_actor :
  fetchone (select_user_by_id 1 Sample.db) = Some Sample.root
  /\ is_admin Sample.root = 2
  /\ admin_promote Sample.pinned Sample.db (Sample.session_of Sample.alice)
       true (Some 1) (Some (lit "demote"))
     = (Forbidden, Sample.db, Sample.session_of Sample.alice)
  /\ admin_delete Sample.pinned Sample.db (Sample.session_of Sample.alice)
       true (Some 1)
     = (Forbidden, Sample.db, Sample.session_of Sample.alice)
  /\ response_of
       (admin_promote Sample.pinned Sample.db (Sample.session_of Sample.alice)
          true (Some 1) (Some (lit "demote")))
     <> ProtectedAccount_modify
  /\ response_of
       (admin_delete Sample.pinned Sample.db (Sample.session_of Sample.alice)
          true (Some 1))
     <> ProtectedAccount_delete.
Proof.
  repeat split; try reflexivity; vm_compute; discriminate.
Qed.

(** C2, amended.  An attempt to promote, demote or delete a row of role 2
    writes nothing and never reports success, whoever makes it.  What the
    actor is told depends on the actor, who is checked before the target
    is looked at: an actor who is past the superadmin check is answered
    with ProtectedAccount; an admin who is not is answered with
    Forbidden; an account that is no admin is told that it has no
    permission; and without a session the answer is the login page. *)
Theorem superadmin_target_protected
  (cfg : config) (d : database) (s : session) (csrf_ok : bool) (tid : Z)
  (target : user) (action : option str) :
  fetchone (select_user_by_id tid d) = Some target ->
  is_admin target = 2 ->
  (admin_promote cfg d s csrf_ok (Some tid) action
   = (response_of (admin_promote cfg d s csrf_ok (Some tid) action), d, s)
   /\ response_of (admin_promote cfg d s csrf_ok (Some tid) action)
      <> UserUpdated)
  /\ (admin_delete cfg d s csrf_ok (Some tid)
      = (response_of (admin_delete cfg d s csrf_ok (Some tid)), d, s)
      /\ response_of (admin_delete cfg d s csrf_ok (Some tid)) <> UserDeleted)
  /\ (forall (uid : Z) (actor : user),
         sess_user_id s = Some uid -> uid <> 0 ->
         fetchone (select_user_by_id uid d) = Some actor ->
         is_superadmin (ADMIN_USER cfg) actor = true ->
         csrf_ok = true ->
         (action = Some (lit "promote") \/ action = Some (lit "demote") ->
          admin_promote cfg d s csrf_ok (Some tid) action
          = (ProtectedAccount_modify, d, s))
         /\ admin_delete cfg d s csrf_ok (Some tid)
            = (ProtectedAccount_delete, d, s))
  /\ (forall (uid : Z) (actor : user),
         sess_user_id s = Some uid -> uid <> 0 ->
         fetchone (select_user_by_id uid d) = Some actor ->
         is_superadmin (ADMIN_USER cfg) actor = false ->
         (is_admin actor = 1 \/ is_admin actor = 2 ->
          csrf_ok = true ->
          admin_promote cfg d s csrf_ok (Some tid) action = (Forbidden, d, s)
          /\ admin_delete cfg d s csrf_ok (Some tid) = (Forbidden, d, s))
         /\ (is_admin actor <> 1 -> is_admin actor <> 2 ->
             admin_promote cfg d s csrf_ok (Some tid) action
             = (NoPermission, d, s)
             /\ admin_delete cfg d s csrf_ok (Some tid)
                = (NoPermission, d, s)))
  /\ (sess_user_id s = None ->
      admin_promote cfg d s csrf_ok (Some tid) action = (Unauthenticated, d, s)
      /\ admin_delete cfg d s csrf_ok (Some tid) = (Unauthenticated, d, s)).
Proof.
  intros Htarget Hrole.
  assert (Hprot : match fetchone (select_user_by_id tid d) with
                  | Some target => is_admin target =? 2
                  | None => false
                  end = true)
    by (rewrite Htarget; now apply Z.eqb_eq).
  split; [|split; [|split; [|split]]].
  - unfold admin_promote, admin_required, response_of.
    open_connection. rewrite Hprot.
    destruct csrf_ok; cbn; branches; cbn; split;
      solve [reflexivity | discriminate].
  - unfold admin_delete, admin_required, response_of.
    open_connection. rewrite Hprot.
    destruct csrf_ok; cbn; branches; cbn; split;
      solve [reflexivity | discriminate].
  - intros uid actor Hsess Huid Hrow Hin ->.
    rewrite (@admin_promote_admitted d s uid actor Hsess Huid Hrow cfg
               (Some tid) action Hin).
    rewrite (@admin_delete_admitted d s uid actor Hsess Huid Hrow cfg
               (Some tid) Hin).
    rewrite Hprot. split; [|reflexivity].
    intros [-> | ->]; reflexivity.
  - intros uid actor Hsess Huid Hrow Hout. split.
    + intros Hadmin ->. split.
      * exact (@admin_promote_forbidden d s uid actor Hsess Huid Hrow cfg
                 (Some tid) action Hadmin Hout).
      * exact (@admin_delete_forbidden d s uid actor Hsess Huid Hrow cfg
                 (Some tid) Hadmin Hout).
    + intros H1 H2. unfold admin_promote, admin_delete.
      rewrite !(@admin_required_turns_away d s uid actor Hsess Huid Hrow _
                  H1 H2).
      split; reflexivity.
  - intros Hsess. unfold admin_promote, admin_delete, admin_required.
    rewrite Hsess. split; reflexivity.
Qed.

Lemma superadmin_target_protected_witness :
  (admin_promote Sample.pinned Sample.db (Sample.session_of Sample.root) true
     (Some 4) (Some (lit "demote"))
   = (ProtectedAccount_modify, Sample.db, Sample.session_of Sample.root)
   /\ admin_delete Sample.pinned Sample.db (Sample.session_of Sample.root) true
        (Some 4)
      = (ProtectedAccount_delete, Sample.db, Sample.session_of Sample.root))
  /\ (admin_promote Sample.pinned Sample.db (Sample.session_of Sample.alice)
        true (Some 4) (Some (lit "demote"))
      = (Forbidden, Sample.db, Sample.session_of Sample.alice)
      /\ admin_delete Sample.pinned Sample.db (Sample.session_of Sample.alice)
           true (Some 4)
         = (Forbidden, Sample.db, Sample.session_of Sample.alice)).
Proof.
  split.
  - destruct (@superadmin_target_protected Sample.pinned Sample.db
                (Sample.session_of Sample.root) true 4 Sample.admin_row
                (Some (lit "demote")) eq_refl eq_refl)
      as (_ & _ & Hcheck & _).
    destruct (Hcheck 1 Sample.root eq_refl ltac:(lia) eq_refl eq_refl eq_refl)
      as [Hmodify Hdelete].
    split; [apply Hmodify; now right | exact Hdelete].
  - destruct (@superadmin_target_protected Sample.pinned Sample.db
                (Sample.session_of Sample.alice) true 4 Sample.admin_row
                (Some (lit "demote")) eq_refl eq_refl)
      as (_ & _ & _ & Hturned & _).
    destruct (Hturned 2 Sample.alice eq_refl ltac:(lia) eq_refl eq_refl)
      as [Hforbidden _].
    apply Hforbidden; [now left | reflexivity].
Defined.

(** ** Roles *)

Lemma select_updated_by_id (role id : Z) (d : database) :
  select_user_by_id id (update_is_admin_by_id role id d)
  = map (set_is_admin role) (select_user_by_id id d).
Proof.
  unfold select_user_by_id, update_is_admin_by_id. cbn [users with_users].
  induction (users d) as [|u us IH]; [reflexivity|].
  cbn [map filter]. destruct (u_id u =? id) eqn:E.
  - cbn [set_is_admin u_id]. rewrite E. cbn [map]. now rewrite IH.
  - rewrite E. exact IH.
Qed.

Lemma no_new_superadmin_same_users (d d' : database) :
  users d' = users d -> no_new_superadmin d d'.
Proof. intros E u' Hin Hrole. rewrite E in Hin. eauto. Qed.

Lemma no_new_superadmin_update (role id : Z) (d : database) :
  role <> 2 -> no_new_superadmin d (update_is_admin_by_id role id d).
Proof.
  intros Hrole u' Hin H2. cbn in Hin. apply in_map_iff in Hin.
  destruct Hin as (u & Hu & Hin).
  destruct (u_id u =? id); subst u'; [cbn in H2; congruence | eauto].
Qed.

Lemma no_new_superadmin_delete (id : Z) (d : database) :
  no_new_superadmin d (delete_user_by_id id d).
Proof.
  intros u' Hin H2. cbn in Hin. apply filter_In in Hin. destruct Hin; eauto.
Qed.

Lemma no_new_superadmin_insert (name mail hashed : str) (role now : Z)
  (d d' : database) :
  insert_user name mail hashed role now d = Some d' -> role <> 2 ->
  no_new_superadmin d d'.
Proof.
  unfold insert_user. intros Hins Hrole. destruct (existsb _ _); [discriminate|].
  injection Hins as <-. intros u' Hin H2. cbn in Hin.
  apply in_app_or in Hin. destruct Hin as [Hin | [<- | []]]; [eauto|].
  cbn in H2. congruence.
Qed.

Lemma no_new_superadmin_profile (name : str) (hashed : option str) (id : Z)
  (d d' : database) :
  update_profile_by_id name hashed id d = Some d' -> no_new_superadmin d d'.
Proof.
  unfold update_profile_by_id. intros Hupd.
  destruct (_ && _); [discriminate|]. injection Hupd as <-.
  intros u' Hin H2. cbn in Hin. apply in_map_iff in Hin.
  destruct Hin as (u & Hu & Hin).
  destruct (u_id u =? id); subst u'; eauto.
Qed.

Create HintDb roles.

#[local] Hint Resolve no_new_superadmin_same_users no_new_superadmin_update
  no_new_superadmin_delete no_new_superadmin_insert no_new_superadmin_profile
  : roles.

Lemma no_new_superadmin_reaction (nid uid : Z) (e : str) (now : Z)
  (d d' : database) :
  insert_reaction nid uid e now d = Some d' -> no_new_superadmin d d'.
Proof.
  unfold insert_reaction. destruct (existsb _ _); [discriminate|].
  intros [= <-]. now apply no_new_superadmin_same_users.
Qed.

#[local] Hint Resolve no_new_superadmin_reaction : roles.
#[local] Hint Extern 1 (_ <> _) => lia : roles.
#[local] Hint Extern 1 (users _ = users _) => reflexivity : roles.

(** No request to the web application makes a superadmin. *)
Lemma handle_no_new_superadmin {engine : Engine}
  (generate_password_hash : str -> str -> str)
  (check_password_hash : str -> str -> bool)
  (cfg : config) (d : database) (s : session) (r : request) :
  no_new_superadmin d
    (database_of (handle generate_password_hash check_password_hash cfg d s r)).
Proof.
  destruct r; cbn [handle];
    unfold register, login, profile, logout, admin, admin_promote,
      admin_delete, notes_list, create_note, create_reply, react_to_note,
      admin_required, database_of;
    open_connection; branches; cbn [fst snd]; eauto with roles.
Qed.

(** Nor does the CLI: [create] and [promote] write role 1, [demote]
    role 0. *)
Lemma main_no_new_superadmin
  (generate_password_hash : str -> str -> str)
  (c : ManageAdmin.command) (d d' : database) :
  ManageAdmin.main generate_password_hash c d = Some d' ->
  no_new_superadmin d d'.
Proof.
  destruct c; cbn [ManageAdmin.main].
  - unfold ManageAdmin.create_admin. open_connection.
    destruct (fetchone _) as [row|].
    + intros [= <-]. intros u' Hin H2. cbn in Hin.
      apply in_map_iff in Hin. destruct Hin as (u & Hu & Hin).
      destruct (u_id u =? u_id row); subst u'; [cbn in H2; lia | eauto].
    + destruct (insert_user _ _ _ _ _ _) eqn:Hins; [|discriminate].
      intros [= <-]. eapply no_new_superadmin_insert; [exact Hins | lia].
  - intros [= <-]. intros u' Hin H2. cbn in Hin.
    apply in_map_iff in Hin. destruct Hin as (u & Hu & Hin).
    destruct (str_eqb (username u) name); subst u'; [cbn in H2; lia | eauto].
  - intros [= <-]. intros u' Hin H2. cbn in Hin.
    apply in_map_iff in Hin. destruct Hin as (u & Hu & Hin).
    destruct (str_eqb (username u) name); subst u'; [cbn in H2; lia | eauto].
  - intros [= <-]. now apply no_new_superadmin_same_users.
  - intros [= <-]. intros u' Hin H2. cbn in Hin.
    apply filter_In in Hin. destruct Hin. eauto.
Qed.

Lemma existsb_none {A : Type} (p : A -> bool) (l : list A) :
  (forall x, In x l -> p x = false) -> existsb p l = false.
Proof.
  intros Hp. destruct (existsb p l) eqn:E; [|reflexivity].
  apply existsb_exists in E. destruct E as (x & Hin & Hx).
  rewrite (Hp x Hin) in Hx. discriminate.
Qed.

Lemma filter_none {A : Type} (p : A -> bool) (l : list A) :
  (forall x, In x l -> p x = false) -> filter p l = [].
Proof.
  induction l as [|x l IH]; intros Hp; [reflexivity|]. cbn.
  rewrite (Hp x) by now left. apply IH. intros y Hy. apply Hp. now right.
Qed.

(** C5. A promote or demote that the web application carries out on a
    row that is no superadmin leaves that row with role 1 after promote
    and role 0 after demote.  No request to the web application hands out
    role 2: a superadmin row after the request was one before it.  Role 2
    comes from [init_db], which creates the account named by ADMIN_USER
    and ADMIN_PASS with it. *)
Theorem web_promote_toggles_admin
  {engine : Engine}
  (generate_password_hash : str -> str -> str)
  (check_password_hash : str -> str -> bool)
  (cfg : config) (d : database) (s : session) (uid : Z) (actor : user)
  (tid : Z) (target : user) (action : str) :
  sess_user_id s = Some uid -> uid <> 0 ->
  fetchone (select_user_by_id uid d) = Some actor ->
  is_superadmin (ADMIN_USER cfg) actor = true ->
  fetchone (select_user_by_id tid d) = Some target ->
  is_admin target <> 2 ->
  action = lit "promote" \/ action = lit "demote" ->
  (exists (d' : database) (target' : user),
      admin_promote cfg d s true (Some tid) (Some action) = (UserUpdated, d', s)
      /\ fetchone (select_user_by_id tid d') = Some target'
      /\ target' = set_is_admin (is_admin target') target
      /\ (action = lit "promote" -> is_admin target' = 1)
      /\ (action = lit "demote" -> is_admin target' = 0))
  /\ (forall (d0 : database) (s0 : session) (r : request),
         no_new_superadmin d0
           (database_of
              (handle generate_password_hash check_password_hash cfg d0 s0 r)))
  /\ (forall (cfg0 : config) (name pass salt : str) (now : Z) (d0 : database),
         ADMIN_USER cfg0 = Some name -> ADMIN_PASS cfg0 = Some pass ->
         truthy name = true -> truthy pass = true ->
         (forall u, In u (users d0) ->
                    username u <> name /\ email u <> name ++ lit "@local") ->
         exists (d' : database) (id : Z),
           init_db generate_password_hash cfg0 d0 salt now = Some d'
           /\ users d'
              = users d0
                ++ [mkUser id name (name ++ lit "@local")
                           (generate_password_hash pass salt) 2 now]).
Proof.
  intros Hsess Huid Hrow Hin Htarget Hrole Haction.
  split; [|split].
  - rewrite (@admin_promote_admitted d s uid actor Hsess Huid Hrow cfg
               (Some tid) (Some action) Hin).
    rewrite Htarget. apply Z.eqb_neq in Hrole. rewrite Hrole.
    assert (Hvalid : str_eqb action (lit "promote")
                     || str_eqb action (lit "demote") = true)
      by (destruct Haction as [-> | ->]; reflexivity).
    rewrite Hvalid.
    eexists. eexists. split; [reflexivity|].
    unfold fetchone. rewrite select_updated_by_id.
    unfold fetchone in Htarget.
    destruct (select_user_by_id tid d) as [|t ts]; [discriminate|].
    injection Htarget as ->. cbn [map hd_error].
    split; [reflexivity|]. split; [reflexivity|].
    split; intros ->; reflexivity.
  - intros d0 s0 r. apply handle_no_new_superadmin.
  - intros cfg0 name pass salt now d0 Huser Hpass Hname Hpw Hfresh.
    unfold init_db. rewrite Huser, Hpass, Hname, Hpw. cbn [andb].
    open_connection. unfold select_user_by_username, insert_user.
    rewrite filter_none.
    + rewrite existsb_none.
      * cbn. eexists. eexists. split; reflexivity.
      * intros u Hu. destruct (Hfresh u Hu) as [Hn Hm].
        apply str_eqb_neq in Hn, Hm. now rewrite Hn, Hm.
    + intros u Hu. apply str_eqb_neq. now apply Hfresh.
Qed.

Lemma web_promote_toggles_admin_witness :
  exists (d' : database) (target' : user),
    admin_promote Sample.pinned Sample.db (Sample.session_of Sample.root) true
      (Some 3) (Some (lit "promote"))
    = (UserUpdated, d', Sample.session_of Sample.root)
    /\ fetchone (select_user_by_id 3 d') = Some target'
    /\ target' = set_is_admin (is_admin target') Sample.bob
    /\ (lit "promote" = lit "promote" -> is_admin target' = 1)
    /\ (lit "promote" = lit "demote" -> is_admin target' = 0).
Proof.
  apply (@web_promote_toggles_admin stable Sample.toy_hash Sample.toy_check
           Sample.pinned Sample.db (Sample.session_of Sample.root) 1
           Sample.root 3 Sample.bob (lit "promote")).
  - reflexivity.
  - lia.
  - reflexivity.
  - reflexivity.
  - reflexivity.
  - simpl. lia.
  - left. reflexivity.
Defined.

(** ** Notes *)

(** A reply to a note id that no note carries inserts nothing: the
    database stays as it was, whatever else the request holds.  The
    handler looks the parent up itself, before the insert (the model has
    no foreign key to fall back on), and a logged-in author with a valid
    form is answered with ParentNotFound when the id is one that SQLite
    can bind, with an internal server error when it is not. *)
Lemma create_reply_missing_parent
  (d : database) (s : session) (note_id : Z) (csrf_ok : bool) (text : str)
  (now : Z) :
  (forall n, In n (notes d) -> n_id n <> note_id) ->
  database_of (create_reply d s note_id csrf_ok text now) = d
  /\ (forall uid : Z,
         sess_user_id s = Some uid ->
         csrf_ok = true -> data_required text = true ->
         length_ok 1 500 text = true ->
         create_reply d s note_id csrf_ok text now
         = (if fits_sqlite_integer note_id then ParentNotFound
            else mkResponse internal_server_error [], d, s)).
Proof.
  intros Hmissing.
  assert (Hnone : select_note_by_id note_id d = []).
  { apply filter_none. intros n Hn. apply Z.eqb_neq. now apply Hmissing. }
  split.
  - unfold create_reply, database_of. open_connection. rewrite Hnone.
    cbn [fetchone hd_error]. branches; reflexivity.
  - intros uid Hsess -> Hreq Hlen. unfold create_reply. rewrite Hsess.
    unfold ReplyForm_errors, content_errors, required_then.
    rewrite Hreq, Hlen. cbn. open_connection. rewrite Hnone.
    now destruct (fits_sqlite_integer note_id).
Qed.

Lemma create_reply_missing_parent_witness :
  database_of
    (create_reply Sample.db (Sample.session_of Sample.bob) 7 true (lit "hi") 400)
  = Sample.db
  /\ create_reply Sample.db (Sample.session_of Sample.bob) 7 true (lit "hi") 400
     = (ParentNotFound, Sample.db, Sample.session_of Sample.bob).
Proof.
  destruct (@create_reply_missing_parent Sample.db
              (Sample.session_of Sample.bob) 7 true (lit "hi") 400)
    as [Hsame Hanswer].
  - simpl. intros n [<- | []]. simpl. lia.
  - split; [exact Hsame|].
    apply (Hanswer 3); reflexivity.
Defined.

(** C6 does not hold of the code.  [create_reply] does look the parent
    up before the insert and answers 'Note not found.' when the lookup
    finds nothing (note 7), but the lookup itself fails for a parent id
    beyond 64 bits: [/notes/9223372036854775808/reply] matches the route,
    binding the id raises [OverflowError], no handler catches it, and the
    author of a valid reply to a note that does not exist is answered
    with an internal server error where ParentNotFound is due.  Nothing
    is inserted. *)
Lemma create_reply_overflow_unhandled :
  2 ^ 63 = 9223372036854775808
  /\ fetchone (select_note_by_id (2 ^ 63) Sample.db) = None
  /\ validate_on_submit POST (ReplyForm_errors true (lit "hi")) = true
  /\ create_reply Sample.db (Sample.session_of Sample.bob) (2 ^ 63) true
       (lit "hi") 400
     = (mkResponse internal_server_error [], Sample.db,
        Sample.session_of Sample.bob)
  /\ response_of
       (create_reply Sample.db (Sample.session_of Sample.bob) (2 ^ 63) true
          (lit "hi") 400)
     <> ParentNotFound
  /\ create_reply Sample.db (Sample.session_of Sample.bob) 7 true
       (lit "hi") 400
     = (ParentNotFound, Sample.db, Sample.session_of Sample.bob).
Proof. repeat split; try (vm_compute; reflexivity). vm_compute. discriminate. Qed.

(** ** Login *)

(** C8. A login under a username that no row carries and a login under
    an existing username with a password that does not verify are
    answered alike: the same response, the session untouched, the
    database untouched, so the response does not tell the two apart.  For
    a form that validates that response is InvalidCredentials. *)
Theorem login_failures_look_alike
  (check_password_hash : str -> str -> bool)
  (d1 d2 : database) (s : session) (m : http_method) (csrf_ok : bool)
  (form : LoginForm) (u : user) :
  (forall v, In v (users d1) -> username v <> strip (login_username form)) ->
  fetchone (select_user_by_username (strip (login_username form)) d2) = Some u ->
  check_password_hash (password u) (login_password form) = false ->
  (exists answer : response,
      login check_password_hash d1 s m csrf_ok form = (answer, d1, s)
      /\ login check_password_hash d2 s m csrf_ok form = (answer, d2, s)
      /\ (m = POST -> csrf_ok = true ->
          data_required (login_username form) = true ->
          data_required (login_password form) = true ->
          answer = InvalidCredentials form)).
Proof.
  intros Hmissing Hfound Hwrong.
  assert (Hnone : select_user_by_username (strip (login_username form)) d1 = []).
  { apply filter_none. intros v Hv. apply str_eqb_neq. now apply Hmissing. }
  unfold login. open_connection. rewrite Hnone, Hfound, Hwrong.
  cbn [fetchone hd_error].
  destruct (validate_on_submit m (LoginForm_errors csrf_ok form)) eqn:Hvalid.
  - eexists. repeat split.
  - eexists. split; [reflexivity|]. split; [reflexivity|].
    intros -> -> Hname Hpw. exfalso. revert Hvalid.
    unfold LoginForm_errors, required_then. rewrite Hname, Hpw. discriminate.
Qed.

Lemma login_failures_look_alike_witness :
  exists answer : response,
    login Sample.toy_check empty_database empty_session POST true
      (mkLoginForm (lit "alice") (lit "guess") false)
    = (answer, empty_database, empty_session)
    /\ login Sample.toy_check Sample.db empty_session POST true
         (mkLoginForm (lit "alice") (lit "guess") false)
       = (answer, Sample.db, empty_session)
    /\ (POST = POST -> true = true ->
        data_required (lit "alice") = true ->
        data_required (lit "guess") = true ->
        answer = InvalidCredentials
                   (mkLoginForm (lit "alice") (lit "guess") false)).
Proof.
  apply (@login_failures_look_alike Sample.toy_check empty_database Sample.db
           empty_session POST true
           (mkLoginForm (lit "alice") (lit "guess") false) Sample.alice).
  - simpl. intros v [].
  - reflexivity.
  - reflexivity.
Defined.

(** ** Reaction counts *)

Section Groups.

Implicit Types (e k : str) (g : list (str * Z)) (rows : list reaction).

Lemma count_for_cons e k (c : Z) g :
  count_for e ((k, c) :: g) = if str_eqb k e then c else count_for e g.
Proof. unfold count_for. cbn. now destruct (str_eqb k e). Qed.

Lemma count_for_bump e k g :
  count_for e (bump k g) = count_for e g + (if str_eqb k e then 1 else 0).
Proof.
  induction g as [|[k' c] g IH].
  - cbn [bump]. rewrite count_for_cons. unfold count_for. cbn.
    now destruct (str_eqb k e).
  - cbn [bump]. destruct (str_eqb k' k) eqn:Ek.
    + apply str_eqb_eq in Ek. subst k'. rewrite !count_for_cons.
      destruct (str_eqb k e); lia.
    + rewrite !count_for_cons. destruct (str_eqb k' e) eqn:Ee.
      * apply str_eqb_eq in Ee. subst k'.
        rewrite str_eqb_sym, Ek. lia.
      * exact IH.
Qed.

Lemma bump_keys e k g :
  In e (map fst (bump k g)) <-> e = k \/ In e (map fst g).
Proof.
  induction g as [|[k' c] g IH]; cbn [bump].
  - cbn. intuition.
  - destruct (str_eqb k' k) eqn:Ek.
    + apply str_eqb_eq in Ek. subst k'. cbn. intuition.
    + cbn [map fst In]. rewrite IH. intuition.
Qed.

Lemma bump_nodup k g : NoDup (map fst g) -> NoDup (map fst (bump k g)).
Proof.
  induction g as [|[k' c] g IH]; cbn [bump]; intros Hnd.
  - cbn. constructor; [intros [] | constructor].
  - destruct (str_eqb k' k) eqn:Ek; [exact Hnd|].
    cbn [map fst] in *. inversion Hnd as [|? ? Hnotin Hnd']; subst.
    constructor; [|now apply IH].
    rewrite bump_keys. intros [-> | Hin]; [|contradiction].
    rewrite str_eqb_refl in Ek. discriminate.
Qed.

Lemma bump_positive k g :
  Forall (fun ec => 0 < snd ec) g -> Forall (fun ec => 0 < snd ec) (bump k g).
Proof.
  induction 1 as [|[k' c] g Hc Hg IH]; cbn [bump].
  - repeat constructor.
  - destruct (str_eqb k' k); constructor; cbn in *; auto; lia.
Qed.

(** What the groups are after the rows have been folded in. *)
Lemma fold_bump rows : forall g,
  NoDup (map fst g) -> Forall (fun ec => 0 < snd ec) g ->
  let g' := fold_left (fun g r => bump (emoji r) g) rows g in
  NoDup (map fst g')
  /\ Forall (fun ec => 0 < snd ec) g'
  /\ forall e,
       count_for e g'
       = count_for e g
         + Z.of_nat (List.length (filter (fun r => str_eqb (emoji r) e) rows)).
Proof.
  induction rows as [|r rows IH]; intros g Hnd Hpos; cbn [fold_left filter].
  - repeat split; auto. intros e. cbn. lia.
  - destruct (IH (bump (emoji r) g)) as (Hnd' & Hpos' & Hcount).
    + now apply bump_nodup.
    + now apply bump_positive.
    + repeat split; auto. intros e. rewrite Hcount, count_for_bump.
      destruct (str_eqb (emoji r) e); cbn [List.length]; lia.
Qed.

Lemma count_for_in e (c : Z) g :
  NoDup (map fst g) -> In (e, c) g -> count_for e g = c.
Proof.
  induction g as [|[k c'] g IH]; intros Hnd Hin; [contradiction|].
  cbn [map fst] in Hnd. inversion Hnd as [|? ? Hnotin Hnd']; subst.
  rewrite count_for_cons. destruct Hin as [[= -> ->] | Hin].
  - now rewrite str_eqb_refl.
  - destruct (str_eqb k e) eqn:Ek; [|now apply IH].
    apply str_eqb_eq in Ek. subst k. exfalso. apply Hnotin.
    change e with (fst (e, c)). now apply in_map.
Qed.

Lemma in_count_for e g : count_for e g <> 0 -> In (e, count_for e g) g.
Proof.
  induction g as [|[k c] g IH]; [cbn; congruence|].
  rewrite count_for_cons. destruct (str_eqb k e) eqn:Ek.
  - apply str_eqb_eq in Ek. subst k. now left.
  - intros Hne. right. now apply IH.
Qed.

Lemma filter_filter_and {A : Type} (p q : A -> bool) (l : list A) :
  filter q (filter p l) = filter (fun x => p x && q x) l.
Proof.
  induction l as [|x l IH]; [reflexivity|]. cbn.
  destruct (p x); cbn; [destruct (q x)|]; now rewrite IH.
Qed.

End Groups.

Section Aggregate.

Context {engine : Engine}.

Variables (note_id : Z) (d : database).

Let groups : list (str * Z) :=
  group_by_emoji (filter (fun r => r_note_id r =? note_id) (reactions d)).

Lemma groups_facts :
  NoDup (map fst groups)
  /\ Forall (fun ec => 0 < snd ec) groups
  /\ forall e, count_for e groups = count_rows note_id e d.
Proof.
  destruct (@fold_bump (filter (fun r => r_note_id r =? note_id) (reactions d))
              [] (NoDup_nil _) (Forall_nil _)) as (Hnd & Hpos & Hcount).
  repeat split; auto. intros e. unfold groups, group_by_emoji.
  rewrite Hcount, filter_filter_and. reflexivity.
Qed.

Lemma aggregate_perm : Permutation (aggregate note_id d) groups.
Proof. apply order_by_perm. Qed.

Lemma aggregate_nodup : NoDup (map fst (aggregate note_id d)).
Proof.
  eapply Permutation_NoDup.
  - apply Permutation_sym, Permutation_map, aggregate_perm.
  - apply groups_facts.
Qed.

Lemma aggregate_rows (e : str) (c : Z) :
  In (e, c) (aggregate note_id d) <-> c = count_rows note_id e d /\ 0 < c.
Proof.
  destruct groups_facts as (Hnd & Hpos & Hcount).
  split.
  - intros Hin. apply (Permutation_in _ aggregate_perm) in Hin.
    split.
    + rewrite <- Hcount. symmetry. now apply count_for_in.
    + rewrite Forall_forall in Hpos. apply (Hpos _ Hin).
  - intros [-> Hc].
    apply (Permutation_in _ (Permutation_sym aggregate_perm)).
    rewrite <- Hcount in *. apply in_count_for. lia.
Qed.

Lemma count_for_aggregate (e : str) :
  count_for e (aggregate note_id d) = count_rows note_id e d.
Proof.
  destruct (Z.eq_dec (count_for e (aggregate note_id d)) 0) as [E | E].
  - destruct (Z.eq_dec (count_rows note_id e d) 0) as [E' | E']; [lia|].
    assert (Hin : In (e, count_rows note_id e d) (aggregate note_id d)).
    { apply aggregate_rows. split; [reflexivity|].
      unfold count_rows in *. lia. }
    now apply count_for_in; [apply aggregate_nodup|].
  - apply in_count_for in E. now apply aggregate_rows in E.
Qed.

Lemma aggregate_sorted :
  StronglySorted (fun x y => snd y <= snd x) (aggregate note_id d).
Proof. apply (order_by_sorted snd true). Qed.

End Aggregate.

(** C9, as stated, fails.  Note 1 has one reaction each with a, b and c,
    put there in that order.  The query orders by count alone, and an
    engine that leaves ties the other way round answers c, b, a: neither
    the order of insertion nor the order of the emoji.  Under the engine
    that keeps ties as they arrive the same query answers a, b, c. *)
Lemma aggregate_ties_are_the_engines :
  @aggregate reversing 1 Sample.db_abc
  = [(lit "c", 1); (lit "b", 1); (lit "a", 1)]
  /\ ties_in_insertion_order 1 Sample.db_abc (@aggregate reversing 1 Sample.db_abc)
     = false
  /\ ties_in_emoji_order (@aggregate reversing 1 Sample.db_abc) = false
  /\ @aggregate stable 1 Sample.db_abc
     = [(lit "a", 1); (lit "b", 1); (lit "c", 1)].
Proof. repeat split; vm_compute; reflexivity. Qed.

(** C9, amended.  Under every engine, [aggregate] answers with one row
    per emoji that the note has a reaction with, each with the number of
    those reactions, in descending order of that number; the order among
    rows of equal count is the engine's. *)
Theorem aggregate_counts_descending
  {engine : Engine} (note_id : Z) (d : database) :
  StronglySorted (fun x y => snd y <= snd x) (aggregate note_id d)
  /\ NoDup (map fst (aggregate note_id d))
  /\ (forall (e : str) (c : Z),
         In (e, c) (aggregate note_id d)
         <-> c = count_rows note_id e d /\ 0 < c)
  /\ (forall e : str,
         count_for e (aggregate note_id d) = count_rows note_id e d).
Proof.
  split; [apply aggregate_sorted|].
  split; [apply aggregate_nodup|].
  split; [apply aggregate_rows | apply count_for_aggregate].
Qed.

(** ** Toggling a reaction *)

Lemma existsb_fetchone {A : Type} (p : A -> bool) (l : list A) :
  existsb p l = true -> exists x, fetchone (filter p l) = Some x.
Proof.
  induction l as [|x l IH]; cbn; [discriminate|].
  destruct (p x); cbn; [eauto | exact IH].
Qed.

Lemma has_reaction_deleted (d : database) (nid uid : Z) (e : str)
  (nid' uid' : Z) (e' : str) :
  has_reaction (delete_reaction nid uid e d) nid' uid' e'
  = has_reaction d nid' uid' e' && negb (same_reaction nid uid e
                                           (mkReaction 0 nid' uid' e' 0)).
Proof.
  unfold has_reaction, delete_reaction. cbn [reactions with_reactions].
  induction (reactions d) as [|r rs IH]; [reflexivity|].
  cbn [filter existsb].
  destruct (same_reaction nid uid e r) eqn:Er; cbn [negb existsb];
    rewrite IH; unfold same_reaction in *; cbn [r_note_id r_user_id emoji] in *.
  - apply andb_true_iff in Er. destruct Er as [Er Ee].
    apply andb_true_iff in Er. destruct Er as [En Eu].
    apply Z.eqb_eq in En, Eu. apply str_eqb_eq in Ee. subst.
    destruct (r_note_id r =? nid') eqn:E1; cbn; [|reflexivity].
    destruct (r_user_id r =? uid') eqn:E2; cbn; [|reflexivity].
    destruct (str_eqb (emoji r) e') eqn:E3; cbn; [|reflexivity].
    apply Z.eqb_eq in E1, E2. apply str_eqb_eq in E3. subst.
    rewrite !Z.eqb_refl, str_eqb_refl. cbn. now rewrite andb_false_r.
  - destruct ((r_note_id r =? nid') && (r_user_id r =? uid')
              && str_eqb (emoji r) e') eqn:Er'; cbn; [|reflexivity].
    apply andb_true_iff in Er'. destruct Er' as [Er' Ee].
    apply andb_true_iff in Er'. destruct Er' as [En Eu].
    apply Z.eqb_eq in En, Eu. apply str_eqb_eq in Ee. subst.
    now rewrite Er.
Qed.

Lemma has_reaction_inserted (d d' : database) (nid uid : Z) (e : str)
  (now : Z) (nid' uid' : Z) (e' : str) :
  insert_reaction nid uid e now d = Some d' ->
  has_reaction d' nid' uid' e'
  = has_reaction d nid' uid' e' || same_reaction nid' uid' e'
                                     (mkReaction 0 nid uid e 0).
Proof.
  unfold insert_reaction. destruct (existsb _ _); [discriminate|].
  intros [= <-]. unfold has_reaction. cbn [reactions with_reactions].
  rewrite existsb_app. cbn. now rewrite orb_false_r.
Qed.

Lemma same_reaction_swap (nid uid : Z) (e : str) (nid' uid' : Z) (e' : str) :
  same_reaction nid uid e (mkReaction 0 nid' uid' e' 0)
  = same_reaction nid' uid' e' (mkReaction 0 nid uid e 0).
Proof.
  unfold same_reaction. cbn.
  now rewrite (Z.eqb_sym nid), (Z.eqb_sym uid), (str_eqb_sym e).
Qed.

Lemma delete_inserted (d d' : database) (nid uid : Z) (e : str) (now : Z) :
  insert_reaction nid uid e now d = Some d' ->
  reactions (delete_reaction nid uid e d') = reactions d.
Proof.
  unfold insert_reaction.
  destruct (existsb (same_reaction nid uid e) (reactions d)) eqn:E;
    [discriminate|].
  intros [= <-]. cbn [delete_reaction reactions with_reactions].
  rewrite filter_app. cbn [filter].
  unfold same_reaction at 2. cbn [r_note_id r_user_id emoji].
  rewrite !Z.eqb_refl, str_eqb_refl. cbn [andb negb].
  rewrite app_nil_r.
  revert E. induction (reactions d) as [|r rs IH]; [reflexivity|].
  cbn [existsb filter]. intros E. apply orb_false_iff in E.
  destruct E as [-> E]. cbn [negb]. now rewrite IH.
Qed.

Section Toggle.

Variables (d : database) (s : session) (uid note_id : Z) (emoji_field : str).
Variable n : note.

Hypothesis logged_in : sess_user_id s = Some uid.
Hypothesis not_blank : truthy (strip emoji_field) = true.
Hypothesis note_row : fetchone (select_note_by_id note_id d) = Some n.
Hypothesis in_range : fits_sqlite_integer note_id = true.

Let e : str := strip emoji_field.

Lemma react_removes (now : Z) :
  has_reaction d note_id uid e = true ->
  react_to_note d s note_id emoji_field now
  = (Removed, delete_reaction note_id uid e d, s).
Proof.
  intros Hhas. unfold react_to_note. rewrite logged_in, not_blank, in_range.
  cbn [negb]. open_connection. rewrite note_row.
  destruct (existsb_fetchone _ _ Hhas) as [r Hr].
  unfold select_reaction. fold e. now rewrite Hr.
Qed.

Lemma react_adds (now : Z) :
  has_reaction d note_id uid e = false ->
  exists d',
    insert_reaction note_id uid e now d = Some d'
    /\ react_to_note d s note_id emoji_field now = (Added, d', s).
Proof.
  intros Hhas. unfold react_to_note. rewrite logged_in, not_blank, in_range.
  cbn [negb]. open_connection. rewrite note_row.
  unfold select_reaction. fold e.
  rewrite filter_none.
  - cbn [fetchone hd_error]. unfold insert_reaction.
    unfold has_reaction in Hhas. rewrite Hhas.
    eexists. split; reflexivity.
  - intros r Hr. unfold has_reaction in Hhas.
    destruct (same_reaction note_id uid e r) eqn:E; [|reflexivity].
    assert (existsb (same_reaction note_id uid e) (reactions d) = true)
      by (apply existsb_exists; eauto).
    congruence.
Qed.

End Toggle.

Lemma insert_reaction_frame (nid uid : Z) (e : str) (now : Z)
  (d d' : database) :
  insert_reaction nid uid e now d = Some d' ->
  users d' = users d /\ notes d' = notes d
  /\ exists id, reactions d' = reactions d ++ [mkReaction id nid uid e now].
Proof.
  unfold insert_reaction. destruct (existsb _ _); [discriminate|].
  intros [= <-]. cbn. eauto.
Qed.

Lemma same_reaction_eq (nid uid : Z) (e : str) (nid' uid' : Z) (e' : str) :
  same_reaction nid uid e (mkReaction 0 nid' uid' e' 0) = true <->
  nid' = nid /\ uid' = uid /\ e' = e.
Proof.
  unfold same_reaction. cbn.
  rewrite !andb_true_iff, !Z.eqb_eq, str_eqb_eq. tauto.
Qed.

Lemma count_rows_snoc (nid : Z) (e : str) (d d' : database) (r : reaction) :
  reactions d' = reactions d ++ [r] ->
  count_rows nid e d'
  = count_rows nid e d
    + (if (r_note_id r =? nid) && str_eqb (emoji r) e then 1 else 0).
Proof.
  intros E. unfold count_rows. rewrite E, filter_app, length_app. cbn.
  destruct ((r_note_id r =? nid) && str_eqb (emoji r) e); cbn; lia.
Qed.

(** A note that a query finds has an id that SQLite can bind. *)
Lemma stored_note_fits (d : database) (note_id : Z) (n : note) :
  note_ids_fit d = true ->
  fetchone (select_note_by_id note_id d) = Some n ->
  fits_sqlite_integer note_id = true.
Proof.
  unfold note_ids_fit, fetchone, select_note_by_id. intros Hfit Hrow.
  assert (Hin : In n (filter (fun m => n_id m =? note_id) (notes d))).
  { destruct (filter _ (notes d)); [discriminate|].
    injection Hrow as ->. now left. }
  apply filter_In in Hin. destruct Hin as [Hin Hid].
  apply Z.eqb_eq in Hid. subst note_id.
  rewrite forallb_forall in Hfit. now apply Hfit.
Qed.

(** C4, as stated, fails.  The handler toggles the emoji that is left
    once the white space around the field is stripped, and turns a blank
    field away.  Note 1 exists and bob has no reaction on it: for the
    emoji that is one space nothing is inserted and the answer is
    'Invalid emoji.', not Added; for x between two spaces the answer is
    Added, but the row that is inserted carries x alone, and the triple
    as it was sent is still not there. *)
Lemma toggle_strips_the_emoji :
  fetchone (select_note_by_id 1 Sample.db) = Some Sample.note1
  /\ has_reaction Sample.db 1 3 (lit " ") = false
  /\ react_to_note Sample.db (Sample.session_of Sample.bob) 1 (lit " ") 500
     = (InvalidEmoji, Sample.db, Sample.session_of Sample.bob)
  /\ InvalidEmoji <> Added
  /\ has_reaction Sample.db 1 3 (lit " x ") = false
  /\ react_to_note Sample.db (Sample.session_of Sample.bob) 1 (lit " x ") 500
     = (Added,
        mkDatabase (users Sample.db) (notes Sample.db)
                   [mkReaction 1 1 3 (lit "x") 500] 4 1 1,
        Sample.session_of Sample.bob)
  /\ has_reaction
       (database_of
          (react_to_note Sample.db (Sample.session_of Sample.bob) 1
             (lit " x ") 500))
       1 3 (lit " x ")
     = false.
Proof. repeat split; try (vm_compute; reflexivity). discriminate. Qed.

(** C4, amended.  For a note that exists (in a notes table that SQLite
    holds, whose ids are 64-bit integers), the emoji being what the
    field holds without the white space around it: a blank emoji is
    turned away with 'Invalid emoji.' and nothing is written; for any
    other, [react_to_note] deletes the reaction (note, user, emoji) and
    reports Removed when the user has it, and inserts it and reports
    Added when not.  Two toggles in a row leave every user with the
    reactions held before, and users and notes as they were.  From a note
    without that emoji, [aggregate] counts 1 for it after the first
    toggle and has no row for it (count 0) after the second, and is back
    to what it was. *)
Theorem toggle_reaction
  {engine : Engine} (d : database) (s : session) (uid note_id : Z)
  (emoji_field : str) (n : note) (now now' : Z) :
  sess_user_id s = Some uid ->
  note_ids_fit d = true ->
  fetchone (select_note_by_id note_id d) = Some n ->
  let e := strip emoji_field in
  let first := react_to_note d s note_id emoji_field now in
  let second := react_to_note (database_of first) s note_id emoji_field now' in
  (truthy e = false -> first = (InvalidEmoji, d, s))
  /\ (truthy e = true ->
      (has_reaction d note_id uid e = true ->
       first = (Removed, delete_reaction note_id uid e d, s)
       /\ has_reaction (database_of first) note_id uid e = false
       /\ response_of second = Added)
      /\ (has_reaction d note_id uid e = false ->
          response_of first = Added
          /\ (exists id,
                 reactions (database_of first)
                 = reactions d ++ [mkReaction id note_id uid e now])
          /\ has_reaction (database_of first) note_id uid e = true
          /\ response_of second = Removed
          /\ reactions (database_of second) = reactions d
          /\ aggregate note_id (database_of second) = aggregate note_id d
          /\ (count_rows note_id e d = 0 ->
              count_for e (aggregate note_id (database_of first)) = 1
              /\ count_for e (aggregate note_id (database_of second)) = 0))
      /\ (forall (n' u' : Z) (e' : str),
             has_reaction (database_of second) n' u' e'
             = has_reaction d n' u' e')
      /\ users (database_of second) = users d
      /\ notes (database_of second) = notes d).
Proof.
  intros Hsess Hfit Hnote e first second.
  assert (Hrange : fits_sqlite_integer note_id = true)
    by exact (@stored_note_fits d note_id n Hfit Hnote).
  split.
  { intros Hblank. unfold first, react_to_note. rewrite Hsess.
    unfold e in Hblank. now rewrite Hblank. }
  intros Hblank.
  destruct (has_reaction d note_id uid e) eqn:Hhas.
  - (* Removed, then Added *)
    assert (H1 : first = (Removed, delete_reaction note_id uid e d, s))
      by exact (@react_removes d s uid note_id emoji_field n Hsess Hblank Hnote Hrange
                  now Hhas).
    assert (Hgone : has_reaction (delete_reaction note_id uid e d)
                      note_id uid e = false).
    { rewrite has_reaction_deleted, Hhas.
      unfold same_reaction. cbn. now rewrite !Z.eqb_refl, str_eqb_refl. }
    destruct (@react_adds (delete_reaction note_id uid e d) s uid note_id
                emoji_field n Hsess Hblank Hnote Hrange now' Hgone)
      as (d2 & Hins & H2).
    unfold second. rewrite H1. unfold database_of. cbn [fst snd].
    fold e in H2, Hins. rewrite H2. unfold response_of. cbn [fst snd].
    split; [intros _; repeat split; auto|].
    split; [discriminate|].
    destruct (insert_reaction_frame _ _ _ _ _ Hins) as (Hu & Hn & _).
    split; [|split; [rewrite Hu | rewrite Hn]; reflexivity].
    intros n' u' e'. cbn [fst snd].
    rewrite (has_reaction_inserted _ _ _ _ _ n' u' e' Hins).
    rewrite has_reaction_deleted, same_reaction_swap.
    destruct (same_reaction n' u' e' (mkReaction 0 note_id uid e 0)) eqn:Es.
    + rewrite same_reaction_swap in Es. apply same_reaction_eq in Es.
      destruct Es as (-> & -> & ->). rewrite Hhas. reflexivity.
    + cbn. now rewrite andb_true_r, orb_false_r.
  - (* Added, then Removed *)
    destruct (@react_adds d s uid note_id emoji_field n Hsess Hblank Hnote Hrange
                now Hhas) as (d1 & Hins & H1).
    fold e in H1, Hins. fold first in H1.
    destruct (insert_reaction_frame _ _ _ _ _ Hins) as (Hu & Hn & id & Hr).
    assert (Hnote1 : fetchone (select_note_by_id note_id d1) = Some n)
      by (unfold select_note_by_id; rewrite Hn; exact Hnote).
    assert (Hhas1 : has_reaction d1 note_id uid e = true).
    { rewrite (has_reaction_inserted _ _ _ _ _ note_id uid e Hins).
      unfold same_reaction. cbn.
      rewrite !Z.eqb_refl, str_eqb_refl. apply orb_true_r. }
    assert (H2 : second = (Removed, delete_reaction note_id uid e d1, s)).
    { unfold second. rewrite H1. unfold database_of. cbn [fst snd].
      exact (@react_removes d1 s uid note_id emoji_field n Hsess Hblank Hnote1 Hrange
               now' Hhas1). }
    assert (Hback : reactions (delete_reaction note_id uid e d1) = reactions d)
      by exact (delete_inserted _ _ _ _ _ Hins).
    rewrite H1, H2. unfold database_of, response_of. cbn [fst snd].
    split; [discriminate|]. split.
    + intros _. split; [reflexivity|]. split; [eauto|].
      split; [exact Hhas1|]. split; [reflexivity|]. split; [exact Hback|].
      split.
      * unfold aggregate, select_reaction_counts. now rewrite Hback.
      * intros Hzero. rewrite !count_for_aggregate.
        rewrite (@count_rows_snoc note_id e d d1 _ Hr). cbn.
        rewrite Z.eqb_refl, str_eqb_refl. cbn.
        split; [lia|]. unfold count_rows. rewrite Hback. exact Hzero.
    + split; [|split; [exact Hu | exact Hn]].
      intros n' u' e'. unfold has_reaction. now rewrite Hback.
Qed.

Lemma toggle_reaction_witness :
  response_of
    (react_to_note Sample.db (Sample.session_of Sample.bob) 1 (lit " x ") 500)
  = Added
  /\ has_reaction
       (database_of
          (react_to_note Sample.db (Sample.session_of Sample.bob) 1
             (lit " x ") 500))
       1 3 (lit "x") = true
  /\ response_of
       (react_to_note
          (database_of
             (react_to_note Sample.db (Sample.session_of Sample.bob) 1
                (lit " x ") 500))
          (Sample.session_of Sample.bob) 1 (lit " x ") 501)
     = Removed
  /\ reactions
       (database_of
          (react_to_note
             (database_of
                (react_to_note Sample.db (Sample.session_of Sample.bob) 1
                   (lit " x ") 500))
             (Sample.session_of Sample.bob) 1 (lit " x ") 501))
     = reactions Sample.db.
Proof.
  destruct (@toggle_reaction stable Sample.db (Sample.session_of Sample.bob)
              3 1 (lit " x ") Sample.note1 500 501 eq_refl eq_refl eq_refl)
    as (_ & Hstripped).
  destruct (Hstripped eq_refl) as (_ & Hadded & _).
  destruct (Hadded eq_refl) as (H1 & _ & H2 & H3 & H4 & _).
  repeat split; assumption.
Defined.

(** ** Where the code leaves what its own declarations say *)

(** C3 does not hold of the code.  The schema declares
    [FOREIGN KEY (user_id) REFERENCES users(id)] for notes, but no
    connection enforces it and [admin_delete] deletes the user row alone.
    Bob wrote note 1; once root has deleted bob, note 1 names an author
    that is in no row.  [delete] of the CLI does the same. *)
Lemma delete_user_orphans_notes :
  notes_have_authors Sample.db = true
  /\ admin_delete Sample.pinned Sample.db (Sample.session_of Sample.root) true
       (Some 3)
     = (UserDeleted, delete_user_by_id 3 Sample.db,
        Sample.session_of Sample.root)
  /\ notes (delete_user_by_id 3 Sample.db) = [Sample.note1]
  /\ author_exists (delete_user_by_id 3 Sample.db) Sample.note1 = false
  /\ notes_have_authors (delete_user_by_id 3 Sample.db) = false
  /\ notes_have_authors (fst (ManageAdmin.delete (lit "bob") Sample.db)) = false.
Proof. repeat split; vm_compute; reflexivity. Qed.

(** C7 does not hold of the code.  [ReactForm] declares
    [Length(min=1, max=10)] for the emoji, but [react_to_note] never
    builds the form: it reads the field itself and turns away only a blank
    one.  An emoji of eleven characters, which the form rejects, is
    stored. *)
Lemma react_stores_long_emoji :
  len (lit "12345678901") = 11
  /\ ReactForm_errors true (lit "12345678901") = [("emoji"%string, bad_length 1 10)]
  /\ forallb emoji_length_ok (reactions Sample.db) = true
  /\ react_to_note Sample.db (Sample.session_of Sample.bob) 1
       (lit "12345678901") 500
     = (Added,
        mkDatabase (users Sample.db) (notes Sample.db)
                   [mkReaction 1 1 3 (lit "12345678901") 500] 4 1 1,
        Sample.session_of Sample.bob)
  /\ forallb emoji_length_ok
       (reactions
          (database_of
             (react_to_note Sample.db (Sample.session_of Sample.bob) 1
                (lit "12345678901") 500)))
     = false.
Proof. repeat split; vm_compute; reflexivity. Qed.

(** What does hold.  Short of the deletion of a user, a request keeps the
    authors of all notes in the user table, as long as the session is that
    of a user who is still there; and no request stores an empty emoji. *)

Lemma author_exists_iff (d : database) (n : note) :
  author_exists d n = true <->
  exists u, In u (users d) /\ u_id u = n_user_id n.
Proof.
  unfold author_exists. rewrite existsb_exists.
  split; intros (u & Hin & Hu); exists u; split; auto; now apply Z.eqb_eq.
Qed.

Lemma keeps_users_authors (d d' : database) :
  keeps_users d d' ->
  notes_have_authors d = true -> notes_have_authors d' = true.
Proof.
  unfold notes_have_authors. intros [Hids Hnotes]. rewrite Hnotes.
  rewrite !forallb_forall. intros Hd n Hn.
  apply author_exists_iff. apply Hd, author_exists_iff in Hn.
  destruct Hn as (u & Hin & Hu). destruct (Hids u Hin) as (u' & Hin' & Hu').
  exists u'. split; [exact Hin' | congruence].
Qed.

Lemma keeps_users_same (d d' : database) :
  users d' = users d -> notes d' = notes d -> keeps_users d d'.
Proof. intros Eu En. split; [rewrite Eu; eauto | exact En]. Qed.

Lemma keeps_users_map (f : user -> user) (d : database) :
  (forall u, u_id (f u) = u_id u) ->
  keeps_users d (with_users (map f (users d)) d).
Proof.
  intros Hf. split; [|reflexivity]. intros u Hin. exists (f u).
  split; [now apply in_map | apply Hf].
Qed.

Lemma keeps_users_update (role id : Z) (d : database) :
  keeps_users d (update_is_admin_by_id role id d).
Proof.
  apply keeps_users_map. intros u. now destruct (u_id u =? id).
Qed.

Lemma keeps_users_profile (name : str) (hashed : option str) (id : Z)
  (d d' : database) :
  update_profile_by_id name hashed id d = Some d' -> keeps_users d d'.
Proof.
  unfold update_profile_by_id. destruct (_ && _); [discriminate|].
  intros [= <-]. apply keeps_users_map. intros u. now destruct (u_id u =? id).
Qed.

Lemma keeps_users_insert (name mail hashed : str) (role now : Z)
  (d d' : database) :
  insert_user name mail hashed role now d = Some d' -> keeps_users d d'.
Proof.
  unfold insert_user. destruct (existsb _ _); [discriminate|].
  intros [= <-]. split; [|reflexivity]. intros u Hin. exists u.
  split; [apply in_or_app; now left | reflexivity].
Qed.

Lemma keeps_users_reaction (nid uid : Z) (e : str) (now : Z)
  (d d' : database) :
  insert_reaction nid uid e now d = Some d' -> keeps_users d d'.
Proof.
  intros Hins. destruct (insert_reaction_frame _ _ _ _ _ Hins) as (Eu & En & _).
  now apply keeps_users_same.
Qed.

Lemma insert_note_authors (uid : Z) (parent : option Z) (text : str) (now : Z)
  (d : database) :
  existsb (fun u => u_id u =? uid) (users d) = true ->
  notes_have_authors d = true ->
  notes_have_authors (insert_note uid parent text now d) = true.
Proof.
  unfold notes_have_authors, insert_note. cbn [notes].
  intros Huid Hd. rewrite forallb_app. apply andb_true_iff. split.
  - exact Hd.
  - cbn. unfold author_exists. cbn. now rewrite Huid.
Qed.

Create HintDb authors.

#[local] Hint Resolve keeps_users_authors keeps_users_same keeps_users_update
  keeps_users_profile keeps_users_insert keeps_users_reaction
  insert_note_authors : authors.
#[local] Hint Extern 1 (users _ = users _) => reflexivity : authors.
#[local] Hint Extern 1 (notes _ = notes _) => reflexivity : authors.

Lemma handle_keeps_authors {engine : Engine}
  (generate_password_hash : str -> str -> str)
  (check_password_hash : str -> str -> bool)
  (cfg : config) (d : database) (s : session) (r : request) :
  match r with AdminDelete _ _ => False | _ => True end ->
  session_user_exists d s = true ->
  notes_have_authors d = true ->
  notes_have_authors
    (database_of (handle generate_password_hash check_password_hash cfg d s r))
  = true.
Proof.
  unfold session_user_exists. intros Hr Hs Hd. revert Hs.
  destruct r; try contradiction; cbn [handle];
    unfold register, login, profile, logout, admin, admin_promote,
      notes_list, create_note, create_reply, react_to_note,
      admin_required, database_of;
    open_connection; branches; cbn [fst snd]; intros Hs;
    eauto with authors.
Qed.

(** A deletion keeps what holds of every reaction. *)
Lemma delete_reaction_emoji (p : reaction -> bool) (nid uid : Z) (e : str)
  (d : database) :
  forallb p (reactions d) = true ->
  forallb p (reactions (delete_reaction nid uid e d)) = true.
Proof.
  cbn. rewrite !forallb_forall. intros Hd r Hr.
  apply filter_In in Hr. now apply Hd.
Qed.

Lemma insert_reaction_emoji (nid uid : Z) (e : str) (now : Z)
  (d d' : database) :
  insert_reaction nid uid e now d = Some d' ->
  truthy e = true ->
  forallb (fun r => truthy (emoji r)) (reactions d) = true ->
  forallb (fun r => truthy (emoji r)) (reactions d') = true.
Proof.
  intros Hins He Hd.
  destruct (insert_reaction_frame _ _ _ _ _ Hins) as (_ & _ & id & ->).
  rewrite forallb_app, Hd. cbn. now rewrite He.
Qed.

Lemma insert_user_reactions (name mail hashed : str) (role now : Z)
  (d d' : database) :
  insert_user name mail hashed role now d = Some d' ->
  reactions d' = reactions d.
Proof.
  unfold insert_user. destruct (existsb _ _); [discriminate|].
  now intros [= <-].
Qed.

Lemma update_profile_reactions (name : str) (hashed : option str) (id : Z)
  (d d' : database) :
  update_profile_by_id name hashed id d = Some d' ->
  reactions d' = reactions d.
Proof.
  unfold update_profile_by_id. destruct (_ && _); [discriminate|].
  now intros [= <-].
Qed.

Lemma handle_keeps_emoji_not_empty {engine : Engine}
  (generate_password_hash : str -> str -> str)
  (check_password_hash : str -> str -> bool)
  (cfg : config) (d : database) (s : session) (r : request) :
  forallb (fun r => truthy (emoji r)) (reactions d) = true ->
  forallb (fun r => truthy (emoji r))
    (reactions
       (database_of
          (handle generate_password_hash check_password_hash cfg d s r)))
  = true.
Proof.
  intros Hd.
  destruct r; cbn [handle];
    unfold register, login, profile, logout, admin, admin_promote,
      admin_delete, notes_list, create_note, create_reply, react_to_note,
      admin_required, database_of;
    open_connection; branches; cbn [fst snd]; try exact Hd;
    try (erewrite insert_user_reactions by eassumption; exact Hd);
    try (erewrite update_profile_reactions by eassumption; exact Hd);
    try (now apply delete_reaction_emoji).
  eapply insert_reaction_emoji; [eassumption | | exact Hd].
  now destruct (truthy (strip emoji_field)).
Qed.

(** * Further properties of the application *)

(** ** Lists without repetition *)

Lemma all_distinct_keys {A K : Type} (eqb : A -> A -> bool) (key : A -> K)
  (l : list A) :
  (forall x y, eqb x y = true <-> key x = key y) ->
  all_distinct eqb l = true <-> NoDup (map key l).
Proof.
  intros Heqb. induction l as [|x l IH]; cbn.
  - split; [constructor | reflexivity].
  - rewrite andb_true_iff, negb_true_iff, IH. split.
    + intros [Hx Hl]. constructor; [|exact Hl].
      intros Hin. apply in_map_iff in Hin. destruct Hin as (y & Hy & Hin).
      assert (existsb (eqb x) l = true); [|congruence].
      apply existsb_exists. exists y. split; [exact Hin|]. now apply Heqb.
    + intros Hnd. inversion Hnd as [|? ? Hx Hl]; subst. split; [|exact Hl].
      apply existsb_none. intros y Hy.
      destruct (eqb x y) eqn:E; [|reflexivity].
      exfalso. apply Hx. apply Heqb in E. rewrite E. now apply in_map.
Qed.

Lemma all_distinct_Z (l : list Z) : all_distinct Z.eqb l = true <-> NoDup l.
Proof.
  rewrite <- (map_id l) at 2. apply all_distinct_keys. intros x y.
  apply Z.eqb_eq.
Qed.

Lemma all_distinct_str (l : list str) :
  all_distinct str_eqb l = true <-> NoDup l.
Proof.
  rewrite <- (map_id l) at 2. apply all_distinct_keys. intros x y.
  apply str_eqb_eq.
Qed.

Lemma NoDup_snoc {A : Type} (x : A) (l : list A) :
  NoDup l -> ~ In x l -> NoDup (l ++ [x]).
Proof.
  intros Hl Hx. apply NoDup_app; [exact Hl | repeat constructor; intros [] |].
  intros y Hy [<- | []]. contradiction.
Qed.

Lemma NoDup_map_filter {A K : Type} (key : A -> K) (p : A -> bool)
  (l : list A) :
  NoDup (map key l) -> NoDup (map key (filter p l)).
Proof.
  induction l as [|x l IH]; cbn; [auto|]. intros Hnd.
  inversion Hnd as [|? ? Hx Hl]; subst.
  destruct (p x); cbn; [|auto]. constructor; [|auto].
  intros Hin. apply Hx. apply in_map_iff in Hin.
  destruct Hin as (y & Hy & Hin). apply filter_In in Hin.
  rewrite <- Hy. apply in_map. tauto.
Qed.

Lemma map_map_same {A K : Type} (key : A -> K) (f : A -> A) (l : list A) :
  (forall x, key (f x) = key x) -> map key (map f l) = map key l.
Proof.
  intros Hf. rewrite map_map. apply map_ext. exact Hf.
Qed.

(** ** Row ids *)

Lemma next_rowid_above (seq : Z) (ids : list Z) :
  seq < next_rowid seq ids /\ forall id, In id ids -> id < next_rowid seq ids.
Proof.
  unfold next_rowid. induction ids as [|x ids [IHs IHi]]; cbn.
  - split; [lia | intros id []].
  - split; [lia|]. intros id [<- | Hin]; [lia|].
    specialize (IHi id Hin). lia.
Qed.

(** ** The user table keeps its keys *)

Definition users_nodup (d : database) : Prop :=
  NoDup (map u_id (users d)) /\ NoDup (map username (users d))
  /\ NoDup (map email (users d)).

Lemma users_unique_nodup (d : database) :
  users_unique d = true <-> users_nodup d.
Proof.
  unfold users_unique, users_nodup.
  rewrite !andb_true_iff, all_distinct_Z, !all_distinct_str. tauto.
Qed.

Lemma users_nodup_same (d d' : database) :
  users d' = users d -> users_nodup d -> users_nodup d'.
Proof. unfold users_nodup. now intros ->. Qed.

Lemma users_nodup_insert (name mail hashed : str) (role now : Z)
  (d d' : database) :
  insert_user name mail hashed role now d = Some d' ->
  users_nodup d -> users_nodup d'.
Proof.
  unfold insert_user, users_nodup.
  destruct (existsb _ (users d)) eqn:E; [discriminate|].
  intros [= <-] (Hid & Hname & Hmail). cbn [users].
  rewrite !map_app. cbn [map u_id username email].
  assert (Hfree : forall u, In u (users d) ->
                            username u <> name /\ email u <> mail).
  { intros u Hu. destruct (str_eqb (username u) name) eqn:E1.
    - assert (existsb (fun u => str_eqb (username u) name
                                || str_eqb (email u) mail) (users d) = true)
        by (apply existsb_exists; exists u; now rewrite E1).
      congruence.
    - destruct (str_eqb (email u) mail) eqn:E2.
      + assert (existsb (fun u => str_eqb (username u) name
                                  || str_eqb (email u) mail) (users d) = true)
          by (apply existsb_exists; exists u; now rewrite E2, orb_true_r).
        congruence.
      + split; now apply str_eqb_neq. }
  repeat split; apply NoDup_snoc; auto; intros Hin;
    apply in_map_iff in Hin; destruct Hin as (u & Hu & Hin).
  - destruct (next_rowid_above (seq_users d) (map u_id (users d))) as [_ Hlt].
    specialize (Hlt (u_id u) (in_map u_id _ _ Hin)). lia.
  - destruct (Hfree u Hin). congruence.
  - destruct (Hfree u Hin). congruence.
Qed.

Lemma users_nodup_update (role id : Z) (d : database) :
  users_nodup d -> users_nodup (update_is_admin_by_id role id d).
Proof.
  unfold users_nodup, update_is_admin_by_id. cbn [users with_users].
  rewrite !map_map_same; [auto | | |]; intros u; now destruct (u_id u =? id).
Qed.

Lemma users_nodup_delete (id : Z) (d : database) :
  users_nodup d -> users_nodup (delete_user_by_id id d).
Proof.
  unfold users_nodup, delete_user_by_id. cbn [users with_users].
  intros (H1 & H2 & H3). repeat split; now apply NoDup_map_filter.
Qed.

Lemma rename_nodup (name : str) (hashed : option str) (id : Z)
  (l : list user) :
  NoDup (map u_id l) -> NoDup (map username l) ->
  (forall u, In u l -> u_id u <> id -> username u <> name) ->
  NoDup (map username
           (map (fun u => if u_id u =? id
                          then mkUser (u_id u) name (email u)
                                      (match hashed with
                                       | Some h => h
                                       | None => password u
                                       end)
                                      (is_admin u) (u_created_at u)
                          else u) l)).
Proof.
  induction l as [|x l IH]; cbn [map]; intros Hid Hname Hfree; [constructor|].
  inversion Hid as [|? ? Hxid Hlid]; subst.
  inversion Hname as [|? ? Hxname Hlname]; subst.
  constructor.
  - intros Hin. apply in_map_iff in Hin. destruct Hin as (y' & Hy' & Hin).
    apply in_map_iff in Hin. destruct Hin as (y & <- & Hin).
    assert (Hne : u_id y <> u_id x)
      by (intros E; apply Hxid; rewrite <- E; now apply in_map).
    destruct (u_id x =? id) eqn:Ex, (u_id y =? id) eqn:Ey; cbn in Hy'.
    + apply Z.eqb_eq in Ex, Ey. congruence.
    + apply Z.eqb_neq in Ey.
      apply (Hfree y); [now right | exact Ey | exact Hy'].
    + apply Z.eqb_neq in Ex.
      apply (Hfree x); [now left | exact Ex | now symmetry].
    + apply Hxname. rewrite <- Hy'. now apply in_map.
  - apply IH; auto. intros u Hu. apply Hfree. now right.
Qed.

Lemma users_nodup_profile (name : str) (hashed : option str) (id : Z)
  (d d' : database) :
  update_profile_by_id name hashed id d = Some d' ->
  users_nodup d -> users_nodup d'.
Proof.
  unfold update_profile_by_id, users_nodup.
  destruct (existsb (fun u => u_id u =? id) (users d)) eqn:Eid; cbn [andb].
  - destruct (existsb (fun u => str_eqb _ _ && _) (users d)) eqn:E;
      [discriminate|].
    intros [= <-] (H1 & H2 & H3). cbn [users with_users].
    split; [|split].
    + rewrite map_map_same; [auto|]. intros u. now destruct (u_id u =? id).
    + apply rename_nodup; auto. intros u Hu Hne Hn.
      assert (existsb (fun u => str_eqb (username u) name
                                && negb (u_id u =? id)) (users d) = true);
        [|congruence].
      apply existsb_exists. exists u. split; [exact Hu|].
      apply Z.eqb_neq in Hne. rewrite Hne, Hn, str_eqb_refl. reflexivity.
    + rewrite map_map_same; [auto|]. intros u. now destruct (u_id u =? id).
  - intros [= <-] Hd. eapply users_nodup_same; [|exact Hd].
    cbn [users with_users]. rewrite <- (map_id (users d)) at 2.
    apply map_ext_in. intros u Hu.
    destruct (u_id u =? id) eqn:E; [|reflexivity].
    assert (existsb (fun u => u_id u =? id) (users d) = true); [|congruence].
    apply existsb_exists. eauto.
Qed.

Lemma users_nodup_reaction (nid uid : Z) (e : str) (now : Z)
  (d d' : database) :
  insert_reaction nid uid e now d = Some d' -> users_nodup d -> users_nodup d'.
Proof.
  intros Hins. destruct (insert_reaction_frame _ _ _ _ _ Hins) as (Eu & _).
  now apply users_nodup_same.
Qed.

Create HintDb tables.

#[local] Hint Resolve users_nodup_same users_nodup_insert users_nodup_update
  users_nodup_delete users_nodup_profile users_nodup_reaction : tables.
#[local] Hint Extern 1 (users _ = users _) => reflexivity : tables.

Ltac handlers :=
  cbn [handle];
  unfold register, login, profile, logout, admin, admin_promote, admin_delete,
    notes_list, create_note, create_reply, react_to_note, admin_required,
    database_of, response_of;
  open_connection.

Lemma handle_keeps_users_nodup {engine : Engine}
  (generate_password_hash : str -> str -> str)
  (check_password_hash : str -> str -> bool)
  (cfg : config) (d : database) (s : session) (r : request) :
  users_nodup d ->
  users_nodup
    (database_of (handle generate_password_hash check_password_hash cfg d s r)).
Proof.
  intros Hd. destruct r; handlers; branches; cbn [fst snd];
    eauto with tables.
Qed.

(** X1. Over any run of requests the user table keeps its keys: no two
    rows share an id, a username or an email. *)
Theorem serve_keeps_users_unique {engine : Engine}
  (generate_password_hash : str -> str -> str)
  (check_password_hash : str -> str -> bool)
  (cfg : config) (trace : list (session * request)) (d : database) :
  users_unique d = true ->
  users_unique (serve generate_password_hash check_password_hash cfg d trace)
  = true.
Proof.
  revert d. induction trace as [|[s r] trace IH]; intros d Hd; [exact Hd|].
  cbn [serve]. apply IH. apply users_unique_nodup.
  apply handle_keeps_users_nodup. now apply users_unique_nodup.
Qed.

Lemma serve_keeps_users_unique_witness :
  users_unique
    (@serve stable Sample.toy_hash Sample.toy_check Sample.pinned Sample.db
       [(empty_session,
         Register POST true
           (mkRegisterForm (lit "carol") (lit "carol@example.org")
              (lit "secret1") (lit "secret1") true) (lit "salt") 500);
        (Sample.session_of Sample.bob,
         Profile POST true (mkProfileForm (lit "carol") [] []) (lit "salt"));
        (Sample.session_of Sample.bob,
         Profile POST true (mkProfileForm (lit "robert") [] []) (lit "salt"))])
  = true.
Proof.
  apply (@serve_keeps_users_unique stable Sample.toy_hash Sample.toy_check).
  reflexivity.
Defined.

(** ** The one uncaught database error *)

Lemma insert_user_after_check (name mail hashed : str) (role now : Z)
  (d : database) :
  fetchone (select_user_by_username_or_email name mail d) = None ->
  insert_user name mail hashed role now d = None -> False.
Proof.
  unfold insert_user, select_user_by_username_or_email, fetchone.
  intros Hnone.
  destruct (existsb _ (users d)) eqn:E; [|discriminate].
  destruct (existsb_fetchone _ _ E) as [u Hu].
  unfold fetchone in Hu. congruence.
Qed.

Lemma update_profile_after_check (name : str) (hashed : option str) (id : Z)
  (d : database) :
  fetchone (select_other_user_by_username name id d) = None ->
  update_profile_by_id name hashed id d = None -> False.
Proof.
  unfold update_profile_by_id, select_other_user_by_username.
  intros Hnone.
  destruct (existsb (fun u => str_eqb _ _ && _) (users d)) eqn:E.
  - destruct (existsb_fetchone _ _ E) as [u Hu]. congruence.
  - rewrite andb_false_r. discriminate.
Qed.

Lemma insert_reaction_after_check (nid uid : Z) (e : str) (now : Z)
  (d : database) :
  fetchone (select_reaction nid uid e d) = None ->
  insert_reaction nid uid e now d = None -> False.
Proof.
  unfold insert_reaction, select_reaction. intros Hnone.
  destruct (existsb _ (reactions d)) eqn:E; [|discriminate].
  destruct (existsb_fetchone _ _ E) as [r Hr]. congruence.
Qed.

Lemma flash_errors_fields (text : string)
  (errors : list (string * validation_error)) :
  ~ In (Flash text) (flash_errors errors).
Proof.
  unfold flash_errors. intros Hin. apply in_map_iff in Hin.
  destruct Hin as (fe & Hfe & _). discriminate.
Qed.

(** X2. The one exception that a request handler lets through is the
    [OverflowError] of a note id beyond 64 bits: a request ends in an
    internal server error exactly when it is a reply with a valid form or
    a reaction with an emoji that is not blank, from a session with a
    user, to such a note id; nothing is written then.  No
    [IntegrityError] comes up: [register] and [profile] look for the
    clash before they write, so the UNIQUE constraints never fire, and
    the [IntegrityError] branch of [react_to_note] is never taken, so the
    message 'You already reacted with that emoji.' is never flashed.
    The session is one that the application issued. *)
Theorem handle_fails_only_on_overflow {engine : Engine}
  (generate_password_hash : str -> str -> str)
  (check_password_hash : str -> str -> bool)
  (cfg : config) (d : database) (s : session) (r : request) :
  session_id_fits s = true ->
  (resp_body
     (response_of (handle generate_password_hash check_password_hash cfg d s r))
   = internal_server_error
   <-> note_id_overflows s r = true)
  /\ (note_id_overflows s r = true ->
      handle generate_password_hash check_password_hash cfg d s r
      = (ServerError, d, s))
  /\ ~ In (Flash "You already reacted with that emoji.")
        (flashes
           (response_of
              (handle generate_password_hash check_password_hash cfg d s r))).
Proof.
  intros _. unfold note_id_overflows.
  destruct r; handlers;
    repeat match goal with
           | |- context [negb ?b] => destruct b eqn:?; cbn [negb]
           end;
    branches; cbn [fst snd resp_body flashes andb negb];
    try solve
      [ split;
        [ split; intro; first [discriminate | reflexivity]
        | split;
          [ intro; first [discriminate | reflexivity]
          | first [ apply flash_errors_fields
                  | cbn; intuition discriminate ] ] ] ];
    exfalso;
    solve [ eapply insert_user_after_check; eassumption
          | eapply update_profile_after_check; eassumption
          | eapply insert_reaction_after_check; eassumption ].
Qed.

Lemma handle_fails_only_on_overflow_witness :
  (resp_body
     (response_of
        (@handle stable Sample.toy_hash Sample.toy_check Sample.pinned
           Sample.db (Sample.session_of Sample.bob)
           (React (2 ^ 63) (lit "x") 500)))
   = internal_server_error
   <-> note_id_overflows (Sample.session_of Sample.bob)
         (React (2 ^ 63) (lit "x") 500) = true)
  /\ (note_id_overflows (Sample.session_of Sample.bob)
        (React (2 ^ 63) (lit "x") 500) = true ->
      @handle stable Sample.toy_hash Sample.toy_check Sample.pinned
        Sample.db (Sample.session_of Sample.bob) (React (2 ^ 63) (lit "x") 500)
      = (ServerError, Sample.db, Sample.session_of Sample.bob))
  /\ ~ In (Flash "You already reacted with that emoji.")
        (flashes
           (response_of
              (@handle stable Sample.toy_hash Sample.toy_check Sample.pinned
                 Sample.db (Sample.session_of Sample.bob)
                 (React (2 ^ 63) (lit "x") 500)))).
Proof.
  apply (@handle_fails_only_on_overflow stable Sample.toy_hash
           Sample.toy_check Sample.pinned Sample.db
           (Sample.session_of Sample.bob) (React (2 ^ 63) (lit "x") 500)).
  reflexivity.
Defined.

(** ** The reaction table keeps its key *)

Definition triple (r : reaction) : Z * Z * str :=
  (r_note_id r, r_user_id r, emoji r).

Lemma reactions_unique_nodup (d : database) :
  reactions_unique d = true <-> NoDup (map triple (reactions d)).
Proof.
  unfold reactions_unique. apply all_distinct_keys. intros r r'.
  unfold same_reaction, triple.
  rewrite !andb_true_iff, !Z.eqb_eq, str_eqb_eq.
  split; [intros [[-> ->] ->]; reflexivity | intros [= -> -> ->]; auto].
Qed.

Lemma reactions_nodup_insert (nid uid : Z) (e : str) (now : Z)
  (d d' : database) :
  insert_reaction nid uid e now d = Some d' ->
  NoDup (map triple (reactions d)) -> NoDup (map triple (reactions d')).
Proof.
  unfold insert_reaction.
  destruct (existsb _ (reactions d)) eqn:E; [discriminate|].
  intros [= <-] Hd. cbn [reactions with_reactions]. rewrite map_app.
  apply NoDup_snoc; [exact Hd|]. cbn. intros Hin.
  apply in_map_iff in Hin. destruct Hin as (r & Hr & Hin).
  assert (existsb (same_reaction nid uid e) (reactions d) = true);
    [|congruence].
  apply existsb_exists. exists r. split; [exact Hin|].
  unfold triple in Hr. injection Hr as E1 E2 E3.
  unfold same_reaction. now rewrite E1, E2, E3, !Z.eqb_refl, str_eqb_refl.
Qed.

Lemma reactions_nodup_delete (nid uid : Z) (e : str) (d : database) :
  NoDup (map triple (reactions d)) ->
  NoDup (map triple (reactions (delete_reaction nid uid e d))).
Proof. cbn. apply NoDup_map_filter. Qed.

Lemma handle_keeps_reactions_nodup {engine : Engine}
  (generate_password_hash : str -> str -> str)
  (check_password_hash : str -> str -> bool)
  (cfg : config) (d : database) (s : session) (r : request) :
  NoDup (map triple (reactions d)) ->
  NoDup
    (map triple
       (reactions
          (database_of
             (handle generate_password_hash check_password_hash cfg d s r)))).
Proof.
  intros Hd. destruct r; handlers; branches; cbn [fst snd]; try exact Hd;
    try (erewrite insert_user_reactions by eassumption; exact Hd);
    try (erewrite update_profile_reactions by eassumption; exact Hd);
    try (now apply reactions_nodup_delete).
  eapply reactions_nodup_insert; eassumption.
Qed.

(** X3. Over any run of requests no user holds the same emoji twice on
    one note: the triples (note, user, emoji) of the reaction table stay
    distinct. *)
Theorem serve_keeps_reactions_unique {engine : Engine}
  (generate_password_hash : str -> str -> str)
  (check_password_hash : str -> str -> bool)
  (cfg : config) (trace : list (session * request)) (d : database) :
  reactions_unique d = true ->
  reactions_unique (serve generate_password_hash check_password_hash cfg d trace)
  = true.
Proof.
  revert d. induction trace as [|[s r] trace IH]; intros d Hd; [exact Hd|].
  cbn [serve]. apply IH. apply reactions_unique_nodup.
  apply handle_keeps_reactions_nodup. now apply reactions_unique_nodup.
Qed.

Lemma serve_keeps_reactions_unique_witness :
  reactions_unique
    (@serve stable Sample.toy_hash Sample.toy_check Sample.pinned
       Sample.db_abc
       [(Sample.session_of Sample.bob, React 1 (lit "a") 500);
        (Sample.session_of Sample.bob, React 1 (lit "c") 501);
        (Sample.session_of Sample.bob, React 1 (lit " a ") 502)])
  = true.
Proof.
  apply (@serve_keeps_reactions_unique stable Sample.toy_hash Sample.toy_check).
  reflexivity.
Defined.

(** ** User ids are handed out once *)

(** One step: the sequence does not go back, the ids stay under it, and
    a row is an old id or a new one above the old sequence. *)
Definition ids_grow (d d' : database) : Prop :=
  user_ids_bounded d = true ->
  user_ids_bounded d' = true
  /\ seq_users d <= seq_users d'
  /\ forall u', In u' (users d') ->
                has_user_id d (u_id u') = true \/ seq_users d < u_id u'.

Lemma ids_grow_kept (d d' : database) :
  seq_users d' = seq_users d ->
  (forall u', In u' (users d') ->
              exists u, In u (users d) /\ u_id u = u_id u') ->
  ids_grow d d'.
Proof.
  intros Hseq Hids Hb. unfold user_ids_bounded, has_user_id in *.
  rewrite forallb_forall in Hb. split; [|split; [lia|]].
  - apply forallb_forall. intros u' Hu'.
    destruct (Hids u' Hu') as (u & Hu & E). rewrite Hseq, <- E. now apply Hb.
  - intros u' Hu'. left. destruct (Hids u' Hu') as (u & Hu & E).
    apply existsb_exists. exists u. split; [exact Hu | now apply Z.eqb_eq].
Qed.

Lemma ids_grow_same (d d' : database) :
  users d' = users d -> seq_users d' = seq_users d -> ids_grow d d'.
Proof.
  intros Eu Es. apply ids_grow_kept; [exact Es|]. rewrite Eu. eauto.
Qed.

Lemma ids_grow_map (f : user -> user) (d : database) :
  (forall u, u_id (f u) = u_id u) ->
  ids_grow d (with_users (map f (users d)) d).
Proof.
  intros Hf. apply ids_grow_kept; [reflexivity|]. cbn. intros u' Hu'.
  apply in_map_iff in Hu'. destruct Hu' as (u & <- & Hu). eauto.
Qed.

Lemma ids_grow_update (role id : Z) (d : database) :
  ids_grow d (update_is_admin_by_id role id d).
Proof. apply ids_grow_map. intros u. now destruct (u_id u =? id). Qed.

Lemma ids_grow_profile (name : str) (hashed : option str) (id : Z)
  (d d' : database) :
  update_profile_by_id name hashed id d = Some d' -> ids_grow d d'.
Proof.
  unfold update_profile_by_id. destruct (_ && _); [discriminate|].
  intros [= <-]. apply ids_grow_map. intros u. now destruct (u_id u =? id).
Qed.

Lemma ids_grow_delete (id : Z) (d : database) :
  ids_grow d (delete_user_by_id id d).
Proof.
  apply ids_grow_kept; [reflexivity|]. cbn. intros u' Hu'.
  apply filter_In in Hu'. destruct Hu'. eauto.
Qed.

Lemma ids_grow_insert (name mail hashed : str) (role now : Z)
  (d d' : database) :
  insert_user name mail hashed role now d = Some d' -> ids_grow d d'.
Proof.
  unfold insert_user. destruct (existsb _ _); [discriminate|].
  intros [= <-] Hb. unfold user_ids_bounded, has_user_id in *.
  cbn [users seq_users].
  destruct (next_rowid_above (seq_users d) (map u_id (users d))) as [Hseq Hids].
  rewrite forallb_forall in Hb. split; [|split; [lia|]].
  - rewrite forallb_app. apply andb_true_iff. split.
    + apply forallb_forall. intros u Hu. specialize (Hb u Hu).
      apply Z.leb_le in Hb. apply Z.leb_le. lia.
    + cbn. rewrite Z.leb_refl. reflexivity.
  - intros u' Hu'. apply in_app_or in Hu'. destruct Hu' as [Hu' | [<- | []]].
    + left. apply existsb_exists. exists u'. split; [exact Hu'|].
      apply Z.eqb_refl.
    + right. exact Hseq.
Qed.

Lemma ids_grow_reaction (nid uid : Z) (e : str) (now : Z) (d d' : database) :
  insert_reaction nid uid e now d = Some d' -> ids_grow d d'.
Proof.
  unfold insert_reaction. destruct (existsb _ _); [discriminate|].
  intros [= <-]. now apply ids_grow_same.
Qed.

Create HintDb ids.

#[local] Hint Resolve ids_grow_same ids_grow_update ids_grow_profile
  ids_grow_delete ids_grow_insert ids_grow_reaction : ids.
#[local] Hint Extern 1 (users _ = users _) => reflexivity : ids.
#[local] Hint Extern 1 (seq_users _ = seq_users _) => reflexivity : ids.

Lemma handle_ids_grow {engine : Engine}
  (generate_password_hash : str -> str -> str)
  (check_password_hash : str -> str -> bool)
  (cfg : config) (d : database) (s : session) (r : request) :
  ids_grow d
    (database_of (handle generate_password_hash check_password_hash cfg d s r)).
Proof.
  destruct r; handlers; branches; cbn [fst snd]; eauto with ids.
Qed.

(** X4. A user id is handed out once.  In a database whose ids are under
    its sequence, an id that has been used up (it is not above the
    sequence) and that no row carries is carried by no row after any run
    of requests: the account that registers after a deletion gets a new
    id, never the one a stale session cookie still names. *)
Theorem serve_never_reuses_user_id {engine : Engine}
  (generate_password_hash : str -> str -> str)
  (check_password_hash : str -> str -> bool)
  (cfg : config) (trace : list (session * request)) (d : database) (id : Z) :
  user_ids_bounded d = true ->
  id <= seq_users d ->
  has_user_id d id = false ->
  has_user_id (serve generate_password_hash check_password_hash cfg d trace) id
  = false.
Proof.
  revert d. induction trace as [|[s r] trace IH]; intros d Hb Hseq Hfree;
    [exact Hfree|].
  cbn [serve].
  destruct (handle_ids_grow generate_password_hash check_password_hash
              cfg d s r Hb) as (Hb' & Hseq' & Hids).
  apply IH; [exact Hb' | lia |].
  apply existsb_none. intros u' Hu'. apply Z.eqb_neq. intros E.
  destruct (Hids u' Hu') as [Hold | Hnew]; [congruence | lia].
Qed.

Lemma serve_never_reuses_user_id_witness :
  has_user_id
    (@serve stable Sample.toy_hash Sample.toy_check Sample.pinned
       (delete_user_by_id 3 Sample.db)
       [(empty_session,
         Register POST true
           (mkRegisterForm (lit "carol") (lit "carol@example.org")
              (lit "secret1") (lit "secret1") true) (lit "salt") 500)])
    3
  = false.
Proof.
  apply (@serve_never_reuses_user_id stable Sample.toy_hash Sample.toy_check).
  - reflexivity.
  - simpl. lia.
  - reflexivity.
Defined.

(** ** Registration and login *)

Lemma field_nil (name : string) (errs : list validation_error) :
  field name errs = [] -> errs = [].
Proof. destruct errs; [reflexivity | discriminate]. Qed.

Lemma required_then_nil (s : str) (more : list validation_error) :
  required_then s more = [] -> data_required s = true /\ more = [].
Proof.
  unfold required_then. destruct (data_required s); [auto | discriminate].
Qed.

Lemma check_nil (ok : bool) (e : validation_error) :
  check ok e = [] -> ok = true.
Proof. destruct ok; [reflexivity | discriminate]. Qed.

(** What a register form that validates holds. *)
Lemma RegisterForm_valid (csrf_ok : bool) (f : RegisterForm) :
  RegisterForm_errors csrf_ok f = [] ->
  data_required (reg_username f) = true
  /\ length_ok 3 (-1) (reg_username f) = true
  /\ email_regexp (reg_email f) = true
  /\ data_required (reg_password f) = true
  /\ length_ok 6 (-1) (reg_password f) = true
  /\ reg_confirm_password f = reg_password f
  /\ reg_terms f = true
  /\ csrf_ok = true.
Proof.
  unfold RegisterForm_errors, csrf_field. intros H.
  repeat match goal with
         | H : _ ++ _ = [] |- _ => apply app_eq_nil in H; destruct H
         | H : field _ _ = [] |- _ => apply field_nil in H
         | H : required_then _ _ = [] |- _ =>
             apply required_then_nil in H; destruct H
         | H : check _ _ = [] |- _ => apply check_nil in H
         end.
  repeat split; auto. now apply str_eqb_eq.
Qed.

Lemma select_username_none (name : str) (d : database) :
  (forall u, In u (users d) -> username u <> name) ->
  select_user_by_username name d = [].
Proof.
  intros Hfree. apply filter_none. intros u Hu. apply str_eqb_neq. auto.
Qed.

Section Register.

Variable generate_password_hash : str -> str -> str.
Variables (d : database) (s : session) (csrf_ok : bool) (form : RegisterForm).
Variables (salt : str) (now : Z).

Hypothesis valid : RegisterForm_errors csrf_ok form = [].

Let name : str := strip (reg_username form).
Let mail : str := strip (reg_email form).

Lemma register_clash (u : user) :
  In u (users d) -> username u = name \/ email u = mail ->
  register generate_password_hash d s POST csrf_ok form salt now
  = (mkResponse (render_register form)
                [Flash "Username or email already registered."], d, s).
Proof.
  intros Hu Hclash. unfold register. rewrite valid. cbn [validate_on_submit].
  open_connection. fold name mail.
  destruct (existsb_fetchone
              (fun u => str_eqb (username u) name || str_eqb (email u) mail)
              (users d)) as [v Hv].
  - apply existsb_exists. exists u. split; [exact Hu|].
    destruct Hclash as [-> | ->]; rewrite str_eqb_refl;
      [reflexivity | apply orb_true_r].
  - unfold select_user_by_username_or_email. now rewrite Hv.
Qed.

Lemma register_free :
  (forall u, In u (users d) -> username u <> name /\ email u <> mail) ->
  register generate_password_hash d s POST csrf_ok form salt now
  = (mkResponse (redirect ep_home)
                [Flash "Registration successful. You can now sign in."],
     mkDatabase
       (users d
        ++ [mkUser (next_rowid (seq_users d) (map u_id (users d))) name mail
                   (generate_password_hash (reg_password form) salt) 0 now])
       (notes d) (reactions d)
       (next_rowid (seq_users d) (map u_id (users d)))
       (seq_notes d) (seq_reactions d),
     s).
Proof.
  intros Hfree. unfold register. rewrite valid. cbn [validate_on_submit].
  open_connection. fold name mail.
  assert (Hp : forall u, In u (users d) ->
                         str_eqb (username u) name
                         || str_eqb (email u) mail = false).
  { intros u Hu. destruct (Hfree u Hu) as [Hn Hm].
    apply str_eqb_neq in Hn, Hm. now rewrite Hn, Hm. }
  unfold select_user_by_username_or_email, insert_user.
  rewrite (filter_none _ _ Hp), (existsb_none _ _ Hp). reflexivity.
Qed.

End Register.

(** X5. A registration under a username or an email that a row already
    holds (after the white space around the submitted values is
    stripped) is turned down with 'Username or email already
    registered.', and nothing is written. *)
Theorem register_rejects_duplicates
  (generate_password_hash : str -> str -> str)
  (d : database) (s : session) (csrf_ok : bool) (form : RegisterForm)
  (salt : str) (now : Z) (u : user) :
  RegisterForm_errors csrf_ok form = [] ->
  In u (users d) ->
  username u = strip (reg_username form) \/ email u = strip (reg_email form) ->
  register generate_password_hash d s POST csrf_ok form salt now
  = (mkResponse (render_register form)
                [Flash "Username or email already registered."], d, s).
Proof. intros Hvalid Hu Hclash. now apply register_clash with (u := u). Qed.

Lemma register_rejects_duplicates_witness :
  register Sample.toy_hash Sample.db empty_session POST true
    (mkRegisterForm (lit " bob ") (lit "other@example.org") (lit "secret1")
       (lit "secret1") true) (lit "salt") 500
  = (mkResponse
       (render_register
          (mkRegisterForm (lit " bob ") (lit "other@example.org")
             (lit "secret1") (lit "secret1") true))
       [Flash "Username or email already registered."],
     Sample.db, empty_session).
Proof.
  apply (@register_rejects_duplicates Sample.toy_hash Sample.db empty_session
           true _ (lit "salt") 500 Sample.bob).
  - reflexivity.
  - simpl. tauto.
  - left. reflexivity.
Defined.

(** X6. A registration that validates, under a username and an email
    that no row holds, appends exactly one row: the stripped username and
    email, the hash of the password (not the password), role 0, under an
    id above every id of the table.  Notes, reactions and the session are
    untouched: registering does not log in. *)
Theorem register_creates_user
  (generate_password_hash : str -> str -> str)
  (d : database) (s : session) (csrf_ok : bool) (form : RegisterForm)
  (salt : str) (now : Z) :
  RegisterForm_errors csrf_ok form = [] ->
  (forall u, In u (users d) ->
             username u <> strip (reg_username form)
             /\ email u <> strip (reg_email form)) ->
  exists (id : Z) (d' : database),
    register generate_password_hash d s POST csrf_ok form salt now
    = (mkResponse (redirect ep_home)
                  [Flash "Registration successful. You can now sign in."],
       d', s)
    /\ users d'
       = users d
         ++ [mkUser id (strip (reg_username form)) (strip (reg_email form))
                    (generate_password_hash (reg_password form) salt) 0 now]
    /\ (forall u, In u (users d) -> u_id u < id)
    /\ notes d' = notes d /\ reactions d' = reactions d.
Proof.
  intros Hvalid Hfree.
  rewrite (@register_free generate_password_hash d s csrf_ok form salt now
             Hvalid Hfree).
  eexists. eexists. split; [reflexivity|]. cbn [users notes reactions].
  repeat split. intros u Hu.
  apply (next_rowid_above (seq_users d) (map u_id (users d))).
  now apply in_map.
Qed.

Lemma register_creates_user_witness :
  exists (id : Z) (d' : database),
    register Sample.toy_hash Sample.db empty_session POST true
      (mkRegisterForm (lit " carol ") (lit "carol@example.org") (lit "secret1")
         (lit "secret1") true) (lit "salt") 500
    = (mkResponse (redirect ep_home)
                  [Flash "Registration successful. You can now sign in."],
       d', empty_session)
    /\ users d'
       = users Sample.db
         ++ [mkUser id (lit "carol") (lit "carol@example.org")
                    (Sample.toy_hash (lit "secret1") (lit "salt")) 0 500]
    /\ (forall u, In u (users Sample.db) -> u_id u < id)
    /\ notes d' = notes Sample.db /\ reactions d' = reactions Sample.db.
Proof.
  apply (@register_creates_user Sample.toy_hash Sample.db empty_session true
           (mkRegisterForm (lit " carol ") (lit "carol@example.org")
              (lit "secret1") (lit "secret1") true) (lit "salt") 500).
  - reflexivity.
  - simpl. intros u [<- | [<- | [<- | [<- | []]]]]; split; discriminate.
Defined.

(** X7. Register, then log in.  After a registration that went through,
    a login with the submitted username and password succeeds whenever
    the hashing collaborator verifies the hash it made: the visitor is
    sent to the profile page and the session names the new account. *)
Theorem register_then_login
  (generate_password_hash : str -> str -> str)
  (check_password_hash : str -> str -> bool)
  (d : database) (s s' : session) (csrf_ok : bool) (form : RegisterForm)
  (salt : str) (now : Z) (remember : bool) :
  RegisterForm_errors csrf_ok form = [] ->
  (forall u, In u (users d) ->
             username u <> strip (reg_username form)
             /\ email u <> strip (reg_email form)) ->
  check_password_hash (generate_password_hash (reg_password form) salt)
                      (reg_password form) = true ->
  let d' :=
    database_of
      (register generate_password_hash d s POST csrf_ok form salt now) in
  exists id : Z,
    has_user_id d id = false
    /\ login check_password_hash d' s' POST true
         (mkLoginForm (reg_username form) (reg_password form) remember)
       = (mkResponse (redirect ep_profile)
                     [FlashWelcome (strip (reg_username form))],
          d',
          mkSession (Some id) (Some (strip (reg_username form)))
                    (Some (strip (reg_email form)))
                    (if remember then true else sess_permanent s')).
Proof.
  intros Hvalid Hfree Hhash d'.
  assert (Hd' : d' = _)
    by (unfold d';
        rewrite (@register_free generate_password_hash d s csrf_ok form salt
                   now Hvalid Hfree); reflexivity).
  destruct (RegisterForm_valid _ _ Hvalid) as (Hu & _ & _ & Hp & _).
  exists (next_rowid (seq_users d) (map u_id (users d))). split.
  - apply existsb_none. intros u Hu'. apply Z.eqb_neq.
    assert (u_id u < next_rowid (seq_users d) (map u_id (users d)));
      [|lia].
    apply next_rowid_above. now apply in_map.
  - unfold login, LoginForm_errors, required_then.
    cbn [login_username login_password remember_me].
    rewrite Hu, Hp. cbn [field map app csrf_field check validate_on_submit].
    open_connection. unfold select_user_by_username.
    rewrite Hd'. unfold database_of. cbn [fst snd users].
    rewrite filter_app, filter_none.
    + cbn [filter username app]. rewrite str_eqb_refl.
      cbn [fetchone hd_error password]. rewrite Hhash. reflexivity.
    + intros u Hu'. apply str_eqb_neq. now apply Hfree.
Qed.

Lemma register_then_login_witness :
  exists id : Z,
    has_user_id Sample.db id = false
    /\ login Sample.toy_check
         (database_of
            (register Sample.toy_hash Sample.db empty_session POST true
               (mkRegisterForm (lit "carol") (lit "carol@example.org")
                  (lit "secret1") (lit "secret1") true) [] 500))
         empty_session POST true
         (mkLoginForm (lit "carol") (lit "secret1") true)
       = (mkResponse (redirect ep_profile) [FlashWelcome (lit "carol")],
          database_of
            (register Sample.toy_hash Sample.db empty_session POST true
               (mkRegisterForm (lit "carol") (lit "carol@example.org")
                  (lit "secret1") (lit "secret1") true) [] 500),
          mkSession (Some id) (Some (lit "carol"))
                    (Some (lit "carol@example.org")) true).
Proof.
  apply (@register_then_login Sample.toy_hash Sample.toy_check Sample.db
           empty_session empty_session true
           (mkRegisterForm (lit "carol") (lit "carol@example.org")
              (lit "secret1") (lit "secret1") true) [] 500 true).
  - reflexivity.
  - simpl. intros u [<- | [<- | [<- | [<- | []]]]]; split; discriminate.
  - reflexivity.
Defined.

(** X8. [login] sends the visitor on to the profile page exactly when the
    form validates, a row carries the stripped username and the stored
    hash verifies the password.  Then the session names that row (and is
    made permanent when 'remember me' is ticked); otherwise the session
    is left as it was.  In no case is the database written. *)
Theorem login_succeeds_iff
  (check_password_hash : str -> str -> bool)
  (d : database) (s : session) (m : http_method) (csrf_ok : bool)
  (form : LoginForm) :
  let outcome := login check_password_hash d s m csrf_ok form in
  let found :=
    fetchone (select_user_by_username (strip (login_username form)) d) in
  database_of outcome = d
  /\ (resp_body (response_of outcome) = redirect ep_profile <->
      validate_on_submit m (LoginForm_errors csrf_ok form) = true
      /\ exists u, found = Some u
                   /\ check_password_hash (password u) (login_password form)
                      = true)
  /\ (forall u,
         validate_on_submit m (LoginForm_errors csrf_ok form) = true ->
         found = Some u ->
         check_password_hash (password u) (login_password form) = true ->
         snd outcome
         = mkSession (Some (u_id u)) (Some (username u)) (Some (email u))
                     (if remember_me form then true else sess_permanent s))
  /\ (resp_body (response_of outcome) <> redirect ep_profile ->
      snd outcome = s).
Proof.
  cbn zeta. unfold login, database_of, response_of. open_connection.
  destruct (validate_on_submit m (LoginForm_errors csrf_ok form));
    [|cbn; repeat split; try discriminate; intros [? _]; discriminate].
  destruct (fetchone _) as [u|];
    [|cbn; repeat split; try discriminate;
      intros (_ & u & Hu & _); discriminate].
  destruct (check_password_hash (password u) (login_password form)) eqn:E; cbn.
  - repeat split; eauto.
    + intros v _ [= <-] _. reflexivity.
    + intros H. now contradiction H.
  - repeat split; try discriminate.
    + intros (_ & v & [= <-] & Hv). congruence.
    + intros v _ [= <-] Hv. congruence.
Qed.

(** ** The profile page *)

Lemma filter_map_same {A : Type} (p : A -> bool) (f : A -> A) (l : list A) :
  (forall x, p (f x) = p x) -> filter p (map f l) = map f (filter p l).
Proof.
  intros Hf. induction l as [|x l IH]; [reflexivity|]. cbn.
  rewrite Hf. destruct (p x); cbn; now rewrite IH.
Qed.

Lemma map_filter_fixed {A : Type} (p : A -> bool) (f : A -> A) (l : list A) :
  (forall x, p x = true -> f x = x) -> map f (filter p l) = filter p l.
Proof.
  intros Hf. induction l as [|x l IH]; [reflexivity|]. cbn.
  destruct (p x) eqn:E; cbn; [rewrite (Hf x E)|]; now rewrite IH.
Qed.

(** The row that [UPDATE users SET username = ? (, password = ?)] leaves. *)
Definition renamed (name : str) (hashed : option str) (u : user) : user :=
  mkUser (u_id u) name (email u)
         (match hashed with Some h => h | None => password u end)
         (is_admin u) (u_created_at u).

Section Profile.

Variable generate_password_hash : str -> str -> str.
Variables (d : database) (s : session) (uid : Z) (user_row : user).
Variables (csrf_ok : bool) (form : ProfileForm) (salt : str).

Hypothesis logged_in : sess_user_id s = Some uid.
Hypothesis row : fetchone (select_user_by_id uid d) = Some user_row.
Hypothesis valid : ProfileForm_errors csrf_ok form = [].

Let new_username : str := strip (prof_username form).
Let new_password : str := prof_new_password form.
Let page : body := render_profile (username user_row) (email user_row) form.

Lemma profile_taken (v : user) :
  In v (users d) -> u_id v <> uid -> username v = new_username ->
  profile generate_password_hash d s POST csrf_ok form salt
  = (mkResponse page [Flash "Username is already taken."], d, s).
Proof.
  intros Hv Hid Hname. unfold profile. rewrite logged_in.
  open_connection. rewrite row, valid. cbn [validate_on_submit].
  fold new_username.
  destruct (existsb_fetchone
              (fun u => str_eqb (username u) new_username
                        && negb (u_id u =? uid)) (users d)) as [w Hw].
  - apply existsb_exists. exists v. split; [exact Hv|].
    apply Z.eqb_neq in Hid. now rewrite Hname, Hid, str_eqb_refl.
  - unfold select_other_user_by_username. now rewrite Hw.
Qed.

Hypothesis free :
  forall v, In v (users d) -> u_id v <> uid -> username v <> new_username.

Lemma profile_free_select :
  select_other_user_by_username new_username uid d = [].
Proof.
  apply filter_none. intros v Hv.
  destruct (u_id v =? uid) eqn:E; [now rewrite andb_false_r|].
  apply Z.eqb_neq in E. pose proof (free v Hv E) as Hf.
  apply str_eqb_neq in Hf. now rewrite Hf.
Qed.

Lemma profile_short :
  truthy new_password = true -> len new_password < 6 ->
  profile generate_password_hash d s POST csrf_ok form salt
  = (mkResponse page [Flash "New password must be at least 6 characters."],
     d, s).
Proof.
  intros Hpw Hlen. unfold profile. rewrite logged_in.
  open_connection. rewrite row, valid. cbn [validate_on_submit].
  fold new_username new_password. rewrite profile_free_select.
  cbn [fetchone hd_error]. rewrite Hpw.
  apply Z.ltb_lt in Hlen. now rewrite Hlen.
Qed.

Lemma profile_updates :
  truthy new_password = false \/ 6 <= len new_password ->
  profile generate_password_hash d s POST csrf_ok form salt
  = (mkResponse (redirect ep_profile) [Flash "Profile updated successfully."],
     with_users
       (map (fun u =>
               if u_id u =? uid
               then renamed new_username
                      (if truthy new_password
                       then Some (generate_password_hash new_password salt)
                       else None) u
               else u) (users d)) d,
     mkSession (sess_user_id s) (Some new_username) (sess_email s)
               (sess_permanent s)).
Proof.
  intros Hpw. unfold profile. rewrite logged_in.
  open_connection. rewrite row, valid. cbn [validate_on_submit].
  fold new_username new_password. rewrite profile_free_select.
  cbn [fetchone hd_error].
  assert (Hok : truthy new_password && (len new_password <? 6) = false).
  { destruct Hpw as [-> | Hlen]; [reflexivity|].
    apply andb_false_iff. right. now apply Z.ltb_ge. }
  rewrite Hok. unfold update_profile_by_id.
  assert (Hother : existsb (fun u => str_eqb (username u) new_username
                                     && negb (u_id u =? uid)) (users d)
                   = false).
  { destruct (existsb _ (users d)) eqn:E; [|reflexivity].
    destruct (existsb_fetchone _ _ E) as [w Hw].
    pose proof profile_free_select as Hnone.
    unfold select_other_user_by_username in Hnone. rewrite Hnone in Hw.
    discriminate. }
  rewrite Hother, andb_false_r. reflexivity.
Qed.

End Profile.

(** X9. A profile update that goes through rewrites the rows under the
    session's id and no other: they get the stripped new username; the
    password hash is replaced when a new password of six characters or
    more is given and is kept when the field is left empty; email, role
    and id stay.  Keeping one's own username is allowed, since only other
    rows are searched for the name.  The session takes the new
    username. *)
Theorem profile_updates_own_row
  (generate_password_hash : str -> str -> str)
  (d : database) (s : session) (uid : Z) (user_row : user)
  (csrf_ok : bool) (form : ProfileForm) (salt : str) :
  sess_user_id s = Some uid ->
  fetchone (select_user_by_id uid d) = Some user_row ->
  ProfileForm_errors csrf_ok form = [] ->
  (forall v, In v (users d) -> u_id v <> uid ->
             username v <> strip (prof_username form)) ->
  truthy (prof_new_password form) = false \/ 6 <= len (prof_new_password form) ->
  exists d' : database,
    profile generate_password_hash d s POST csrf_ok form salt
    = (mkResponse (redirect ep_profile)
                  [Flash "Profile updated successfully."],
       d',
       mkSession (sess_user_id s) (Some (strip (prof_username form)))
                 (sess_email s) (sess_permanent s))
    /\ fetchone (select_user_by_id uid d')
       = Some (mkUser uid (strip (prof_username form)) (email user_row)
                      (if truthy (prof_new_password form)
                       then generate_password_hash (prof_new_password form) salt
                       else password user_row)
                      (is_admin user_row) (u_created_at user_row))
    /\ (forall id, id <> uid ->
                   select_user_by_id id d' = select_user_by_id id d)
    /\ notes d' = notes d /\ reactions d' = reactions d.
Proof.
  intros Hsess Hrow Hvalid Hfree Hpw.
  rewrite (@profile_updates generate_password_hash d s uid user_row csrf_ok
             form salt Hsess Hrow Hvalid Hfree Hpw).
  eexists. split; [reflexivity|]. cbn [notes reactions with_users].
  split; [|split; [|split; reflexivity]].
  - unfold select_user_by_id. cbn [users with_users].
    rewrite filter_map_same
      by (intros u; destruct (u_id u =? uid) eqn:Eu; cbn; auto).
    unfold fetchone, select_user_by_id in *.
    destruct (filter (fun u => u_id u =? uid) (users d)) as [|u us] eqn:E;
      [discriminate|].
    injection Hrow as ->.
    assert (Hid : (u_id user_row =? uid) = true).
    { assert (Hin : In user_row (filter (fun u => u_id u =? uid) (users d)))
        by (rewrite E; now left).
      apply filter_In in Hin. tauto. }
    cbn [map hd_error]. rewrite Hid. apply Z.eqb_eq in Hid.
    unfold renamed. rewrite Hid.
    now destruct (truthy (prof_new_password form)).
  - intros id Hid. unfold select_user_by_id. cbn [users with_users].
    rewrite filter_map_same
      by (intros u; destruct (u_id u =? uid) eqn:Eu; cbn; auto).
    apply map_filter_fixed. intros u Hu. apply Z.eqb_eq in Hu.
    assert (E : (u_id u =? uid) = false) by (apply Z.eqb_neq; lia).
    now rewrite E.
Qed.

Lemma profile_updates_own_row_witness :
  exists d' : database,
    profile Sample.toy_hash Sample.db (Sample.session_of Sample.bob) POST true
      (mkProfileForm (lit " robert ") [] []) (lit "salt")
    = (mkResponse (redirect ep_profile)
                  [Flash "Profile updated successfully."],
       d',
       mkSession (Some 3) (Some (lit "robert")) (Some (lit "bob@example.org"))
                 false)
    /\ fetchone (select_user_by_id 3 d')
       = Some (mkUser 3 (lit "robert") (lit "bob@example.org")
                      (lit "hash-of-bob") 0 120)
    /\ (forall id, id <> 3 ->
                   select_user_by_id id d' = select_user_by_id id Sample.db)
    /\ notes d' = notes Sample.db /\ reactions d' = reactions Sample.db.
Proof.
  apply (@profile_updates_own_row Sample.toy_hash Sample.db
           (Sample.session_of Sample.bob) 3 Sample.bob true
           (mkProfileForm (lit " robert ") [] []) (lit "salt")).
  - reflexivity.
  - reflexivity.
  - reflexivity.
  - simpl. intros v [<- | [<- | [<- | [<- | []]]]] Hid; simpl in *;
      try discriminate; lia.
  - left. reflexivity.
Defined.

(** X10. A profile form that validates is still turned down, with
    nothing written and the session as it was, when another row holds the
    new username ('Username is already taken.') and, if the name is free,
    when a new password of fewer than six characters is given ('New
    password must be at least 6 characters.'). *)
Theorem profile_rejections
  (generate_password_hash : str -> str -> str)
  (d : database) (s : session) (uid : Z) (user_row : user)
  (csrf_ok : bool) (form : ProfileForm) (salt : str) :
  sess_user_id s = Some uid ->
  fetchone (select_user_by_id uid d) = Some user_row ->
  ProfileForm_errors csrf_ok form = [] ->
  ((exists v, In v (users d) /\ u_id v <> uid
              /\ username v = strip (prof_username form)) ->
   profile generate_password_hash d s POST csrf_ok form salt
   = (mkResponse (render_profile (username user_row) (email user_row) form)
                 [Flash "Username is already taken."], d, s))
  /\ ((forall v, In v (users d) -> u_id v <> uid ->
                 username v <> strip (prof_username form)) ->
      truthy (prof_new_password form) = true ->
      len (prof_new_password form) < 6 ->
      profile generate_password_hash d s POST csrf_ok form salt
      = (mkResponse (render_profile (username user_row) (email user_row) form)
                    [Flash "New password must be at least 6 characters."],
         d, s)).
Proof.
  intros Hsess Hrow Hvalid. split.
  - intros (v & Hv & Hid & Hname).
    exact (@profile_taken generate_password_hash d s uid user_row csrf_ok
             form salt Hsess Hrow Hvalid v Hv Hid Hname).
  - intros Hfree Hpw Hlen.
    exact (@profile_short generate_password_hash d s uid user_row csrf_ok
             form salt Hsess Hrow Hvalid Hfree Hpw Hlen).
Qed.

Lemma profile_rejections_witness :
  profile Sample.toy_hash Sample.db (Sample.session_of Sample.bob) POST true
    (mkProfileForm (lit "alice") [] []) (lit "salt")
  = (mkResponse
       (render_profile (lit "bob") (lit "bob@example.org")
          (mkProfileForm (lit "alice") [] []))
       [Flash "Username is already taken."],
     Sample.db, Sample.session_of Sample.bob).
Proof.
  apply (@profile_rejections Sample.toy_hash Sample.db
           (Sample.session_of Sample.bob) 3 Sample.bob true
           (mkProfileForm (lit "alice") [] []) (lit "salt")
           eq_refl eq_refl eq_refl).
  exists Sample.alice. simpl. repeat split; [tauto | lia].
Defined.

(** ** The admin routes, further *)

Lemma with_users_same (d : database) : with_users (users d) d = d.
Proof. now destruct d. Qed.

Lemma update_missing (role id : Z) (d : database) :
  select_user_by_id id d = [] -> update_is_admin_by_id role id d = d.
Proof.
  intros Hnone. unfold update_is_admin_by_id.
  assert (Hmap : map (fun u => if u_id u =? id then set_is_admin role u else u)
                     (users d) = users d).
  { rewrite <- (map_id (users d)) at 2. apply map_ext_in. intros u Hu.
    destruct (u_id u =? id) eqn:E; [|reflexivity].
    assert (Hin : In u (select_user_by_id id d))
      by (apply filter_In; auto).
    rewrite Hnone in Hin. contradiction. }
  rewrite Hmap. apply with_users_same.
Qed.

Lemma delete_missing (id : Z) (d : database) :
  select_user_by_id id d = [] -> delete_user_by_id id d = d.
Proof.
  intros Hnone. unfold delete_user_by_id.
  assert (Hfilter : filter (fun u => negb (u_id u =? id)) (users d) = users d).
  { unfold select_user_by_id in Hnone.
    induction (users d) as [|u us IH]; [reflexivity|]. cbn in *.
    destruct (u_id u =? id); [discriminate|]. cbn. now rewrite IH. }
  rewrite Hfilter. apply with_users_same.
Qed.

(** X11. The three admin routes are closed to everyone but admins.  A
    visitor without a session, with a session whose row is gone, or with
    a row of a role other than 1 and 2 is sent away by each of [admin],
    [admin_promote] and [admin_delete] (to the login page or with 'You do
    not have permission to access that page.'), and nothing is written. *)
Theorem admin_routes_need_admin
  {engine : Engine} (cfg : config) (d : database) (s : session)
  (csrf_ok : bool) (user_id : option Z) (action : option str) :
  (forall u, fetch_user (sess_user_id s) d = Some u ->
             is_admin u <> 1 /\ is_admin u <> 2) ->
  let closed (r : result) :=
    r = (Unauthenticated, d, s) \/ r = (NoPermission, d, s) in
  closed (admin cfg d s)
  /\ closed (admin_promote cfg d s csrf_ok user_id action)
  /\ closed (admin_delete cfg d s csrf_ok user_id).
Proof.
  intros Hrole closed.
  assert (Hclosed : forall view, closed (admin_required view d s)).
  { intros view. unfold closed, admin_required, fetch_user in *.
    destruct (sess_user_id s) as [uid|]; [|now left].
    destruct (uid =? 0); [now left|]. open_connection.
    destruct (fetchone (select_user_by_id uid d)) as [u|]; [|now right].
    destruct (Hrole u eq_refl) as [H1 H2].
    apply Z.eqb_neq in H1, H2. rewrite H1, H2. now right. }
  unfold admin, admin_promote, admin_delete. auto.
Qed.

Lemma admin_routes_need_admin_witness :
  (@admin stable Sample.pinned Sample.db (Sample.session_of Sample.bob)
   = (Unauthenticated, Sample.db, Sample.session_of Sample.bob)
   \/ @admin stable Sample.pinned Sample.db (Sample.session_of Sample.bob)
      = (NoPermission, Sample.db, Sample.session_of Sample.bob))
  /\ (admin_promote Sample.pinned Sample.db (Sample.session_of Sample.bob)
        true (Some 3) (Some (lit "promote"))
      = (Unauthenticated, Sample.db, Sample.session_of Sample.bob)
      \/ admin_promote Sample.pinned Sample.db (Sample.session_of Sample.bob)
           true (Some 3) (Some (lit "promote"))
         = (NoPermission, Sample.db, Sample.session_of Sample.bob))
  /\ (admin_delete Sample.pinned Sample.db (Sample.session_of Sample.bob)
        true (Some 3)
      = (Unauthenticated, Sample.db, Sample.session_of Sample.bob)
      \/ admin_delete Sample.pinned Sample.db (Sample.session_of Sample.bob)
           true (Some 3)
         = (NoPermission, Sample.db, Sample.session_of Sample.bob)).
Proof.
  apply (@admin_routes_need_admin stable Sample.pinned Sample.db
           (Sample.session_of Sample.bob) true (Some 3)
           (Some (lit "promote"))).
  simpl. intros u [= <-]. simpl. lia.
Defined.

(** X12. A target id that no row carries is not noticed.  The superadmin
    who promotes, demotes or deletes such an id is told 'User updated.'
    or 'User deleted.', and the database is exactly what it was. *)
Theorem admin_action_on_missing_user
  (cfg : config) (d : database) (s : session) (uid : Z) (actor : user)
  (tid : Z) (action : str) :
  sess_user_id s = Some uid -> uid <> 0 ->
  fetchone (select_user_by_id uid d) = Some actor ->
  is_superadmin (ADMIN_USER cfg) actor = true ->
  (forall u, In u (users d) -> u_id u <> tid) ->
  action = lit "promote" \/ action = lit "demote" ->
  admin_promote cfg d s true (Some tid) (Some action) = (UserUpdated, d, s)
  /\ admin_delete cfg d s true (Some tid) = (UserDeleted, d, s).
Proof.
  intros Hsess Huid Hrow Hin Hmissing Haction.
  assert (Hnone : select_user_by_id tid d = []).
  { apply filter_none. intros u Hu. apply Z.eqb_neq. auto. }
  rewrite (@admin_promote_admitted d s uid actor Hsess Huid Hrow cfg
             (Some tid) (Some action) Hin).
  rewrite (@admin_delete_admitted d s uid actor Hsess Huid Hrow cfg
             (Some tid) Hin).
  rewrite Hnone. cbn [fetchone hd_error].
  rewrite (update_missing _ _ _ Hnone), (delete_missing _ _ Hnone).
  split; [|reflexivity].
  destruct Haction as [-> | ->]; reflexivity.
Qed.

Lemma admin_action_on_missing_user_witness :
  admin_promote Sample.pinned Sample.db (Sample.session_of Sample.root) true
    (Some 9) (Some (lit "promote"))
  = (UserUpdated, Sample.db, Sample.session_of Sample.root)
  /\ admin_delete Sample.pinned Sample.db (Sample.session_of Sample.root) true
       (Some 9)
     = (UserDeleted, Sample.db, Sample.session_of Sample.root).
Proof.
  apply (@admin_action_on_missing_user Sample.pinned Sample.db
           (Sample.session_of Sample.root) 1 Sample.root 9 (lit "promote")).
  - reflexivity.
  - lia.
  - reflexivity.
  - reflexivity.
  - simpl. intros u [<- | [<- | [<- | [<- | []]]]]; simpl; lia.
  - left. reflexivity.
Defined.

Lemma is_superadmin_role (env : option str) (u : user) :
  is_superadmin env u = true -> is_admin u = 2.
Proof.
  unfold is_superadmin. intros H. apply andb_true_iff in H.
  now apply Z.eqb_eq.
Qed.

Lemma select_other_after_update (role tid id : Z) (d : database) :
  id <> tid ->
  select_user_by_id id (update_is_admin_by_id role tid d)
  = select_user_by_id id d.
Proof.
  intros Hid. unfold select_user_by_id, update_is_admin_by_id.
  cbn [users with_users].
  rewrite filter_map_same
    by (intros u; destruct (u_id u =? tid) eqn:Eu; cbn; auto).
  apply map_filter_fixed. intros u Hu. apply Z.eqb_eq in Hu.
  assert (E : (u_id u =? tid) = false) by (apply Z.eqb_neq; lia).
  now rewrite E.
Qed.

Lemma update_twice (role tid : Z) (d : database) :
  update_is_admin_by_id role tid (update_is_admin_by_id role tid d)
  = update_is_admin_by_id role tid d.
Proof.
  unfold update_is_admin_by_id. cbn [users with_users]. unfold with_users.
  cbn. f_equal. rewrite map_map. apply map_ext. intros u.
  destruct (u_id u =? tid) eqn:E; cbn; rewrite E; reflexivity.
Qed.

(** X13. A promote or demote that goes through changes the role of the
    target and nothing else: the rows under every other id, all
    usernames, emails and password hashes, the notes and the reactions
    are as before.  Doing it again changes nothing more. *)
Theorem admin_promote_changes_role_only
  (cfg : config) (d : database) (s : session) (uid : Z) (actor : user)
  (tid : Z) (target : user) (action : str) :
  sess_user_id s = Some uid -> uid <> 0 ->
  fetchone (select_user_by_id uid d) = Some actor ->
  is_superadmin (ADMIN_USER cfg) actor = true ->
  fetchone (select_user_by_id tid d) = Some target ->
  is_admin target <> 2 ->
  action = lit "promote" \/ action = lit "demote" ->
  let d' :=
    database_of (admin_promote cfg d s true (Some tid) (Some action)) in
  (forall id, id <> tid -> select_user_by_id id d' = select_user_by_id id d)
  /\ map (fun u => (u_id u, username u, email u, password u)) (users d')
     = map (fun u => (u_id u, username u, email u, password u)) (users d)
  /\ notes d' = notes d /\ reactions d' = reactions d
  /\ admin_promote cfg d' s true (Some tid) (Some action) = (UserUpdated, d', s).
Proof.
  intros Hsess Huid Hrow Hin Htarget Hrole Haction d'.
  set (role := if str_eqb action (lit "promote") then 1 else 0).
  assert (Hvalid : str_eqb action (lit "promote")
                   || str_eqb action (lit "demote") = true)
    by (destruct Haction as [-> | ->]; reflexivity).
  assert (Hd' : d' = update_is_admin_by_id role tid d).
  { unfold d'.
    rewrite (@admin_promote_admitted d s uid actor Hsess Huid Hrow cfg
               (Some tid) (Some action) Hin).
    rewrite Hvalid, Htarget. apply Z.eqb_neq in Hrole. now rewrite Hrole. }
  assert (Hne : uid <> tid).
  { intros ->. rewrite Hrow in Htarget. injection Htarget as ->.
    apply is_superadmin_role in Hin. contradiction. }
  rewrite Hd'. split; [|split; [|split; [|split]]]; try reflexivity.
  - intros id Hid. now apply select_other_after_update.
  - cbn [users update_is_admin_by_id with_users]. rewrite map_map.
    apply map_ext. intros u. now destruct (u_id u =? tid).
  - assert (Hrow' : fetchone (select_user_by_id uid
                                (update_is_admin_by_id role tid d))
                    = Some actor)
      by (rewrite select_other_after_update; auto).
    rewrite (@admin_promote_admitted _ s uid actor Hsess Huid Hrow' cfg
               (Some tid) (Some action) Hin).
    rewrite Hvalid. unfold fetchone. rewrite select_updated_by_id.
    unfold fetchone in Htarget.
    destruct (select_user_by_id tid d) as [|t ts]; [discriminate|].
    cbn [map hd_error set_is_admin is_admin].
    assert (Hr : (role =? 2) = false)
      by (unfold role; destruct (str_eqb action (lit "promote")); reflexivity).
    rewrite Hr. fold role. now rewrite update_twice.
Qed.

Lemma admin_promote_changes_role_only_witness :
  (forall id, id <> 3 ->
     select_user_by_id id
       (database_of
          (admin_promote Sample.pinned Sample.db
             (Sample.session_of Sample.root) true (Some 3)
             (Some (lit "promote"))))
     = select_user_by_id id Sample.db)
  /\ admin_promote Sample.pinned
       (database_of
          (admin_promote Sample.pinned Sample.db
             (Sample.session_of Sample.root) true (Some 3)
             (Some (lit "promote"))))
       (Sample.session_of Sample.root) true (Some 3) (Some (lit "promote"))
     = (UserUpdated,
        database_of
          (admin_promote Sample.pinned Sample.db
             (Sample.session_of Sample.root) true (Some 3)
             (Some (lit "promote"))),
        Sample.session_of Sample.root).
Proof.
  destruct (@admin_promote_changes_role_only Sample.pinned Sample.db
              (Sample.session_of Sample.root) 1 Sample.root 3 Sample.bob
              (lit "promote") eq_refl ltac:(lia) eq_refl eq_refl eq_refl
              ltac:(simpl; lia) (or_introl eq_refl))
    as (Hothers & _ & _ & _ & Hagain).
  split; [exact Hothers | exact Hagain].
Defined.




(** ** Notes and replies *)

Lemma truthy_strip (s : str) : truthy (strip s) = true -> truthy s = true.
Proof. destruct s; [discriminate | reflexivity]. Qed.

Lemma content_valid (text : str) :
  truthy (strip text) = true -> len text <= 500 ->
  content_errors true text = [].
Proof.
  intros Hblank Hlen. unfold content_errors, required_then, data_required.
  rewrite Hblank, (truthy_strip _ Hblank). cbn [andb].
  unfold length_ok. assert (H1 : 1 <= len text).
  { destruct text; [discriminate|]. unfold len. cbn [List.length]. lia. }
  apply Z.leb_le in H1, Hlen. rewrite H1, Hlen. reflexivity.
Qed.

Lemma content_invalid (csrf_ok : bool) (text : str) :
  csrf_ok = false \/ truthy (strip text) = false \/ 500 < len text ->
  content_errors csrf_ok text <> [].
Proof.
  unfold content_errors, required_then, data_required, length_ok, csrf_field.
  intros [-> | [Hblank | Hlen]].
  - intros H. apply app_eq_nil in H. destruct H as [_ H]. discriminate.
  - rewrite Hblank, andb_false_r. discriminate.
  - destruct (truthy text && truthy (strip text)); [|discriminate].
    assert (E : (len text <=? 500) = false) by (apply Z.leb_gt; lia).
    rewrite E, andb_false_r. discriminate.
Qed.

Lemma in_notes_join_users (d : database) (n : note) (u : user) :
  In (n, u) (notes_join_users d) <->
  In n (notes d) /\ In u (users d) /\ u_id u = n_user_id n.
Proof.
  unfold notes_join_users. rewrite in_flat_map. split.
  - intros (m & Hm & Hin). apply in_map_iff in Hin.
    destruct Hin as (v & [= -> ->] & Hv). apply filter_In in Hv.
    rewrite Z.eqb_eq in Hv. tauto.
  - intros (Hn & Hu & E). exists n. split; [exact Hn|].
    apply in_map, filter_In. rewrite Z.eqb_eq. auto.
Qed.

(** X15. A logged-in user's note is stored when the form validates: the
    token is good, the content is not blank and has at most 500
    characters.  It is appended as a top-level note of that user, with
    the content as submitted and an id above every note id; users and
    reactions are untouched.  Otherwise nothing is written. *)
Theorem create_note_effect
  (d : database) (s : session) (uid : Z) (csrf_ok : bool) (text : str)
  (now : Z) :
  sess_user_id s = Some uid ->
  (csrf_ok = true -> truthy (strip text) = true -> len text <= 500 ->
   exists (id : Z) (d' : database),
     create_note d s csrf_ok text now
     = (mkResponse (redirect ep_notes_list) [Flash "Note posted!"], d', s)
     /\ notes d' = notes d ++ [mkNote id uid None text now]
     /\ (forall n, In n (notes d) -> n_id n < id)
     /\ users d' = users d /\ reactions d' = reactions d)
  /\ (csrf_ok = false \/ truthy (strip text) = false \/ 500 < len text ->
      database_of (create_note d s csrf_ok text now) = d
      /\ ~ In (Flash "Note posted!")
             (flashes (response_of (create_note d s csrf_ok text now)))).
Proof.
  intros Hsess. unfold create_note, PostNoteForm_errors. rewrite Hsess. split.
  - intros -> Hblank Hlen. rewrite (@content_valid text Hblank Hlen).
    cbn [validate_on_submit]. open_connection.
    eexists. eexists. split; [reflexivity|]. cbn [notes users reactions].
    repeat split. intros n Hn.
    apply (next_rowid_above (seq_notes d) (map n_id (notes d))).
    now apply in_map.
  - intros Hbad. pose proof (@content_invalid csrf_ok text Hbad) as Herr.
    destruct (content_errors csrf_ok text) as [|e es]; [contradiction|].
    cbn [validate_on_submit]. unfold database_of, response_of.
    cbn [fst snd flashes]. split; [reflexivity|].
    apply flash_errors_fields.
Qed.

Lemma create_note_effect_witness :
  exists (id : Z) (d' : database),
    create_note Sample.db (Sample.session_of Sample.alice) true (lit " hi ")
      600
    = (mkResponse (redirect ep_notes_list) [Flash "Note posted!"], d',
       Sample.session_of Sample.alice)
    /\ notes d' = notes Sample.db ++ [mkNote id 2 None (lit " hi ") 600]
    /\ (forall n, In n (notes Sample.db) -> n_id n < id)
    /\ users d' = users Sample.db /\ reactions d' = reactions Sample.db.
Proof.
  destruct (@create_note_effect Sample.db (Sample.session_of Sample.alice) 2
              true (lit " hi ") 600 eq_refl) as [Hposted _].
  apply Hposted; [reflexivity | reflexivity | vm_compute; discriminate].
Defined.




Section Listings.

Context {engine : Engine}.

Lemma in_select_top_level (d : database) (n : note) (u : user) :
  In (n, u) (select_top_level d) <->
  In n (notes d) /\ parent_note_id n = None
  /\ In u (users d) /\ u_id u = n_user_id n.
Proof.
  unfold select_top_level. split.
  - intros Hin. apply (Permutation_in _ (order_by_perm _ _ _)) in Hin.
    apply filter_In in Hin. rewrite in_notes_join_users in Hin. cbn in Hin.
    destruct (parent_note_id n); [destruct Hin; discriminate | tauto].
  - intros (Hn & Hp & Hu & E).
    apply (Permutation_in _ (Permutation_sym (order_by_perm _ _ _))).
    apply filter_In. rewrite in_notes_join_users. cbn. rewrite Hp. tauto.
Qed.

Lemma in_select_replies (d : database) (nid : Z) (n : note) (u : user) :
  In (n, u) (select_replies nid d) <->
  In n (notes d) /\ parent_note_id n = Some nid
  /\ In u (users d) /\ u_id u = n_user_id n.
Proof.
  unfold select_replies. split.
  - intros Hin. apply (Permutation_in _ (order_by_perm _ _ _)) in Hin.
    apply filter_In in Hin. rewrite in_notes_join_users in Hin. cbn in Hin.
    destruct (parent_note_id n) as [p|]; [|destruct Hin; discriminate].
    destruct Hin as [Hin Hp]. apply Z.eqb_eq in Hp. subst p. tauto.
  - intros (Hn & Hp & Hu & E).
    apply (Permutation_in _ (Permutation_sym (order_by_perm _ _ _))).
    apply filter_In. rewrite in_notes_join_users. cbn. rewrite Hp.
    rewrite Z.eqb_refl. tauto.
Qed.

End Listings.

(** With ids that are a key, the JOIN has every note whose author has a
    row once, and no other. *)
Lemma filter_by_key_once (us : list user) (k : Z) :
  NoDup (map u_id us) ->
  List.length (filter (fun u => u_id u =? k) us)
  = if existsb (fun u => u_id u =? k) us then 1%nat else 0%nat.
Proof.
  induction us as [|u us IH]; cbn [map filter existsb]; [reflexivity|].
  intros Hnd. inversion Hnd as [|? ? Hnotin Hnd']; subst.
  destruct (u_id u =? k) eqn:E; cbn [orb]; [|now apply IH].
  apply Z.eqb_eq in E. subst k. cbn [List.length]. f_equal.
  rewrite filter_none; [reflexivity|].
  intros v Hv. apply Z.eqb_neq. intros Heq. apply Hnotin.
  rewrite <- Heq. now apply in_map.
Qed.

Lemma notes_join_users_once (d : database) :
  NoDup (map u_id (users d)) ->
  map fst (notes_join_users d) = filter (author_exists d) (notes d).
Proof.
  intros Hnd. unfold notes_join_users, author_exists.
  induction (notes d) as [|n ns IH]; [reflexivity|].
  cbn [flat_map filter]. rewrite map_app, IH, map_map. cbn [fst].
  pose proof (@filter_by_key_once (users d) (n_user_id n) Hnd) as Hlen.
  destruct (existsb (fun u => u_id u =? n_user_id n) (users d));
    destruct (filter (fun u => u_id u =? n_user_id n) (users d))
      as [|u [|v us]]; cbn in Hlen; try discriminate; reflexivity.
Qed.

Lemma map_fst_filter {A B : Type} (p : A -> bool) (l : list (A * B)) :
  map fst (filter (fun r => p (fst r)) l) = filter p (map fst l).
Proof.
  induction l as [|r l IH]; [reflexivity|]. cbn [filter map].
  destruct (p (fst r)); cbn [map]; now rewrite IH.
Qed.

(** The notes that a query over the JOIN returns, once each. *)
Lemma joined_notes {engine : Engine} (d : database) (p : note -> bool)
  (key : note * user -> Z) (desc : bool) :
  users_unique d = true ->
  Permutation
    (map fst (order_by key desc
                (filter (fun r => p (fst r)) (notes_join_users d))))
    (filter (fun n => p n && author_exists d n) (notes d)).
Proof.
  intros Hkey. apply users_unique_nodup in Hkey. destruct Hkey as [Hid _].
  rewrite (filter_ext _ (fun n => author_exists d n && p n))
    by (intros n; apply andb_comm).
  rewrite <- filter_filter_and, <- (@notes_join_users_once d Hid).
  rewrite <- map_fst_filter. apply Permutation_map, order_by_perm.
Qed.

(** X17. What the notes page lists, for a logged-in user.  One entry per
    top-level note whose author has a row (a note whose author is gone is
    not shown), newest first.  Under each, the notes whose parent it is
    and whose author has a row, oldest first, with the reaction counts of
    the note and the emoji the viewer has put on it.  In a user table
    whose ids are a key, each such note is listed once: the notes of the
    entries are a rearrangement of the top-level rows of the notes table
    that have an author, and the replies of an entry a rearrangement of
    the rows with that parent.  Nothing is written. *)
Theorem notes_list_shows
  {engine : Engine} (d : database) (s : session) (uid : Z) :
  sess_user_id s = Some uid ->
  exists entries : list notes_entry,
    notes_list d s = (mkResponse (render_notes entries) [], d, s)
    /\ (forall n u,
           In (n, u) (map ne_note entries) <->
           In n (notes d) /\ parent_note_id n = None
           /\ In u (users d) /\ u_id u = n_user_id n)
    /\ StronglySorted
         (fun x y => n_created_at (fst y) <= n_created_at (fst x))
         (map ne_note entries)
    /\ (users_unique d = true ->
        Permutation
          (map (fun entry => fst (ne_note entry)) entries)
          (filter (fun n => match parent_note_id n with
                            | None => true
                            | Some _ => false
                            end && author_exists d n) (notes d)))
    /\ Forall
         (fun entry =>
            let nid := n_id (fst (ne_note entry)) in
            (forall r a,
                In (r, a) (ne_replies entry) <->
                In r (notes d) /\ parent_note_id r = Some nid
                /\ In a (users d) /\ u_id a = n_user_id r)
            /\ StronglySorted
                 (fun x y => n_created_at (fst x) <= n_created_at (fst y))
                 (ne_replies entry)
            /\ (users_unique d = true ->
                Permutation
                  (map fst (ne_replies entry))
                  (filter (fun r => match parent_note_id r with
                                    | None => false
                                    | Some p => p =? nid
                                    end && author_exists d r) (notes d)))
            /\ ne_reactions entry = aggregate nid d
            /\ ne_user_reactions entry = reacted_by nid uid d)
         entries.
Proof.
  intros Hsess. unfold notes_list. rewrite Hsess. open_connection.
  eexists. split; [reflexivity|].
  rewrite !map_map. cbn [ne_note]. rewrite map_id.
  split; [intros n u; apply in_select_top_level|].
  split; [apply (order_by_sorted (fun r => n_created_at (fst r)) true)|].
  split.
  { intros Hkey.
    exact (@joined_notes engine d
             (fun n => match parent_note_id n with
                       | None => true
                       | Some _ => false
                       end)
             (fun r => n_created_at (fst r)) true Hkey). }
  apply Forall_forall. intros entry Hentry. apply in_map_iff in Hentry.
  destruct Hentry as (note & <- & _). cbn.
  split; [intros r a; apply in_select_replies|].
  split; [apply (order_by_sorted (fun r => n_created_at (fst r)) false)|].
  split; [|split; reflexivity].
  intros Hkey.
  exact (@joined_notes engine d
           (fun r => match parent_note_id r with
                     | None => false
                     | Some p => p =? n_id (fst note)
                     end)
           (fun r => n_created_at (fst r)) false Hkey).
Qed.

Lemma notes_list_shows_witness :
  exists entries : list notes_entry,
    @notes_list stable Sample.db_abc (Sample.session_of Sample.alice)
    = (mkResponse (render_notes entries) [], Sample.db_abc,
       Sample.session_of Sample.alice)
    /\ (forall n u,
           In (n, u) (map ne_note entries) <->
           In n (notes Sample.db_abc) /\ parent_note_id n = None
           /\ In u (users Sample.db_abc) /\ u_id u = n_user_id n)
    /\ Permutation (map (fun entry => fst (ne_note entry)) entries)
         [Sample.note1].
Proof.
  destruct (@notes_list_shows stable Sample.db_abc
              (Sample.session_of Sample.alice) 2 eq_refl)
    as (entries & Hpage & Hin & _ & Honce & _).
  exists entries. split; [exact Hpage|]. split; [exact Hin|].
  exact (Honce eq_refl).
Defined.

Lemma sorted_app_order {A : Type} (R : A -> A -> Prop) (l1 l2 : list A) :
  StronglySorted R (l1 ++ l2) ->
  forall x y, In x l1 -> In y l2 -> R x y.
Proof.
  induction l1 as [|z l1 IH]; cbn; [contradiction|].
  intros Hs x y Hx Hy. inversion Hs as [|? ? Hs' Hz]; subst.
  destruct Hx as [-> | Hx]; [|now apply IH].
  rewrite Forall_forall in Hz. apply Hz, in_or_app. now right.
Qed.

(** X18. The home page shows at most five notes: top-level notes whose
    author has a row, and the newest of them, in that no such note left
    out is newer than one that is shown.  When there are five or fewer,
    all are shown.  Nothing is written. *)
Theorem home_shows_latest_five {engine : Engine} (d : database) :
  let shown := fst (home d) in
  snd (home d) = d
  /\ (List.length shown <= 5)%nat
  /\ (forall n u,
         In (n, u) shown ->
         In n (notes d) /\ parent_note_id n = None
         /\ In u (users d) /\ u_id u = n_user_id n)
  /\ exists rest,
       select_top_level d = shown ++ rest
       /\ (forall x y, In x shown -> In y rest ->
                       n_created_at (fst y) <= n_created_at (fst x))
       /\ ((List.length (select_top_level d) <= 5)%nat -> rest = []).
Proof.
  cbn zeta. unfold home, select_latest_top_level. open_connection.
  cbn [fst snd]. split; [reflexivity|].
  split; [apply firstn_le_length|]. split.
  - intros n u Hin. apply in_select_top_level.
    rewrite <- (firstn_skipn 5 (select_top_level d)).
    apply in_or_app. now left.
  - exists (skipn 5 (select_top_level d)).
    split; [symmetry; apply firstn_skipn|]. split.
    + intros x y Hx Hy.
      apply (@sorted_app_order _
               (fun x y : note * user =>
                  n_created_at (fst y) <= n_created_at (fst x))
               (firstn 5 (select_top_level d))
               (skipn 5 (select_top_level d))); auto.
      rewrite firstn_skipn.
      apply (order_by_sorted (fun r => n_created_at (fst r)) true).
    + intros Hlen. now apply skipn_all2.
Qed.

(** ** More on reactions *)

Lemma fold_bump_keys (rows : list reaction) : forall (g : list (str * Z)) e,
  In e (map fst (fold_left (fun g r => bump (emoji r) g) rows g)) <->
  In e (map fst g) \/ In e (map emoji rows).
Proof.
  induction rows as [|r rows IH]; intros g e; cbn [fold_left map].
  - cbn. tauto.
  - rewrite IH, bump_keys. cbn. intuition.
Qed.

(** X19. The emoji that the notes page marks as the viewer's own are
    exactly those the viewer has a reaction with on that note, each
    listed once. *)
Theorem reacted_by_iff_has_reaction
  (d : database) (note_id user_id : Z) (e : str) :
  (In e (reacted_by note_id user_id d) <->
   has_reaction d note_id user_id e = true)
  /\ NoDup (reacted_by note_id user_id d).
Proof.
  unfold reacted_by, select_user_emoji, group_by_emoji. split.
  - rewrite fold_bump_keys. cbn [map In]. unfold has_reaction.
    rewrite existsb_exists, in_map_iff. split.
    + intros [[] | (r & <- & Hr)]. apply filter_In in Hr.
      destruct Hr as [Hr Hp]. exists r. split; [exact Hr|].
      unfold same_reaction. now rewrite Hp, str_eqb_refl.
    + intros (r & Hr & Hsame). right. unfold same_reaction in Hsame.
      apply andb_true_iff in Hsame. destruct Hsame as [Hp He].
      apply str_eqb_eq in He. exists r. split; [exact He|].
      apply filter_In. auto.
  - apply (@fold_bump
             (filter (fun r => (r_note_id r =? note_id)
                               && (r_user_id r =? user_id)) (reactions d))
             [] (NoDup_nil _) (Forall_nil _)).
Qed.

(** X20. The three ways in which [react_to_note] turns a logged-in
    user away, each with nothing written.  A blank emoji is answered
    'Invalid emoji.', before the note id is put to any use.  With an emoji
    that is not blank, a note id that SQLite can bind and that no note
    carries is answered 'Note not found.'; a note id beyond 64 bits
    cannot be bound, the [OverflowError] is caught nowhere, and the
    request ends in an internal server error. *)
Theorem react_rejections
  (d : database) (s : session) (uid note_id : Z) (emoji_field : str)
  (now : Z) :
  sess_user_id s = Some uid ->
  (truthy (strip emoji_field) = false ->
   react_to_note d s note_id emoji_field now = (InvalidEmoji, d, s))
  /\ (truthy (strip emoji_field) = true ->
      fits_sqlite_integer note_id = true ->
      (forall n, In n (notes d) -> n_id n <> note_id) ->
      react_to_note d s note_id emoji_field now
      = (mkResponse (redirect ep_notes_list) [Flash "Note not found."], d, s))
  /\ (truthy (strip emoji_field) = true ->
      fits_sqlite_integer note_id = false ->
      react_to_note d s note_id emoji_field now = (ServerError, d, s)).
Proof.
  intros Hsess. unfold react_to_note. rewrite Hsess. split; [|split].
  - intros ->. reflexivity.
  - intros -> -> Hmissing. cbn [negb]. open_connection.
    assert (Hnone : select_note_by_id note_id d = []).
    { apply filter_none. intros n Hn. apply Z.eqb_neq. auto. }
    now rewrite Hnone.
  - intros -> ->. reflexivity.
Qed.

Lemma react_rejections_witness :
  react_to_note Sample.db (Sample.session_of Sample.bob) 1 (lit "   ") 500
  = (InvalidEmoji, Sample.db, Sample.session_of Sample.bob)
  /\ react_to_note Sample.db (Sample.session_of Sample.bob) 7 (lit "x") 500
     = (mkResponse (redirect ep_notes_list) [Flash "Note not found."],
        Sample.db, Sample.session_of Sample.bob)
  /\ react_to_note Sample.db (Sample.session_of Sample.bob) (2 ^ 63) (lit "x")
       500
     = (ServerError, Sample.db, Sample.session_of Sample.bob).
Proof.
  split; [|split].
  - destruct (@react_rejections Sample.db (Sample.session_of Sample.bob) 3 1
                (lit "   ") 500 eq_refl) as (Hblank & _).
    apply Hblank. reflexivity.
  - destruct (@react_rejections Sample.db (Sample.session_of Sample.bob) 3 7
                (lit "x") 500 eq_refl) as (_ & Hmissing & _).
    apply Hmissing; [reflexivity | reflexivity |].
    simpl. intros n [<- | []]. simpl. lia.
  - destruct (@react_rejections Sample.db (Sample.session_of Sample.bob) 3
                (2 ^ 63) (lit "x") 500 eq_refl) as (_ & _ & Hover).
    apply Hover; reflexivity.
Defined.

(** X21. A visitor without a session can change the database in one way
    only, by registering: every other request leaves it as it was. *)
Theorem anonymous_writes_only_by_registering
  {engine : Engine}
  (generate_password_hash : str -> str -> str)
  (check_password_hash : str -> str -> bool)
  (cfg : config) (d : database) (s : session) (r : request) :
  sess_user_id s = None ->
  match r with
  | Register _ _ _ _ _ => True
  | _ =>
      database_of (handle generate_password_hash check_password_hash cfg d s r)
      = d
  end.
Proof.
  intros Hsess. destruct r; [exact I | | | | | | | | | |];
    handlers; rewrite ?Hsess; branches; reflexivity.
Qed.

Lemma anonymous_writes_only_by_registering_witness :
  database_of
    (@handle stable Sample.toy_hash Sample.toy_check Sample.pinned Sample.db
       empty_session (AdminDelete true (Some 3)))
  = Sample.db.
Proof.
  apply (@anonymous_writes_only_by_registering stable Sample.toy_hash
           Sample.toy_check Sample.pinned Sample.db empty_session
           (AdminDelete true (Some 3))).
  reflexivity.
Defined.

(** ** The bootstrap and the CLI *)

Lemma fetchone_none {A : Type} (l : list A) : fetchone l = None -> l = [].
Proof. destruct l; [reflexivity | discriminate]. Qed.

Lemma fetchone_in {A : Type} (l : list A) (x : A) :
  fetchone l = Some x -> In x l.
Proof. destruct l; [discriminate | intros [= ->]; now left]. Qed.

(** X22. The bootstrap of [init_db] is idempotent and adds at most one
    row: run again, whatever the salt and the clock, it leaves the
    database it produced as it is, and every row that was there before
    the first run is still there unchanged (an account that already has
    the ADMIN_USER name is not touched, whatever its role). *)
Theorem init_db_idempotent
  (generate_password_hash : str -> str -> str)
  (cfg : config) (d d1 : database) (salt salt' : str) (now now' : Z) :
  init_db generate_password_hash cfg d salt now = Some d1 ->
  init_db generate_password_hash cfg d1 salt' now' = Some d1
  /\ (users d1 = users d \/ exists u, users d1 = users d ++ [u])
  /\ notes d1 = notes d /\ reactions d1 = reactions d.
Proof.
  unfold init_db.
  destruct (ADMIN_USER cfg) as [admin_user|];
    [|intros [= <-]; auto].
  destruct (ADMIN_PASS cfg) as [admin_pass|];
    [|intros [= <-]; auto].
  destruct (truthy admin_user && truthy admin_pass);
    [|intros [= <-]; auto].
  open_connection.
  destruct (fetchone (select_user_by_username admin_user d)) as [u|] eqn:E.
  - intros [= <-]. rewrite E. auto.
  - unfold insert_user.
    destruct (existsb _ (users d)); [discriminate|].
    intros [= <-]. cbn [users notes reactions].
    split; [|split; [right; eauto | auto]].
    unfold select_user_by_username at 1. cbn [users].
    apply fetchone_none in E. unfold select_user_by_username in E.
    rewrite filter_app, E. cbn [filter username app].
    rewrite str_eqb_refl. reflexivity.
Qed.

Lemma init_db_idempotent_witness :
  exists d1 : database,
    init_db Sample.toy_hash (mkConfig (Some (lit "admin2")) (Some (lit "pw")))
      Sample.db [] 700 = Some d1
    /\ init_db Sample.toy_hash
         (mkConfig (Some (lit "admin2")) (Some (lit "pw"))) d1 (lit "salt") 800
       = Some d1.
Proof.
  eexists. split; [reflexivity|].
  apply (@init_db_idempotent Sample.toy_hash
           (mkConfig (Some (lit "admin2")) (Some (lit "pw"))) Sample.db _
           [] (lit "salt") 700 800).
  reflexivity.
Defined.

Section CreateAdmin.

Variable generate_password_hash : str -> str -> str.
Variables (name pass : str) (mail : option str) (salt : str) (now : Z).
Variables (d d' : database) (out : list str).

Hypothesis created :
  ManageAdmin.create_admin generate_password_hash name pass mail salt now d
  = Some (d', out).

Lemma create_admin_row :
  exists u,
    fetchone (select_user_by_username name d') = Some u
    /\ username u = name /\ is_admin u = 1
    /\ password u = generate_password_hash pass salt.
Proof.
  revert created. unfold ManageAdmin.create_admin. open_connection.
  destruct (fetchone (select_user_by_username name d)) as [row|] eqn:E.
  - intros [= <- _].
    unfold select_user_by_username, update_password_and_admin_by_id in *.
    cbn [users with_users].
    rewrite filter_map_same
      by (intros u; destruct (u_id u =? u_id row); reflexivity).
    unfold fetchone in *.
    destruct (filter _ (users d)) as [|r rs] eqn:F; [discriminate|].
    injection E as ->. cbn [map hd_error]. rewrite Z.eqb_refl.
    eexists. split; [reflexivity|]. cbn.
    assert (Hin : In row (filter (fun u => str_eqb (username u) name)
                                 (users d)))
      by (rewrite F; now left).
    apply filter_In in Hin. destruct Hin as [_ Hn].
    apply str_eqb_eq in Hn. auto.
  - unfold insert_user. destruct (existsb _ (users d)); [discriminate|].
    intros [= <- _]. unfold select_user_by_username in *. cbn [users].
    apply fetchone_none in E. rewrite filter_app, E.
    cbn [filter username app]. rewrite str_eqb_refl.
    eexists. split; [reflexivity|]. cbn. auto.
Qed.

End CreateAdmin.

(** X23. Create an admin on the command line, then log in.  After
    [create_admin] has gone through, the account of that name has role 1
    (also when it was a superadmin before) and the hash of the given
    password.  A login with that name and password succeeds when the
    form accepts them as they are (the name is not empty and has no white
    space around it, which [login] would strip; the password is not
    blank) and the hashing collaborator verifies the hash it made.  A
    name that [login] strips to one that no row carries, as the command
    line lets through, cannot log in. *)
Theorem create_admin_then_login
  (generate_password_hash : str -> str -> str)
  (check_password_hash : str -> str -> bool)
  (name pass : str) (mail : option str) (salt : str) (now : Z)
  (d d' : database) (out : list str) (s : session) :
  ManageAdmin.create_admin generate_password_hash name pass mail salt now d
  = Some (d', out) ->
  exists u,
    fetchone (select_user_by_username name d') = Some u
    /\ is_admin u = 1
    /\ password u = generate_password_hash pass salt
    /\ (strip name = name -> truthy name = true ->
        data_required pass = true ->
        check_password_hash (generate_password_hash pass salt) pass = true ->
        login check_password_hash d' s POST true (mkLoginForm name pass false)
        = (mkResponse (redirect ep_profile) [FlashWelcome name], d',
           mkSession (Some (u_id u)) (Some name) (Some (email u))
                     (sess_permanent s)))
    /\ ((forall v, In v (users d') -> username v <> strip name) ->
        login check_password_hash d' s POST true (mkLoginForm name pass false)
        = (response_of
             (login check_password_hash d' s POST true
                (mkLoginForm name pass false)), d', s)
        /\ resp_body
             (response_of
                (login check_password_hash d' s POST true
                   (mkLoginForm name pass false)))
           <> redirect ep_profile).
Proof.
  intros Hcreated.
  destruct (@create_admin_row generate_password_hash name pass mail salt now
              d d' out Hcreated) as (u & Hu & Hn & Hrole & Hpw).
  exists u. split; [exact Hu|]. split; [exact Hrole|]. split; [exact Hpw|].
  split.
  - intros Hstrip Hname Hpass Hhash.
    unfold login, LoginForm_errors, required_then, data_required.
    cbn [login_username login_password remember_me].
    rewrite Hstrip, Hname. cbn [andb]. unfold data_required in Hpass.
    rewrite Hpass. cbn [field map app csrf_field check validate_on_submit].
    open_connection. rewrite Hu, Hpw, Hhash, Hn. reflexivity.
  - intros Hmissing.
    assert (Hnone : select_user_by_username (strip name) d' = []).
    { apply filter_none. intros v Hv. apply str_eqb_neq. now apply Hmissing. }
    unfold login, response_of. cbn [login_username login_password].
    open_connection. rewrite Hnone. cbn [fetchone hd_error].
    destruct (validate_on_submit POST _); cbn [fst resp_body];
      split; solve [reflexivity | discriminate].
Qed.

Lemma create_admin_then_login_witness :
  exists u,
    fetchone
      (select_user_by_username (lit "root")
         (update_password_and_admin_by_id
            (Sample.toy_hash (lit "newpass") []) 1 Sample.db))
    = Some u
    /\ is_admin u = 1
    /\ password u = Sample.toy_hash (lit "newpass") []
    /\ login Sample.toy_check
         (update_password_and_admin_by_id
            (Sample.toy_hash (lit "newpass") []) 1 Sample.db)
         empty_session POST true (mkLoginForm (lit "root") (lit "newpass") false)
       = (mkResponse (redirect ep_profile) [FlashWelcome (lit "root")],
          update_password_and_admin_by_id
            (Sample.toy_hash (lit "newpass") []) 1 Sample.db,
          mkSession (Some (u_id u)) (Some (lit "root")) (Some (email u)) false).
Proof.
  destruct (@create_admin_then_login Sample.toy_hash Sample.toy_check
              (lit "root") (lit "newpass") None [] 900 Sample.db
              (update_password_and_admin_by_id
                 (Sample.toy_hash (lit "newpass") []) 1 Sample.db)
              [lit "Updated existing user '" ++ lit "root"
               ++ lit "' and gave admin rights."] empty_session eq_refl)
    as (u & Hu & Hrole & Hpw & Hlogin & _).
  exists u. split; [exact Hu|]. split; [exact Hrole|]. split; [exact Hpw|].
  apply Hlogin; reflexivity.
Defined.

(** The command line takes a name with white space around it; the login
    form does not find it. *)
Lemma padded_admin_cannot_log_in :
  exists d' out,
    ManageAdmin.create_admin Sample.toy_hash (lit " eve ") (lit "pw") None []
      900 Sample.db
    = Some (d', out)
    /\ login Sample.toy_check d' empty_session POST true
         (mkLoginForm (lit " eve ") (lit "pw") false)
       = (InvalidCredentials (mkLoginForm (lit " eve ") (lit "pw") false), d',
          empty_session).
Proof. eexists. eexists. split; vm_compute; reflexivity. Qed.

Lemma filter_all {A : Type} (p : A -> bool) (l : list A) :
  (forall x, In x l -> p x = true) -> filter p l = l.
Proof.
  induction l as [|x l IH]; intros Hp; [reflexivity|]. cbn.
  rewrite (Hp x) by now left. rewrite IH; [reflexivity|].
  intros y Hy. apply Hp. now right.
Qed.

(** X24. With a username that no row carries, [promote], [demote] and
    [delete] of the CLI leave the database exactly as it is and print
    that the user was not found. *)
Theorem cli_unknown_user
  (name : str) (d : database) :
  (forall u, In u (users d) -> username u <> name) ->
  let not_found := [lit "User '" ++ name ++ lit "' not found."] in
  ManageAdmin.promote name d = (d, not_found)
  /\ ManageAdmin.demote name d = (d, not_found)
  /\ ManageAdmin.delete name d = (d, not_found).
Proof.
  intros Hmissing not_found.
  assert (Hp : forall u, In u (users d) -> str_eqb (username u) name = false)
    by (intros u Hu; apply str_eqb_neq; auto).
  assert (Hnone : select_user_by_username name d = [])
    by now apply filter_none.
  assert (Hmap : forall role,
             map (fun u => if str_eqb (username u) name
                           then set_is_admin role u else u) (users d)
             = users d).
  { intros role. rewrite <- (map_id (users d)) at 2. apply map_ext_in.
    intros u Hu. now rewrite (Hp u Hu). }
  assert (Hfilter : filter (fun u => negb (str_eqb (username u) name)) (users d)
                    = users d).
  { apply filter_all. intros u Hu. now rewrite (Hp u Hu). }
  unfold ManageAdmin.promote, ManageAdmin.demote, ManageAdmin.delete.
  unfold update_is_admin_by_username, delete_user_by_username.
  open_connection. rewrite Hnone, !Hmap, Hfilter, with_users_same.
  repeat split.
Qed.

Lemma cli_unknown_user_witness :
  ManageAdmin.promote (lit "nobody") Sample.db
  = (Sample.db, [lit "User '" ++ lit "nobody" ++ lit "' not found."])
  /\ ManageAdmin.demote (lit "nobody") Sample.db
     = (Sample.db, [lit "User '" ++ lit "nobody" ++ lit "' not found."])
  /\ ManageAdmin.delete (lit "nobody") Sample.db
     = (Sample.db, [lit "User '" ++ lit "nobody" ++ lit "' not found."]).
Proof.
  apply (@cli_unknown_user (lit "nobody") Sample.db).
  simpl. intros u [<- | [<- | [<- | [<- | []]]]]; discriminate.
Defined.

(** X25. The CLI is not bound by the protection of the web routes.  For
    a username that a row carries, [promote] leaves every row of that
    name with role 1 and [demote] with role 0, a superadmin included, and
    [delete] leaves no row of that name; rows under other names are as
    they were, and the command reports the change. *)
Theorem cli_changes_any_role
  (name : str) (d : database) (u : user) :
  In u (users d) -> username u = name ->
  (forall v, In v (users (fst (ManageAdmin.promote name d))) ->
             username v = name -> is_admin v = 1)
  /\ (forall v, In v (users (fst (ManageAdmin.demote name d))) ->
                username v = name -> is_admin v = 0)
  /\ (forall v, In v (users (fst (ManageAdmin.delete name d))) ->
                username v <> name)
  /\ (forall v, username v <> name ->
                (In v (users (fst (ManageAdmin.promote name d)))
                 <-> In v (users d))
                /\ (In v (users (fst (ManageAdmin.demote name d)))
                    <-> In v (users d))
                /\ (In v (users (fst (ManageAdmin.delete name d)))
                    <-> In v (users d)))
  /\ snd (ManageAdmin.promote name d)
     = [lit "Promoted '" ++ name ++ lit "' to admin."]
  /\ snd (ManageAdmin.demote name d) = [lit "Demoted '" ++ name ++ lit "'."]
  /\ snd (ManageAdmin.delete name d)
     = [lit "Deleted user '" ++ name ++ lit "'."].
Proof.
  intros Hu Hname.
  assert (Hcount : (Z.of_nat (List.length (select_user_by_username name d))
                    =? 0) = false).
  { apply Z.eqb_neq.
    assert (Hin : In u (select_user_by_username name d))
      by (apply filter_In; split; [exact Hu | now apply str_eqb_eq]).
    destruct (select_user_by_username name d); [contradiction|].
    cbn [List.length]. lia. }
  assert (Hset : forall role v,
             In v (map (fun u => if str_eqb (username u) name
                                 then set_is_admin role u else u) (users d)) ->
             (username v = name -> is_admin v = role)
             /\ (username v <> name -> In v (users d))).
  { intros role v Hv. apply in_map_iff in Hv. destruct Hv as (w & <- & Hw).
    destruct (str_eqb (username w) name) eqn:E; cbn.
    - apply str_eqb_eq in E. split; [reflexivity | congruence].
    - apply str_eqb_neq in E. split; [congruence | auto]. }
  assert (Hkeep : forall role v,
             username v <> name -> In v (users d) ->
             In v (map (fun u => if str_eqb (username u) name
                                 then set_is_admin role u else u) (users d))).
  { intros role v Hne Hv. apply in_map_iff. exists v.
    apply str_eqb_neq in Hne. now rewrite Hne. }
  unfold ManageAdmin.promote, ManageAdmin.demote, ManageAdmin.delete.
  unfold update_is_admin_by_username, delete_user_by_username.
  open_connection. cbn [fst snd users with_users]. rewrite Hcount.
  split; [intros v Hv; now apply (Hset 1 v Hv)|].
  split; [intros v Hv; now apply (Hset 0 v Hv)|].
  split.
  { intros v Hv. apply filter_In in Hv. destruct Hv as [_ Hv].
    apply negb_true_iff in Hv. now apply str_eqb_neq. }
  split; [|repeat split].
  intros v Hne. repeat split; intros Hv;
    try (now apply (Hset _ v Hv)); try (now apply Hkeep).
  - apply filter_In in Hv. tauto.
  - apply filter_In. split; [exact Hv|].
    apply negb_true_iff. now apply str_eqb_neq.
Qed.

Lemma cli_changes_any_role_witness :
  (forall v, In v (users (fst (ManageAdmin.demote (lit "root") Sample.db))) ->
             username v = lit "root" -> is_admin v = 0)
  /\ snd (ManageAdmin.demote (lit "root") Sample.db)
     = [lit "Demoted '" ++ lit "root" ++ lit "'."].
Proof.
  destruct (@cli_changes_any_role (lit "root") Sample.db Sample.root)
    as (_ & Hdemote & _ & _ & _ & Hout & _).
  - simpl. tauto.
  - reflexivity.
  - split; [exact Hdemote | exact Hout].
Defined.

Lemma users_nodup_map (f : user -> user) (d : database) :
  (forall u, u_id (f u) = u_id u /\ username (f u) = username u
             /\ email (f u) = email u) ->
  users_nodup d -> users_nodup (with_users (map f (users d)) d).
Proof.
  unfold users_nodup. cbn [users with_users]. intros Hf.
  rewrite !map_map_same; [auto | | |]; intros u; apply Hf.
Qed.

Lemma users_nodup_filter (p : user -> bool) (d : database) :
  users_nodup d -> users_nodup (with_users (filter p (users d)) d).
Proof.
  unfold users_nodup. cbn [users with_users].
  intros (H1 & H2 & H3). repeat split; now apply NoDup_map_filter.
Qed.

(** X26. The CLI and the bootstrap keep the keys of the user table too:
    after any command of [manage_admin.py] that goes through, and after
    [init_db], no two rows share an id, a username or an email. *)
Theorem cli_and_bootstrap_keep_users_unique
  (generate_password_hash : str -> str -> str) (d : database) :
  users_unique d = true ->
  (forall (c : ManageAdmin.command) (d' : database),
      ManageAdmin.main generate_password_hash c d = Some d' ->
      users_unique d' = true)
  /\ (forall (cfg : config) (salt : str) (now : Z) (d' : database),
         init_db generate_password_hash cfg d salt now = Some d' ->
         users_unique d' = true).
Proof.
  intros Hd. apply users_unique_nodup in Hd. split.
  - intros c d' Hmain. apply users_unique_nodup. revert Hmain.
    destruct c; cbn [ManageAdmin.main].
    + unfold ManageAdmin.create_admin. open_connection.
      destruct (fetchone _) as [row|].
      * intros [= <-]. apply users_nodup_map; [|exact Hd].
        intros u. now destruct (u_id u =? u_id row).
      * destruct (insert_user _ _ _ _ _ _) eqn:Hins; [|discriminate].
        intros [= <-]. eapply users_nodup_insert; eassumption.
    + intros [= <-]. apply users_nodup_map; [|exact Hd].
      intros u. now destruct (str_eqb (username u) name).
    + intros [= <-]. apply users_nodup_map; [|exact Hd].
      intros u. now destruct (str_eqb (username u) name).
    + now intros [= <-].
    + intros [= <-]. now apply users_nodup_filter.
  - intros cfg salt now d'. apply users_unique_nodup in Hd as Hu.
    unfold init_db.
    destruct (ADMIN_USER cfg) as [admin_user|]; [|now intros [= <-]].
    destruct (ADMIN_PASS cfg) as [admin_pass|]; [|now intros [= <-]].
    destruct (truthy admin_user && truthy admin_pass); [|now intros [= <-]].
    open_connection. destruct (fetchone _); [now intros [= <-]|].
    destruct (insert_user _ _ _ _ _ _) eqn:Hins; [|discriminate].
    intros [= <-]. apply users_unique_nodup.
    eapply users_nodup_insert; eassumption.
Qed.

Lemma cli_and_bootstrap_keep_users_unique_witness :
  users_unique
    (fst (ManageAdmin.promote (lit "bob") Sample.db)) = true.
Proof.
  destruct (@cli_and_bootstrap_keep_users_unique Sample.toy_hash Sample.db
              eq_refl) as [Hcli _].
  apply (Hcli (ManageAdmin.promote_cmd (lit "bob"))). reflexivity.
Defined.

(** X27. A new username whose email clashes is more than the CLI and
    the bootstrap can take: both look for the username only, so when the
    name is free but a row already holds the email ([name@local] by
    default), the INSERT violates the UNIQUE constraint and the command
    ends in the uncaught error, with nothing written. *)
Theorem create_admin_email_clash
  (generate_password_hash : str -> str -> str)
  (name pass : str) (mail : option str) (salt : str) (now : Z)
  (d : database) (u : user) :
  (forall v, In v (users d) -> username v <> name) ->
  In u (users d) ->
  email u = match mail with Some m => m | None => name ++ lit "@local" end ->
  ManageAdmin.create_admin generate_password_hash name pass mail salt now d
  = None
  /\ (mail = None -> truthy name = true -> truthy pass = true ->
      init_db generate_password_hash (mkConfig (Some name) (Some pass)) d
              salt now = None).
Proof.
  intros Hfree Hu Hmail.
  assert (Hnone : select_user_by_username name d = [])
    by now apply select_username_none.
  assert (Hclash : forall m, email u = m ->
             existsb (fun v => str_eqb (username v) name
                               || str_eqb (email v) m) (users d) = true).
  { intros m Hm. apply existsb_exists. exists u. split; [exact Hu|].
    rewrite Hm, str_eqb_refl. apply orb_true_r. }
  split.
  - unfold ManageAdmin.create_admin. open_connection. rewrite Hnone.
    cbn [fetchone hd_error]. unfold insert_user.
    now rewrite (Hclash _ Hmail).
  - intros -> Hn Hp. unfold init_db. cbn [ADMIN_USER ADMIN_PASS].
    rewrite Hn, Hp. cbn [andb]. open_connection. rewrite Hnone.
    cbn [fetchone hd_error]. unfold insert_user.
    now rewrite (Hclash _ Hmail).
Qed.

Lemma create_admin_email_clash_witness :
  ManageAdmin.create_admin Sample.toy_hash (lit "robert") (lit "pw")
    (Some (lit "bob@example.org")) [] 900 Sample.db
  = None.
Proof.
  apply (@create_admin_email_clash Sample.toy_hash (lit "robert") (lit "pw")
           (Some (lit "bob@example.org")) [] 900 Sample.db Sample.bob).
  - simpl. intros v [<- | [<- | [<- | [<- | []]]]]; discriminate.
  - simpl. tauto.
  - reflexivity.
Defined.

(** ** The email pattern *)

(** [local@domain.tld]: what the pattern of [RegisterForm] describes. *)
Definition email_shape (s : str) : Prop :=
  exists local domain tld : str,
    s = local ++ [64%N] ++ domain ++ [46%N] ++ tld
    /\ local <> [] /\ forallb is_local_char local = true
    /\ domain <> [] /\ forallb is_domain_char domain = true
    /\ 2 <= len tld /\ forallb is_letter tld = true.

Lemma take_drop_while (p : N -> bool) (s : str) :
  take_while p s ++ drop_while p s = s.
Proof.
  induction s as [|c s IH]; [reflexivity|]. cbn.
  destruct (p c); cbn; [now rewrite IH | reflexivity].
Qed.

Lemma drop_while_head (p : N -> bool) (s : str) (c : N) (r : str) :
  drop_while p s = c :: r -> p c = false.
Proof.
  induction s as [|x s IH]; cbn; [discriminate|].
  destruct (p x) eqn:E; [exact IH | intros [= <- _]; exact E].
Qed.

Lemma take_while_split (p : N -> bool) (l : str) (c : N) (r : str) :
  forallb p l = true -> p c = false ->
  take_while p (l ++ c :: r) = l /\ drop_while p (l ++ c :: r) = c :: r.
Proof.
  intros Hl Hc. induction l as [|x l IH]; cbn in *.
  - now rewrite Hc.
  - apply andb_true_iff in Hl. destruct Hl as [Hx Hl]. rewrite Hx.
    destruct (IH Hl) as [-> ->]. auto.
Qed.

Lemma forallb_rev {A : Type} (p : A -> bool) (l : list A) :
  forallb p (rev l) = forallb p l.
Proof.
  induction l as [|x l IH]; [reflexivity|]. cbn.
  rewrite forallb_app, IH. cbn. rewrite andb_true_r. apply andb_comm.
Qed.

Lemma forallb_weaken (p q : N -> bool) (l : str) :
  (forall c, p c = true -> q c = true) ->
  forallb p l = true -> forallb q l = true.
Proof.
  intros Hpq. rewrite !forallb_forall. auto.
Qed.

Lemma local_char_not_at (c : N) :
  is_local_char c = true -> negb (c =? 64)%N = true.
Proof.
  intros Hc. destruct (c =? 64)%N eqn:E; [|reflexivity].
  apply N.eqb_eq in E. subst c. discriminate Hc.
Qed.

Lemma domain_char_not_at (c : N) :
  is_domain_char c = true -> negb (c =? 64)%N = true.
Proof.
  intros Hc. destruct (c =? 64)%N eqn:E; [|reflexivity].
  apply N.eqb_eq in E. subst c. discriminate Hc.
Qed.

Lemma letter_not_dot (c : N) :
  is_letter c = true -> negb (c =? 46)%N = true.
Proof.
  intros Hc. destruct (c =? 46)%N eqn:E; [|reflexivity].
  apply N.eqb_eq in E. subst c. discriminate Hc.
Qed.

(** The pattern on a string from which a final newline has been taken. *)
Definition email_core (s : str) : bool :=
  let local := take_while (fun c => negb (c =? 64)%N) s in
  match drop_while (fun c => negb (c =? 64)%N) s with
  | _ :: rest =>
      let r := rev rest in
      let tld := take_while (fun c => negb (c =? 46)%N) r in
      match drop_while (fun c => negb (c =? 46)%N) r with
      | _ :: domain =>
          truthy local && forallb is_local_char local
          && truthy domain && forallb is_domain_char domain
          && (2 <=? len tld) && forallb is_letter tld
      | [] => false
      end
  | [] => false
  end.

Lemma email_regexp_core (s : str) :
  email_regexp s
  = email_core (match rev s with 10%N :: r => rev r | _ => s end).
Proof. reflexivity. Qed.

Lemma len_rev (s : str) : len (rev s) = len s.
Proof. unfold len. now rewrite length_rev. Qed.

Lemma email_core_shape (s : str) : email_core s = true <-> email_shape s.
Proof.
  unfold email_core, email_shape. split.
  - pose proof (take_drop_while (fun c => negb (c =? 64)%N) s) as Hs.
    destruct (drop_while (fun c => negb (c =? 64)%N) s) as [|c rest] eqn:Ed;
      [discriminate|].
    apply drop_while_head in Ed. apply negb_false_iff, N.eqb_eq in Ed.
    subst c.
    pose proof (take_drop_while (fun c => negb (c =? 46)%N) (rev rest)) as Hr.
    destruct (drop_while (fun c => negb (c =? 46)%N) (rev rest))
      as [|c domain] eqn:Ed2; [discriminate|].
    apply drop_while_head in Ed2. apply negb_false_iff, N.eqb_eq in Ed2.
    subst c. intros H.
    repeat (apply andb_true_iff in H; destruct H as [H ?]).
    remember (take_while (fun c => negb (c =? 46)%N) (rev rest)) as tld_r.
    assert (Hrest : rest = rev domain ++ [46%N] ++ rev tld_r).
    { apply (f_equal (@rev N)) in Hr. rewrite rev_involutive in Hr.
      rewrite <- Hr, rev_app_distr. cbn [rev]. now rewrite <- app_assoc. }
    exists (take_while (fun c => negb (c =? 64)%N) s), (rev domain),
      (rev tld_r).
    repeat split.
    + rewrite <- Hrest. symmetry. exact Hs.
    + now apply truthy_nonempty.
    + assumption.
    + intros E. apply (f_equal (@rev N)) in E. rewrite rev_involutive in E.
      subst domain. discriminate.
    + now rewrite forallb_rev.
    + rewrite len_rev. now apply Z.leb_le.
    + now rewrite forallb_rev.
  - intros (local & domain & tld & -> & Hl & Hlc & Hd & Hdc & Ht & Htc).
    cbn [app].
    destruct (take_while_split (fun c => negb (c =? 64)%N) local 64%N
                (domain ++ 46%N :: tld)) as [-> ->].
    { eapply forallb_weaken; [apply local_char_not_at | exact Hlc]. }
    { reflexivity. }
    rewrite !rev_app_distr. cbn [rev app]. rewrite <- app_assoc. cbn [app].
    destruct (take_while_split (fun c => negb (c =? 46)%N) (rev tld) 46%N
                (rev domain)) as [-> ->].
    { rewrite forallb_rev.
      eapply forallb_weaken; [apply letter_not_dot | exact Htc]. }
    { reflexivity. }
    rewrite !forallb_rev, len_rev, Hlc, Hdc, Htc.
    apply Z.leb_le in Ht. rewrite Ht.
    apply truthy_nonempty in Hl. rewrite Hl.
    assert (Hrd : truthy (rev domain) = true).
    { apply truthy_nonempty. intros E. apply Hd.
      apply (f_equal (@rev N)) in E. now rewrite rev_involutive in E. }
    rewrite Hrd. reflexivity.
Qed.

Lemma email_shape_last (s : str) :
  email_shape s -> exists s' c, s = s' ++ [c] /\ is_letter c = true.
Proof.
  intros (local & domain & tld & -> & _ & _ & _ & _ & Ht & Htc).
  destruct (exists_last (l := tld)) as (t & c & ->).
  { intros ->. cbn in Ht. lia. }
  exists (local ++ [64%N] ++ domain ++ [46%N] ++ t), c. split.
  - now rewrite <- !app_assoc.
  - rewrite forallb_app in Htc. apply andb_true_iff in Htc.
    destruct Htc as [_ Hc]. cbn in Hc. now rewrite andb_true_r in Hc.
Qed.

Lemma newline_taken (s : str) :
  (exists s0, s = s0 ++ [10%N]
              /\ match rev s with 10%N :: r => rev r | _ => s end = s0)
  \/ ((forall s0, s <> s0 ++ [10%N])
      /\ match rev s with 10%N :: r => rev r | _ => s end = s).
Proof.
  destruct (rev s) as [|c r] eqn:E.
  - right. split; [|reflexivity]. intros s0 ->.
    rewrite rev_app_distr in E. discriminate.
  - destruct (N.eq_dec c 10) as [-> | Hne].
    + left. exists (rev r). split; [|reflexivity].
      rewrite <- (rev_involutive s), E. reflexivity.
    + right. split.
      * intros s0 ->. rewrite rev_app_distr in E. cbn in E. congruence.
      * destruct c as [|p]; [reflexivity|].
        do 5 (try (destruct p as [p|p|]; try reflexivity;
                   try (exfalso; apply Hne; reflexivity))).
Qed.

(** X28. The email pattern of the register form accepts exactly the
    strings [local@domain.tld] with a local part of one or more of the
    characters a-z A-Z 0-9 . _ % + -, a domain of one or more of
    a-z A-Z 0-9 . -, and a top-level domain of two or more letters, and
    such a string followed by one newline (which [$] lets through). *)
Theorem email_regexp_accepts (s : str) :
  email_regexp s = true <->
  email_shape s \/ exists s0, s = s0 ++ [10%N] /\ email_shape s0.
Proof.
  rewrite email_regexp_core.
  destruct (newline_taken s) as [(s0 & -> & ->) | [Hno ->]];
    rewrite email_core_shape.
  - split.
    + intros Hs. right. eauto.
    + intros [Hs | (s1 & E & Hs)].
      * destruct (email_shape_last Hs) as (s' & c & E & Hc).
        apply app_inj_tail in E. destruct E as [_ <-]. discriminate.
      * apply app_inj_tail in E. destruct E as [-> _]. exact Hs.
  - split; [auto|]. intros [Hs | (s0 & E & _)]; [exact Hs|].
    now contradiction (Hno s0).
Qed.

(** ** The admin page and single toggles *)

(** X29. What the admin page shows to an admin or superadmin: every row
    of the user table, each once, highest id first; and the superadmin
    controls exactly when the viewer's own row passes the superadmin
    check.  Nothing is written. *)
Theorem admin_page_lists_users
  {engine : Engine} (cfg : config) (d : database) (s : session) (uid : Z)
  (actor : user) :
  sess_user_id s = Some uid -> uid <> 0 ->
  fetchone (select_user_by_id uid d) = Some actor ->
  is_admin actor = 1 \/ is_admin actor = 2 ->
  exists rows : list user,
    admin cfg d s
    = (mkResponse (render_admin rows (is_superadmin (ADMIN_USER cfg) actor)) [],
       d, s)
    /\ Permutation rows (users d)
    /\ StronglySorted (fun x y => u_id y <= u_id x) rows.
Proof.
  intros Hsess Huid Hrow Hrole. unfold admin.
  rewrite (@admin_required_admits d s uid actor Hsess Huid Hrow _ Hrole).
  open_connection. rewrite Hsess.
  apply Z.eqb_neq in Huid. rewrite Huid, Hrow.
  eexists. split; [reflexivity|]. split.
  - apply order_by_perm.
  - apply (order_by_sorted u_id true).
Qed.

Lemma admin_page_lists_users_witness :
  exists rows : list user,
    @admin stable Sample.pinned Sample.db (Sample.session_of Sample.alice)
    = (mkResponse
         (render_admin rows
            (is_superadmin (ADMIN_USER Sample.pinned) Sample.alice)) [],
       Sample.db, Sample.session_of Sample.alice)
    /\ Permutation rows (users Sample.db)
    /\ StronglySorted (fun x y => u_id y <= u_id x) rows.
Proof.
  apply (@admin_page_lists_users stable Sample.pinned Sample.db
           (Sample.session_of Sample.alice) 2 Sample.alice).
  - reflexivity.
  - lia.
  - reflexivity.
  - left. reflexivity.
Defined.

(** X30. One toggle touches one reaction.  Whatever [react_to_note]
    does for a logged-in user, every reaction other than that user's own
    (note, user, stripped emoji) is held after it exactly when it was
    held before, and users and notes are as they were. *)
Theorem react_touches_one_reaction
  (d : database) (s : session) (uid note_id : Z) (emoji_field : str)
  (now : Z) (n' u' : Z) (e' : str) :
  sess_user_id s = Some uid ->
  (n', u', e') <> (note_id, uid, strip emoji_field) ->
  let d' := database_of (react_to_note d s note_id emoji_field now) in
  has_reaction d' n' u' e' = has_reaction d n' u' e'
  /\ users d' = users d /\ notes d' = notes d.
Proof.
  intros Hsess Hother d'.
  assert (Hdiff : same_reaction n' u' e'
                    (mkReaction 0 note_id uid (strip emoji_field) 0) = false).
  { destruct (same_reaction _ _ _ _) eqn:E; [|reflexivity].
    apply same_reaction_eq in E. destruct E as (E1 & E2 & E3).
    exfalso. apply Hother. now rewrite E1, E2, E3. }
  unfold d', react_to_note, database_of. rewrite Hsess.
  destruct (negb (truthy (strip emoji_field))); [cbn; auto|].
  open_connection.
  destruct (negb (fits_sqlite_integer note_id)); [cbn; auto|].
  destruct (fetchone (select_note_by_id note_id d)); [|cbn; auto].
  destruct (fetchone (select_reaction note_id uid (strip emoji_field) d)).
  - cbn [fst snd]. rewrite has_reaction_deleted, same_reaction_swap, Hdiff.
    cbn. rewrite andb_true_r. auto.
  - destruct (insert_reaction note_id uid (strip emoji_field) now d)
      as [t|] eqn:Hins; [|cbn; auto].
    cbn [fst snd].
    rewrite (has_reaction_inserted _ _ _ _ _ n' u' e' Hins), Hdiff.
    destruct (insert_reaction_frame _ _ _ _ _ Hins) as (Hu & Hn & _).
    rewrite orb_false_r. auto.
Qed.

Lemma react_touches_one_reaction_witness :
  has_reaction
    (database_of
       (react_to_note Sample.db_abc (Sample.session_of Sample.bob) 1
          (lit "c") 500))
    1 2 (lit "b")
  = has_reaction Sample.db_abc 1 2 (lit "b").
Proof.
  apply (@react_touches_one_reaction Sample.db_abc
           (Sample.session_of Sample.bob) 3 1 (lit "c") 500 1 2 (lit "b")).
  - reflexivity.
  - discriminate.
Defined.
